(** * Timetable allocation tool: the allocation and grid-consistency engine

    A shallow embedding of [app.py]: the availability matcher
    ([normalize], [split_multi_value_field], [slot_aliases],
    [teacher_is_available_for_slot]), the grid repair
    ([deduplicate_grid_sessions], [get_or_create_grid_cell_session]), the
    greedy allocator ([allocate_sessions]) and the grid view builder
    ([build_schedule]), followed by the properties of the specification.

    Conventions of the embedding.
    - A Python [str] is a [string]; each character stands for a code point
      below 256.
    - An integer primary key is a [Z]; a nullable column is an [option].
    - A [KeyError] or an attribute access on [None] is the [None] of the
      option monad; everything else is total.
    - A [dict] that is only looked up is a [gmap]; a [dict] whose iteration
      order is used is an association list in insertion order; a [set] that
      is only tested for membership is a list or a [gset].
    - An ORM object is a row of the table, referred to by its position. *)

From Stdlib Require Import Ascii ZArith Lia.
From stdpp Require Import base option list gmap strings sorting.

Local Open Scope string_scope.
Local Open Scope list_scope.

(** ** Python string primitives *)

Module Py.

(** [str.isspace] on a single character (also the class [\s] of [re]). *)
Definition isspace (c : ascii) : bool :=
  let n := nat_of_ascii c in
  ((9 <=? n)%nat && (n <=? 13)%nat) || ((28 <=? n)%nat && (n <=? 32)%nat)
  || (n =? 133)%nat || (n =? 160)%nat.

(** [str.lower] on a single character. *)
Definition lower_char (c : ascii) : ascii :=
  let n := nat_of_ascii c in
  if ((65 <=? n)%nat && (n <=? 90)%nat)
     || ((192 <=? n)%nat && (n <=? 222)%nat && negb (n =? 215)%nat)
  then ascii_of_nat (n + 32) else c.

Fixpoint lower (s : string) : string :=
  match s with
  | EmptyString => EmptyString
  | String c s' => String (lower_char c) (lower s')
  end.

Fixpoint lstrip (s : string) : string :=
  match s with
  | EmptyString => EmptyString
  | String c s' => if isspace c then lstrip s' else s
  end.

Fixpoint rstrip (s : string) : string :=
  match s with
  | EmptyString => EmptyString
  | String c s' =>
      match rstrip s' with
      | EmptyString => if isspace c then EmptyString else String c EmptyString
      | r => String c r
      end
  end.

(** [s.strip()] *)
Definition strip (s : string) : string := rstrip (lstrip s).

(** [re.split] on a one-character class [sep]: [n] separators give
    [n + 1] pieces, empty ones included. *)
Fixpoint split (sep : ascii -> bool) (s : string) : list string :=
  match s with
  | EmptyString => [EmptyString]
  | String c s' =>
      if sep c then EmptyString :: split sep s'
      else match split sep s' with
           | [] => [String c EmptyString]
           | p :: ps => String c p :: ps
           end
  end.

(** [sep.join(parts)] *)
Fixpoint join (sep : string) (parts : list string) : string :=
  match parts with
  | [] => EmptyString
  | [p] => p
  | p :: ps => p +:+ sep +:+ join sep ps
  end.

(** [re.sub(r"\s+", " ", s)]: every maximal run of whitespace becomes one
    space. [in_run] tells that the previous character was whitespace. *)
Fixpoint collapse_ws (in_run : bool) (s : string) : string :=
  match s with
  | EmptyString => EmptyString
  | String c s' =>
      if isspace c
      then if in_run then collapse_ws true s' else String " " (collapse_ws true s')
      else String c (collapse_ws false s')
  end.

(** [s.startswith(c)] for a one-character prefix. *)
Definition startswith (c : ascii) (s : string) : bool :=
  match s with
  | String c' _ => bool_decide (c' = c)
  | EmptyString => false
  end.

(** [s[1:]] *)
Definition tail (s : string) : string :=
  match s with
  | String _ s' => s'
  | EmptyString => EmptyString
  end.

(** Truth value of a string: [bool(s)]. *)
Definition nonempty (s : string) : bool :=
  match s with EmptyString => false | _ => true end.

(** Truth value of an optional integer: [None] and [0] are false. *)
Definition truthy (o : option Z) : bool :=
  match o with
  | Some z => negb (z =? 0)%Z
  | None => false
  end.

End Py.

(** ** The fixed vocabulary *)

Definition WEEK_DAYS : list string :=
  ["Monday"; "Tuesday"; "Wednesday"; "Thursday"; "Friday"].

Definition LEGACY_YEAR_GROUP_MAP : list (string * string) :=
  [("First", "Grade 1"); ("Second", "Grade 2"); ("Third", "Grade 3");
   ("Fourth", "Grade 4"); ("Fifth", "Grade 5")].

Definition YEAR_GROUPS : list string := snd <$> LEGACY_YEAR_GROUP_MAP.

(** A row of [TIME_ROWS]: the slot and whether it is the lunch break. *)
Definition TIME_ROWS : list (string * bool) :=
  [("08:00-09:00", false); ("09:00-10:00", false); ("10:00-11:00", false);
   ("11:00-12:00", false); ("12:00-13:00", true); ("13:00-14:00", false);
   ("14:00-15:00", false)].

Definition TEACHING_SLOTS : list string :=
  fst <$> filter (fun row => negb (snd row)) TIME_ROWS.

Definition DAY_SHORT : list (string * string) :=
  [("Monday", "Mon"); ("Tuesday", "Tue"); ("Wednesday", "Wed");
   ("Thursday", "Thu"); ("Friday", "Fri")].

(** [d[key]] on a literal dictionary: [None] is the [KeyError]. *)
Fixpoint dict_get {V} (key : string) (d : list (string * V)) : option V :=
  match d with
  | [] => None
  | (k, v) :: d' => if bool_decide (k = key) then Some v else dict_get key d'
  end.

(** [key in xs] for a list of strings. *)
Definition str_in (key : string) (xs : list string) : bool :=
  bool_decide (key ∈ xs).

(** ** The data model *)

Module Teacher.
Record t := mk {
  id : Z;
  name : string;
  free_slots : string;
  skills : list Z  (** the ids of the related [Skill] rows *)
}.
End Teacher.

Module Session.
Record t := mk {
  id : Z;
  required_skill_id : Z;
  slot : string;
  assigned_teacher_id : option Z;
  day : option string;
  year_group : option string
}.

Definition with_teacher (v : option Z) (s : t) : t :=
  mk (id s) (required_skill_id s) (slot s) v (day s) (year_group s).

Definition with_skill (k : Z) (s : t) : t :=
  mk (id s) k (slot s) (assigned_teacher_id s) (day s) (year_group s).

#[export] Instance eq_dec : EqDecision t.
Proof. solve_decision. Defined.
End Session.

(** ** Availability matcher *)

Definition normalize (text : string) : string :=
  Py.collapse_ws false (Py.lower (Py.strip text)).

Definition is_multi_sep (c : ascii) : bool :=
  bool_decide (c = "|"%char) || bool_decide (c = ";"%char) || bool_decide (c = ","%char).

Definition split_multi_value_field (value : string) : list string :=
  let text := Py.strip value in
  if Py.nonempty text
  then filter (fun item => Py.nonempty item) (Py.strip <$> Py.split is_multi_sep text)
  else [].

Definition normalize_slot_csv (text : string) : string :=
  Py.join ", " (split_multi_value_field text).

(** Every day of [WEEK_DAYS] is a key of [DAY_SHORT] (see
    [DAY_SHORT_total]), so the lookup in the loop below cannot fail. *)
Definition default_free_slots : string :=
  Py.join ", "
    (List.concat
       ((fun day =>
           (fun slot => default EmptyString (dict_get day DAY_SHORT) +:+ " " +:+ slot)
             <$> TEACHING_SLOTS) <$> WEEK_DAYS)).

(** The start time of a slot: [slot.split("-")[0]]. *)
Definition slot_start (slot : string) : string :=
  match Py.split (fun c => bool_decide (c = "-"%char)) slot with
  | p :: _ => p
  | [] => EmptyString
  end.

Definition slot_aliases (day slot : string) : option (list string) :=
  let start := slot_start slot in
  let short_start := if Py.startswith "0" start then Py.tail start else start in
  let day_norm := normalize day in
  short ← dict_get day DAY_SHORT;
  let day_short_norm := normalize short in
  Some [ normalize (day_norm +:+ " " +:+ slot);
         normalize (day_short_norm +:+ " " +:+ slot);
         normalize (day_norm +:+ " " +:+ start);
         normalize (day_short_norm +:+ " " +:+ start);
         normalize (day_norm +:+ " " +:+ short_start);
         normalize (day_short_norm +:+ " " +:+ short_start) ].

Definition teacher_slot_tokens (teacher : Teacher.t) : list string :=
  normalize <$> split_multi_value_field (Teacher.free_slots teacher).

Definition teacher_is_available_for_slot
    (tokens : list string) (day slot : string) : option bool :=
  aliases ← slot_aliases day slot;
  Some (existsb (fun token => str_in token aliases) tokens).

(** ** Sorting as Python does

    [list.sort(key=f)] and [ORDER BY] are modelled by one stable sort on
    the list decorated with its keys: an insertion sort that puts an
    element before the first element whose key is not smaller. Every
    stable sort returns the same list. *)

Section StableSort.
Context {K A : Type} (leb : K -> K -> bool).

Fixpoint insert_by (x : K * A) (l : list (K * A)) : list (K * A) :=
  match l with
  | [] => [x]
  | y :: l' => if leb x.1 y.1 then x :: y :: l' else y :: insert_by x l'
  end.

Definition sort_decorated (l : list (K * A)) : list (K * A) :=
  foldr insert_by [] l.

(** [l.sort(key=key)] where computing a key may raise. *)
Definition sort_by_key (key : A -> option K) (l : list A) : option (list A) :=
  ks ← mapM (fun x => k ← key x; Some (k, x)) l;
  Some (snd <$> sort_decorated ks).

(** The same with a key that cannot raise. *)
Definition sort_by (key : A -> K) (l : list A) : list A :=
  snd <$> sort_decorated ((fun x => (key x, x)) <$> l).
End StableSort.

(** Comparison of Python tuples: lexicographic. *)
Definition pair_leb {K1 K2} (ltb1 : K1 -> K1 -> bool) (eqb1 : K1 -> K1 -> bool)
    (leb2 : K2 -> K2 -> bool) (a b : K1 * K2) : bool :=
  ltb1 a.1 b.1 || (eqb1 a.1 b.1 && leb2 a.2 b.2).

(** ** Grid index: the consistency repair *)

(** A reference to an ORM object: the position of its row. *)
Definition ref := nat.

Definition rows (table : list Session.t) : list (ref * Session.t) :=
  imap (fun i s => (i, s)) table.

(** The filter of [grid_sessions_query]; [NULL IN (...)] is not true. *)
Definition in_grid (s : Session.t) : bool :=
  match Session.day s, Session.year_group s with
  | Some d, Some y =>
      str_in d WEEK_DAYS && str_in (Session.slot s) TEACHING_SLOTS && str_in y YEAR_GROUPS
  | _, _ => false
  end.

Definition grid_sessions_query (table : list Session.t) : list (ref * Session.t) :=
  filter (fun p => in_grid p.2) (rows table).

(** [.order_by(Session.id.asc())] *)
Definition order_by_id (l : list (ref * Session.t)) : list (ref * Session.t) :=
  sort_by Z.leb (fun p => Session.id p.2) l.

Definition cell_key : Type := option string * string * option string.
Definition hour_key : Type := option string * string.

Definition cell_of (s : Session.t) : cell_key :=
  (Session.day s, Session.slot s, Session.year_group s).

Definition hour_of (s : Session.t) : hour_key :=
  (Session.day s, Session.slot s).

(** [d[k].append(v)] on a [defaultdict(list)], keys in insertion order. *)
Fixpoint dict_append {K V} `{EqDecision K} (k : K) (v : V)
    (d : list (K * list V)) : list (K * list V) :=
  match d with
  | [] => [(k, [v])]
  | (k', vs) :: d' =>
      if decide (k = k') then (k', vs ++ [v]) :: d' else (k', vs) :: dict_append k v d'
  end.

Record repair_state := RepairState {
  store : list Session.t;      (** the loaded objects, by reference *)
  deleted : list ref;          (** objects passed to [db.session.delete] *)
  removed : nat;
  unassigned_conflicts : nat
}.

(** The first loop: the two groupings, built from the rows as loaded. *)
Definition group_by_cell (loaded : list (ref * Session.t)) : list (cell_key * list ref) :=
  foldl (fun by_cell p => dict_append (cell_of p.2) p.1 by_cell) [] loaded.

Definition group_by_teacher_slot (loaded : list (ref * Session.t))
    : list ((hour_key * Z) * list ref) :=
  foldl (fun by_teacher_slot p =>
           match Session.assigned_teacher_id p.2 with
           | Some tid =>
               if Py.truthy (Some tid)
               then dict_append (hour_of p.2, tid) p.1 by_teacher_slot
               else by_teacher_slot
           | None => by_teacher_slot
           end) [] loaded.

(** The body of [for extra in sessions[1:]] of the cell loop; the same
    three lines are the loop body of [get_or_create_grid_cell_session]. *)
Definition merge_extra (keep extra : ref) (st : repair_state) : repair_state :=
  match store st !! keep, store st !! extra with
  | Some k, Some e =>
      let store' :=
        if bool_decide (Session.assigned_teacher_id k = None)
           && bool_decide (Session.assigned_teacher_id e <> None)
        then <[keep := Session.with_teacher (Session.assigned_teacher_id e) k]> (store st)
        else store st in
      RepairState store' (deleted st ++ [extra]) (S (removed st)) (unassigned_conflicts st)
  | _, _ => st
  end.

Definition merge_cell (st : repair_state) (sessions : list ref) : repair_state :=
  if (length sessions <=? 1)%nat then st
  else match sessions with
       | keep :: extras => foldl (fun st extra => merge_extra keep extra st) st extras
       | [] => st
       end.

(** The body of [for extra in sessions[1:]] of the teacher loop. *)
Definition clear_extra (st : repair_state) (extra : ref) : repair_state :=
  match store st !! extra with
  | Some e =>
      RepairState (<[extra := Session.with_teacher None e]> (store st))
        (deleted st) (removed st) (S (unassigned_conflicts st))
  | None => st
  end.

Definition clear_conflicts (st : repair_state) (sessions : list ref) : repair_state :=
  if (length sessions <=? 1)%nat then st
  else foldl clear_extra st (List.tl sessions).

(** The rows left once the deletions are flushed. *)
Definition surviving (st : repair_state) : list Session.t :=
  snd <$> filter (fun p => p.1 ∉ deleted st) (rows (store st)).

Record repair_result := RepairResult {
  table_after : list Session.t;
  removed_duplicate_cells : nat;
  unassigned_teacher_conflicts : nat
}.

Definition deduplicate_grid_sessions (table : list Session.t) : repair_result :=
  let loaded := order_by_id (grid_sessions_query table) in
  let by_cell := group_by_cell loaded in
  let by_teacher_slot := group_by_teacher_slot loaded in
  let st0 := RepairState table [] 0 0 in
  let st1 := foldl merge_cell st0 (snd <$> by_cell) in
  let st2 := foldl clear_conflicts st1 (snd <$> by_teacher_slot) in
  let committed :=
    if (0 <? removed st2)%nat || (0 <? unassigned_conflicts st2)%nat
    then surviving st2 else table in
  RepairResult committed (removed st2) (unassigned_conflicts st2).

(** The primary key given to a row inserted without one. *)
Definition next_id (table : list Session.t) : Z :=
  (1 + foldr Z.max 0 (Session.id <$> table))%Z.

Definition get_or_create_grid_cell_session
    (day slot year_group : string) (required_skill_id : Z)
    (table : list Session.t) : list Session.t * Session.t * nat :=
  let matches :=
    fst <$> order_by_id
      (filter (fun p => bool_decide (cell_of p.2 = (Some day, slot, Some year_group)))
         (rows table)) in
  match matches with
  | [] =>
      let created :=
        Session.mk (next_id table) required_skill_id slot None (Some day) (Some year_group) in
      (table ++ [created], created, 0)
  | primary :: extras =>
      let st := foldl (fun st extra => merge_extra primary extra st)
                  (RepairState table [] 0 0) extras in
      (surviving st, default (Session.mk 0 0 slot None None None) (store st !! primary),
       removed st)
  end.

(** *** The two grid invariants *)

(** (I1) no two rows of the grid share a cell. *)
Definition I1 (table : list Session.t) : Prop :=
  forall i j si sj,
    table !! i = Some si -> table !! j = Some sj -> i <> j ->
    in_grid si = true -> in_grid sj = true ->
    cell_of si <> cell_of sj.

(** (I2) no two rows of the grid with the same assigned teacher share an
    hour. *)
Definition I2 (table : list Session.t) : Prop :=
  forall i j si sj tid,
    table !! i = Some si -> table !! j = Some sj -> i <> j ->
    in_grid si = true -> in_grid sj = true ->
    Session.assigned_teacher_id si = Some tid ->
    Session.assigned_teacher_id sj = Some tid ->
    hour_of si <> hour_of sj.

(** ** Allocator *)

(** [{value: idx for idx, value in enumerate(values)}]; the vocabulary
    lists have no repeated entry. *)
Definition enumerate_dict (values : list string) : list (string * nat) :=
  imap (fun idx value => (value, idx)) values.

Definition day_order : list (string * nat) := enumerate_dict WEEK_DAYS.
Definition slot_order : list (string * nat) := enumerate_dict TEACHING_SLOTS.
Definition year_order : list (string * nat) := enumerate_dict YEAR_GROUPS.

(** The key of [session_rows.sort]. *)
Definition session_sort_key (item : Session.t) : option (nat * (nat * nat)) :=
  day ← Session.day item;
  year ← Session.year_group item;
  d ← dict_get day day_order;
  s ← dict_get (Session.slot item) slot_order;
  y ← dict_get year year_order;
  Some (d, (s, y)).

Definition triple_leb : nat * (nat * nat) -> nat * (nat * nat) -> bool :=
  pair_leb Nat.ltb Nat.eqb (pair_leb Nat.ltb Nat.eqb Nat.leb).

(** The key of [matches.sort] is a pair of a load and a lower-cased name. *)
Definition load_name_leb : nat * string -> nat * string -> bool :=
  pair_leb Nat.ltb Nat.eqb String.leb.

(** [{teacher.id: f(teacher) for teacher in teacher_rows}] *)
Definition dict_by_id {V} (f : Teacher.t -> V) (teacher_rows : list Teacher.t) : gmap Z V :=
  foldl (fun m teacher => <[Teacher.id teacher := f teacher]> m) ∅ teacher_rows.

(** [busy_at_slot[hour]] on a [defaultdict(set)]: a missing key reads as the
    empty set. *)
Definition busy_at (busy_at_slot : gmap hour_key (gset Z)) (hour : hour_key) : gset Z :=
  default ∅ (busy_at_slot !! hour).

Record alloc_state := AllocState {
  busy_at_slot : gmap hour_key (gset Z);
  assigned_count : gmap Z nat;
  assigned : nat;
  unassigned : nat
}.

(** [Teacher.query.order_by(Teacher.name.asc()).all()] *)
Definition teachers_by_name (teachers : list Teacher.t) : list Teacher.t :=
  sort_by String.leb Teacher.name teachers.

(** A loop that keeps the elements passing a test that may raise. *)
Fixpoint filter_raising {A} (test : A -> option bool) (l : list A) : option (list A) :=
  match l with
  | [] => Some []
  | x :: l' =>
      b ← test x;
      rest ← filter_raising test l';
      Some (if b : bool then x :: rest else rest)
  end.

Definition teacher_tokens (teacher_rows : list Teacher.t) : gmap Z (list string) :=
  dict_by_id teacher_slot_tokens teacher_rows.

Definition teacher_skill_ids (teacher_rows : list Teacher.t) : gmap Z (list Z) :=
  dict_by_id Teacher.skills teacher_rows.

Section Allocate.
Variable teacher_rows : list Teacher.t.

(** The three tests of the inner loop, in the order of the code: a later
    test is evaluated only when the earlier ones let the teacher pass. *)
Definition is_match (st : alloc_state) (session : Session.t) (teacher : Teacher.t)
    : option bool :=
  if negb (bool_decide (Session.required_skill_id session
                          ∈ default [] (teacher_skill_ids teacher_rows !! Teacher.id teacher)))
  then Some false
  else
    day ← Session.day session;
    available ← teacher_is_available_for_slot
                  (default [] (teacher_tokens teacher_rows !! Teacher.id teacher))
                  day (Session.slot session);
    if negb available then Some false
    else if bool_decide (Teacher.id teacher
                           ∈ busy_at (busy_at_slot st) (hour_of session))
         then Some false
         else Some true.

Definition find_matches (st : alloc_state) (session : Session.t) : option (list Teacher.t) :=
  filter_raising (is_match st session) teacher_rows.

Definition match_sort_key (st : alloc_state) (teacher : Teacher.t) : option (nat * string) :=
  count ← assigned_count st !! Teacher.id teacher;
  Some (count, Py.lower (Teacher.name teacher)).

(** [matches.sort(key=...)] followed by [selected = matches[0]]. *)
Definition select_teacher (st : alloc_state) (matches : list Teacher.t) : option Teacher.t :=
  sorted ← sort_by_key load_name_leb (match_sort_key st) matches;
  head sorted.

(** One iteration of the main loop. *)
Definition allocate_one (st : alloc_state) (session : Session.t)
    : option (alloc_state * Session.t) :=
  matches ← find_matches st session;
  match matches with
  | [] =>
      Some (AllocState (busy_at_slot st) (assigned_count st) (assigned st)
              (S (unassigned st)), session)
  | _ :: _ =>
      selected ← select_teacher st matches;
      count ← assigned_count st !! Teacher.id selected;
      let hour := hour_of session in
      Some (AllocState
              (<[hour := {[Teacher.id selected]} ∪ busy_at (busy_at_slot st) hour]>
                 (busy_at_slot st))
              (<[Teacher.id selected := S count]> (assigned_count st))
              (S (assigned st)) (unassigned st),
            Session.with_teacher (Some (Teacher.id selected)) session)
  end.

Fixpoint allocate_loop (st : alloc_state) (session_rows : list Session.t)
    : option (alloc_state * list Session.t) :=
  match session_rows with
  | [] => Some (st, [])
  | session :: rest =>
      '(st1, session') ← allocate_one st session;
      '(st2, rest') ← allocate_loop st1 rest;
      Some (st2, session' :: rest')
  end.
End Allocate.

(** What the loop of [allocate_sessions] leaves in the session. *)
Record alloc_result := AllocResult {
  sessions_after : list Session.t;  (** the grid rows, in processing order *)
  assigned_total : nat;
  unassigned_total : nat
}.

(** [allocate_sessions] up to its last statement: the objects of the grid
    rows as the loop leaves them in the session, and the two counters;
    [None] is a [KeyError]. Nothing is written to the table here: the
    commit that ends the function is [commit] below, and the function with
    its commit is [allocate_and_commit]. *)
Definition allocate_sessions (teachers : list Teacher.t) (table : list Session.t)
    : option alloc_result :=
  let teacher_rows := teachers_by_name teachers in
  let session_rows := filter (fun s => in_grid s) table in
  sorted ← sort_by_key triple_leb session_sort_key session_rows;
  let assigned_count := dict_by_id (fun _ => 0) teacher_rows in
  let cleared := Session.with_teacher None <$> sorted in
  '(st, out) ← allocate_loop teacher_rows (AllocState ∅ assigned_count 0 0) cleared;
  Some (AllocResult out (assigned st) (unassigned st)).

(** ** Grid view builder *)

(** An entry of [teacher_options]. The display label of the skills is
    presentation only and is left out. *)
Module TeacherOption.
Record t := mk {
  id : Z;
  name : string;
  selected : bool;
  available : bool;
  busy : bool;
  has_skill : bool;
  selectable : bool
}.
End TeacherOption.

(** A cell of a teaching row. The name of the assigned teacher is
    presentation only and is left out. *)
Module Cell.
Record t := mk {
  year_group : string;
  day : string;
  slot : string;
  session_id : option Z;
  required_skill_id : option Z;
  assigned_teacher_id : option Z;
  teacher_options : list TeacherOption.t
}.
End Cell.

Module Row.
Record t := mk {
  is_lunch : bool;
  slot : string;
  cells : list Cell.t
}.
End Row.

(** [{(s.day, s.slot, s.year_group): s for s in schedule_sessions}]: a
    later row replaces an earlier one with the same key. *)
Definition session_lookup (schedule_sessions : list Session.t) : gmap cell_key Session.t :=
  foldl (fun m session => <[cell_of session := session]> m) ∅ schedule_sessions.

(** The teachers taken in each hour, from the rows as they are. *)
Definition busy_snapshot (schedule_sessions : list Session.t) : gmap hour_key (gset Z) :=
  foldl (fun m session =>
           match Session.assigned_teacher_id session with
           | Some tid =>
               if Py.truthy (Some tid)
               then <[hour_of session := {[tid]} ∪ busy_at m (hour_of session)]> m
               else m
           | None => m
           end) ∅ schedule_sessions.

Section BuildSchedule.
Variables (teachers : list Teacher.t) (sessions : list Session.t).

Definition schedule_sessions : list Session.t := filter (fun s => in_grid s) sessions.

Definition teacher_option (day slot : string)
    (current_teacher_id required_skill_id : option Z) (teacher : Teacher.t)
    : option TeacherOption.t :=
  tokens ← teacher_tokens teachers !! Teacher.id teacher;
  available ← teacher_is_available_for_slot tokens day slot;
  let busy_elsewhere :=
    bool_decide (Teacher.id teacher
                   ∈ busy_at (busy_snapshot schedule_sessions) (Some day, slot))
    && bool_decide (Some (Teacher.id teacher) <> current_teacher_id) in
  let has_skill :=
    match required_skill_id with
    | Some k =>
        if Py.truthy (Some k)
        then bool_decide (k ∈ default [] (teacher_skill_ids teachers !! Teacher.id teacher))
        else true
    | None => true
    end in
  let selectable := available && negb busy_elsewhere && has_skill in
  Some (TeacherOption.mk (Teacher.id teacher) (Teacher.name teacher)
          (bool_decide (Some (Teacher.id teacher) = current_teacher_id))
          available busy_elsewhere has_skill selectable).

Definition build_cell (day slot year_group : string) : option Cell.t :=
  let existing := session_lookup schedule_sessions !! (Some day, slot, Some year_group) in
  let current_teacher_id := existing ≫= Session.assigned_teacher_id in
  let required_skill_id := Session.required_skill_id <$> existing in
  teacher_options ← mapM (teacher_option day slot current_teacher_id required_skill_id)
                      teachers;
  Some (Cell.mk year_group day slot (Session.id <$> existing) required_skill_id
          current_teacher_id teacher_options).

Definition build_row (day : string) (row : string * bool) : option Row.t :=
  let slot := row.1 in
  if row.2 then Some (Row.mk true slot [])
  else
    cells ← mapM (build_cell day slot) YEAR_GROUPS;
    Some (Row.mk false slot cells).

(** The schedule, as the list of its items in insertion order. *)
Definition build_schedule : option (list (string * list Row.t)) :=
  mapM (fun day => day_rows ← mapM (build_row day) TIME_ROWS; Some (day, day_rows))
    WEEK_DAYS.
End BuildSchedule.

(** ** Where a free-time declaration is stored *)

(** [create_teacher]: the value stored in [free_slots]. *)
Definition create_teacher_free_slots (form_free_slots : string) : string :=
  let free_slots_raw := Py.strip form_free_slots in
  if Py.nonempty free_slots_raw then normalize_slot_csv free_slots_raw
  else default_free_slots.

(** [create_teacher]: the row added, unless the name is missing. *)
Definition create_teacher (new_id : Z) (form_name form_free_slots : string)
    (skill_ids : list Z) : option Teacher.t :=
  let name := Py.strip form_name in
  if Py.nonempty name
  then Some (Teacher.mk new_id name (create_teacher_free_slots form_free_slots) skill_ids)
  else None.

(** [update_teacher]: the value stored in [free_slots]; the form field may
    be absent. *)
Definition update_teacher_free_slots (teacher : Teacher.t)
    (form_free_slots : option string) : string :=
  match form_free_slots with
  | Some free_slots_raw =>
      if negb (Py.nonempty (Py.strip free_slots_raw))
      then if Py.nonempty (Teacher.free_slots teacher)
           then Teacher.free_slots teacher else default_free_slots
      else normalize_slot_csv free_slots_raw
  | None =>
      if Py.nonempty (Teacher.free_slots teacher)
      then Teacher.free_slots teacher else default_free_slots
  end.

(** [update_teacher]: the row after the update, unless the name is missing. *)
Definition update_teacher (teacher : Teacher.t) (form_name : string)
    (form_free_slots : option string) (skill_ids : list Z) : option Teacher.t :=
  let name := Py.strip form_name in
  if Py.nonempty name
  then Some (Teacher.mk (Teacher.id teacher) name
               (update_teacher_free_slots teacher form_free_slots) skill_ids)
  else None.

(** [import_teachers_csv]: the value stored in [free_slots] for a row whose
    availability column holds [free_slots_raw] (already stripped by
    [find_row_value]). *)
Definition import_free_slots_value (free_slots_raw : string) : string :=
  let slots := split_multi_value_field (Py.strip free_slots_raw) in
  match slots with
  | [] => default_free_slots
  | _ :: _ => Py.join ", " slots
  end.

(** [isAvailable]: the matcher applied to the tokens of a teacher. *)
Definition is_available (teacher : Teacher.t) (day slot : string) : option bool :=
  teacher_is_available_for_slot (teacher_slot_tokens teacher) day slot.

(** ** Notions and inputs used to state the properties *)

(** A row of the Monday 08:00-09:00 hour. *)
Definition monday_8 (id skill : Z) (year_group : string) (teacher : option Z) : Session.t :=
  Session.mk id skill "08:00-09:00" teacher (Some "Monday") (Some year_group).

(** A table with a duplicated cell whose kept row is empty, and a teacher
    booked twice in that hour: row 1 is Grade 2 with teacher 7, rows 2 and 3
    are Grade 1, the first without a teacher and the second with teacher 7. *)
Definition transplant_table : list Session.t :=
  [ monday_8 1 1 "Grade 2" (Some 7%Z);
    monday_8 2 1 "Grade 1" None;
    monday_8 3 1 "Grade 1" (Some 7%Z) ].

(** The six spellings accepted for Monday 09:00-10:00. *)
Definition monday_9_aliases : list string :=
  [ "monday 09:00-10:00"; "mon 09:00-10:00"; "monday 09:00"; "mon 09:00";
    "monday 9:00"; "mon 9:00" ].

(** The first element of smallest key, scanning from the left: what a
    stable sort puts first. *)
Fixpoint first_min {K A} (leb : K -> K -> bool) (l : list (K * A)) : option (K * A) :=
  match l with
  | [] => None
  | x :: l' =>
      match first_min leb l' with
      | None => Some x
      | Some m => if leb x.1 m.1 then Some x else Some m
      end
  end.

(** Grouping a list of keyed values, keys and values in order of first
    occurrence: what a loop of [d[k].append(v)] builds. *)
Definition group_into {K V} `{EqDecision K} (pairs : list (K * V)) : list (K * list V) :=
  foldl (fun d p => dict_append p.1 p.2 d) [] pairs.

(** The key under which a loaded row enters [by_teacher_slot], if any. *)
Definition teacher_slot_entry (p : ref * Session.t) : option ((hour_key * Z) * ref) :=
  match Session.assigned_teacher_id p.2 with
  | Some tid => if Py.truthy (Some tid) then Some ((hour_of p.2, tid), p.1) else None
  | None => None
  end.

(** The rows the repair iterates over: the grid rows by ascending id, each
    with its reference. *)
Definition loaded_rows (table : list Session.t) : list (ref * Session.t) :=
  order_by_id (grid_sessions_query table).

(** A table with the assignments blanked: what the repair never changes
    in a row it keeps. *)
Definition forget_teachers (table : list Session.t) : list Session.t :=
  Session.with_teacher None <$> table.

(** The state of the repair after its two loops, before the commit. *)
Definition repaired_state (table : list Session.t) : repair_state :=
  foldl clear_conflicts
    (foldl merge_cell (RepairState table [] 0 0)
       (snd <$> group_by_cell (loaded_rows table)))
    (snd <$> group_by_teacher_slot (loaded_rows table)).

(** [kept or extra] on the assigned teacher: the field of the kept row
    after one duplicate has been merged into it. *)
Definition merge_teacher (kept extra : option Z) : option Z :=
  match kept with
  | Some _ => kept
  | None => extra
  end.

(** The teacher assigned to the row behind a reference, if any. *)
Definition teacher_at (table : list Session.t) (r : ref) : option Z :=
  table !! r ≫= Session.assigned_teacher_id.

(** [index]: the number of sessions shown as unassigned, counted over the
    rows given to the page. *)
Definition unassigned_count (sessions : list Session.t) : nat :=
  length (filter (fun session =>
                    in_grid session
                    && bool_decide (Session.assigned_teacher_id session = None))
            sessions).

(** The references a cell query returns: the rows of the cell, by
    ascending id. [get_or_create_grid_cell_session] starts from this
    list. *)
Definition cell_matches (day slot year_group : string) (table : list Session.t)
    : list ref :=
  fst <$> order_by_id
    (filter (fun p => bool_decide (cell_of p.2 = (Some day, slot, Some year_group)))
       (rows table)).

(** ** Start-up migration of the year groups *)

Definition with_year_group (v : option string) (s : Session.t) : Session.t :=
  Session.mk (Session.id s) (Session.required_skill_id s) (Session.slot s)
    (Session.assigned_teacher_id s) (Session.day s) v.

(** [Session.query.filter_by(year_group=old_value).update({Session.year_group:
    new_value})]: the table after the update and the number of rows
    matched. *)
Definition update_year_group (old_value new_value : string) (table : list Session.t)
    : list Session.t * nat :=
  ((fun s => if bool_decide (Session.year_group s = Some old_value)
             then with_year_group (Some new_value) s else s) <$> table,
   length (filter (fun s => Session.year_group s = Some old_value) table)).

(** The body of the loop over [LEGACY_YEAR_GROUP_MAP.items()], on the
    table and [migrated]. *)
Definition migrate_step (acc : list Session.t * nat) (item : string * string)
    : list Session.t * nat :=
  let updated := update_year_group item.1 item.2 acc.1 in
  (updated.1, acc.2 + updated.2).

Definition migrate_legacy_year_groups (table : list Session.t) : list Session.t * nat :=
  foldl migrate_step (table, 0) LEGACY_YEAR_GROUP_MAP.

(** The year group a legacy value stands for, if the row has a legacy
    value. *)
Definition legacy_year_group (s : Session.t) : option string :=
  Session.year_group s ≫= fun y => dict_get y LEGACY_YEAR_GROUP_MAP.

(** ** The handlers that edit teachers and cells

    A handler that returns before [db.session.commit()] leaves the table
    as it was: what it changed is discarded with the session when the
    request ends. *)

(** [db.session.get(Teacher, teacher_id)] *)
Definition get_teacher (teacher_id : Z) (teachers : list Teacher.t) : option Teacher.t :=
  head (filter (fun teacher => Teacher.id teacher = teacher_id) teachers).

(** [db.session.get(Skill, skill_id)], on the ids of the skill table; the
    result stands for [skill.id]. *)
Definition get_skill (skill_id : Z) (skills : list Z) : option Z :=
  if bool_decide (skill_id ∈ skills) then Some skill_id else None.

(** [delete_teacher]: the teacher table and the session table after the
    commit; [None] is the 404 of [get_or_404]. *)
Definition delete_teacher (teacher_id : Z) (teachers : list Teacher.t)
    (table : list Session.t) : option (list Teacher.t * list Session.t) :=
  teacher ← get_teacher teacher_id teachers;
  Some (filter (fun t => Teacher.id t <> Teacher.id teacher) teachers,
        (fun s => if bool_decide (Session.assigned_teacher_id s = Some (Teacher.id teacher))
                  then Session.with_teacher None s else s) <$> table).

Inductive clear_outcome :=
| ClearNotFound
| Cleared (table' : list Session.t) (removed : nat).

(** [clear_grid_session], on the three form fields. *)
Definition clear_grid_session (form_day form_slot form_year_group : string)
    (table : list Session.t) : clear_outcome :=
  let day := Py.strip form_day in
  let slot := Py.strip form_slot in
  let year_group := Py.strip form_year_group in
  let sessions :=
    filter (fun s => cell_of s = (Some day, slot, Some year_group)) table in
  match sessions with
  | [] => ClearNotFound
  | _ :: _ =>
      Cleared (filter (fun s => cell_of s <> (Some day, slot, Some year_group)) table)
        (length sessions)
  end.

(** [get_or_create_grid_cell_session] on the objects of the session: the
    store after the merge and the reference of the row returned. A row
    created is added at the end, with the id it gets when it is flushed. *)
Definition get_or_create_ref (day slot year_group : string) (required_skill_id : Z)
    (table : list Session.t) : repair_state * ref :=
  match cell_matches day slot year_group table with
  | [] =>
      (RepairState
         (table ++ [Session.mk (next_id table) required_skill_id slot None
                      (Some day) (Some year_group)]) [] 0 0,
       length table)
  | primary :: extras =>
      (foldl (fun st extra => merge_extra primary extra st) (RepairState table [] 0 0) extras,
       primary)
  end.

(** An assignment to an attribute of the object behind a reference. *)
Definition set_row (r : ref) (f : Session.t -> Session.t) (st : repair_state)
    : repair_state :=
  RepairState (alter f r (store st)) (deleted st) (removed st) (unassigned_conflicts st).

(** The outcomes of [save_grid_session]: the six validation failures, by
    the reason logged, and the commit, with the table and [session.id]. *)
Inductive save_outcome :=
| InvalidGridCoordinates
| MissingSkill
| TeacherNotFound
| TeacherNotAvailable
| TeacherMissingSkill
| TeacherBusy
| Saved (table' : list Session.t) (session_id : Z).

(** The query for a conflict: a row of the same day and slot with this
    teacher and another id, among the rows as flushed. *)
Definition find_conflict (day slot : string) (teacher_id session_id : Z)
    (flushed : list Session.t) : option Session.t :=
  head (filter (fun s => Session.day s = Some day /\ Session.slot s = slot
                         /\ Session.assigned_teacher_id s = Some teacher_id
                         /\ Session.id s <> session_id) flushed).

(** [save_grid_session], on the form fields and the three tables; [None]
    is a [KeyError] of the matcher. Errors raised by the data base for its
    own constraints are outside the model. *)
Definition save_grid_session
    (form_day form_slot form_year_group : string)
    (required_skill_id assigned_teacher_id : option Z)
    (skills : list Z) (teachers : list Teacher.t) (table : list Session.t)
    : option save_outcome :=
  let day := Py.strip form_day in
  let slot := Py.strip form_slot in
  let year_group := Py.strip form_year_group in
  if negb (str_in day WEEK_DAYS) || negb (str_in slot TEACHING_SLOTS)
     || negb (str_in year_group YEAR_GROUPS)
  then Some InvalidGridCoordinates
  else
    match (if Py.truthy required_skill_id
           then required_skill_id ≫= fun k => get_skill k skills else None) with
    | None => Some MissingSkill
    | Some skill_id =>
        let created := get_or_create_ref day slot year_group skill_id table in
        let session := created.2 in
        let st1 := set_row session (Session.with_skill skill_id) created.1 in
        let session_id := default 0%Z (Session.id <$> store st1 !! session) in
        if Py.truthy assigned_teacher_id
        then
          match assigned_teacher_id ≫= fun t => get_teacher t teachers with
          | None => Some TeacherNotFound
          | Some teacher =>
              available ← teacher_is_available_for_slot (teacher_slot_tokens teacher) day slot;
              if negb available then Some TeacherNotAvailable
              else if negb (bool_decide (skill_id ∈ Teacher.skills teacher))
                   then Some TeacherMissingSkill
                   else
                     match find_conflict day slot (Teacher.id teacher) session_id
                             (surviving st1) with
                     | Some _ => Some TeacherBusy
                     | None =>
                         let st2 :=
                           set_row session
                             (Session.with_teacher (Some (Teacher.id teacher))) st1 in
                         Some (Saved (surviving st2) session_id)
                     end
          end
        else
          let st2 := set_row session (Session.with_teacher None) st1 in
          Some (Saved (surviving st2) session_id)
    end.

(** No character of [s] is a separator: [s] is a single field. *)
Fixpoint free_of (sep : ascii -> bool) (s : string) : bool :=
  match s with
  | EmptyString => true
  | String c s' => negb (sep c) && free_of sep s'
  end.

(** The alias sets of the hours of the timetable, lunch included,
    evaluated once. *)
Definition timetable_aliases : list (string * string * list string) :=
  Eval vm_compute in
    List.concat
      ((fun day => (fun slot => (day, slot, default [] (slot_aliases day slot)))
                     <$> (fst <$> TIME_ROWS)) <$> WEEK_DAYS).

(** ** The CSV imports *)

(** A row of [csv.DictReader]: the fields by header; a field missing from
    a short line is [None]. *)
Definition csv_row : Type := list (string * option string).

Fixpoint find_row_value (row : csv_row) (candidates : list string) : string :=
  match candidates with
  | [] => EmptyString
  | key :: rest =>
      match dict_get key row with
      | Some (Some value) => Py.strip value
      | _ => find_row_value row rest
      end
  end.

(** The state of the loop of [import_skills_csv]: the keys of [existing],
    the names of the skills added to the session, and the two counters. *)
Record skills_import := SkillsImport {
  existing : gset string;
  added : list string;
  inserted_count : nat;
  skipped_count : nat
}.

(** The body of [for name in names]. *)
Definition import_skill_name (st : skills_import) (name : string) : skills_import :=
  let key := normalize name in
  if bool_decide (key ∈ existing st)
  then SkillsImport (existing st) (added st) (inserted_count st) (S (skipped_count st))
  else SkillsImport ({[key]} ∪ existing st) (added st ++ [name])
         (S (inserted_count st)) (skipped_count st).

(** The body of [for line_no, row in enumerate(reader, start=2)]. *)
Definition import_skills_row (st : skills_import) (row : csv_row) : skills_import :=
  let name_field := find_row_value row ["name"; "skill"; "skill_name"] in
  let names := split_multi_value_field name_field in
  match names with
  | [] => SkillsImport (existing st) (added st) (inserted_count st) (S (skipped_count st))
  | _ :: _ => foldl import_skill_name st names
  end.

Inductive import_outcome :=
| ImportFailed
| Imported (skill_names : list string) (inserted skipped : nat).

(** [import_skills_csv] on the names of the skill table and the rows of
    the file. The commit fails with an [IntegrityError] when two skills
    would have the same name. *)
Definition import_skills_csv (skill_names : list string) (rows : list csv_row)
    : import_outcome :=
  let st := foldl import_skills_row
              (SkillsImport (list_to_set (normalize <$> skill_names)) [] 0 0) rows in
  if bool_decide (NoDup (skill_names ++ added st))
  then Imported (skill_names ++ added st) (inserted_count st) (skipped_count st)
  else ImportFailed.

(** What the loop of [import_skills_csv] keeps true: [existing] holds the
    keys of the skills of the table and of the skills added; the skills
    added have keys that are pairwise different and are not keys of the
    table; [inserted_count] counts them. *)
Definition skills_import_inv (skill_names : list string) (st : skills_import) : Prop :=
  (forall key, key ∈ existing st <-> key ∈ normalize <$> (skill_names ++ added st))
  /\ NoDup (normalize <$> added st)
  /\ (forall name, name ∈ added st -> normalize name ∉ normalize <$> skill_names)
  /\ inserted_count st = length (added st).

(** The number of names a row of the skills file offers; a row without a
    name counts once, as skipped. *)
Definition offered (row : csv_row) : nat :=
  match split_multi_value_field (find_row_value row ["name"; "skill"; "skill_name"]) with
  | [] => 1
  | names => length names
  end.

(** ** A run of the allocator, written to the table *)

(** The objects [allocate_sessions] loads, by reference, in the order in
    which the run processes them. *)
Definition allocation_order (table : list Session.t) : option (list (ref * Session.t)) :=
  sort_by_key triple_leb (fun p => session_sort_key p.2) (grid_sessions_query table).

(** The table with each of the objects written to its row. *)
Definition write_rows (table : list Session.t) (written : list (ref * Session.t))
    : list Session.t :=
  foldl (fun t p => <[p.1 := p.2]> t) table written.

(** ** The commit of a run *)

(** [uq_sessions_teacher_slot], the unique index that [ensure_grid_indexes]
    creates on (day, slot, assigned_teacher_id) over the rows where none of
    the three is NULL: whether a row of the table other than [r] holds the
    entry that [s] would take at [r]. The index is checked for each row as
    it is written. The other index, [uq_sessions_grid_cell], is on columns
    that a run does not write. *)
Definition teacher_slot_taken (table : list Session.t) (r : ref) (s : Session.t) : bool :=
  match Session.day s, Session.assigned_teacher_id s with
  | Some _, Some _ =>
      bool_decide
        (Exists (fun p : ref * Session.t =>
                   p.1 <> r
                   /\ Session.day p.2 = Session.day s
                   /\ Session.slot p.2 = Session.slot s
                   /\ Session.assigned_teacher_id p.2 = Session.assigned_teacher_id s)
           (rows table))
  | _, _ => false
  end.

(** An object is written by the flush when its [assigned_teacher_id]
    differs from the value loaded from its row: a row cleared by the run
    and given its former teacher again is not written, and no row is
    written with [NULL] on the way. *)
Definition is_dirty (table : list Session.t) (p : ref * Session.t) : bool :=
  bool_decide (Session.assigned_teacher_id <$> table !! p.1
               <> Some (Session.assigned_teacher_id p.2)).

(** The [UPDATE] of one row; [None] is the [IntegrityError] of the
    index. *)
Definition update_row (table : list Session.t) (p : ref * Session.t)
    : option (list Session.t) :=
  if teacher_slot_taken table p.1 p.2 then None else Some (<[p.1 := p.2]> table).

(** The flush: one [UPDATE] after the other. *)
Fixpoint flush (table : list Session.t) (updates : list (ref * Session.t))
    : option (list Session.t) :=
  match updates with
  | [] => Some table
  | p :: rest => table' ← update_row table p; flush table' rest
  end.

(** [db.session.commit()] at the end of [allocate_sessions], on the sqlite
    back end, where the index exists: the objects that are dirty are
    written in the order of their primary keys. On an [IntegrityError]
    nothing is committed. *)
Definition commit (table : list Session.t) (objects : list (ref * Session.t))
    : option (list Session.t) :=
  flush table (order_by_id (filter (fun p => is_dirty table p) objects)).

(** What [allocate_sessions] leaves behind. *)
Inductive commit_outcome :=
| IntegrityError
| Committed (table' : list Session.t) (assigned unassigned : nat).

(** [allocate_sessions] with its commit: the loop of [allocate_sessions]
    above on the objects loaded, then the commit of these objects. [None]
    is an exception of the loop. *)
Definition allocate_and_commit (teachers : list Teacher.t) (table : list Session.t)
    : option commit_outcome :=
  order ← allocation_order table;
  r ← allocate_sessions teachers table;
  Some (match commit table (zip (fst <$> order) (sessions_after r)) with
        | Some table' => Committed table' (assigned_total r) (unassigned_total r)
        | None => IntegrityError
        end).

(** What the request [POST /allocate] does. *)
Inductive allocation_outcome :=
| NoSessions
| Ran (outcome : commit_outcome).

(** [run_allocation]; an [IntegrityError] of [allocate_sessions] is not
    caught. *)
Definition run_allocation (teachers : list Teacher.t) (table : list Session.t)
    : option allocation_outcome :=
  if (length (grid_sessions_query table) =? 0)%nat then Some NoSessions
  else Ran <$> allocate_and_commit teachers table.

(** ** The start-up steps on the session table *)

(** The table after the two steps of [initialize_database] that rewrite
    it, each run once: the migration of the year groups, then the repair
    of the grid. A step given up because the data base is locked is
    outside the model. *)
Definition bootstrap_sessions (table : list Session.t) : list Session.t :=
  table_after (deduplicate_grid_sessions (migrate_legacy_year_groups table).1).

(** ** The state of a run, read off the rows written so far *)

(** The load of a teacher after the rows [written]: how many of them the
    teacher is assigned to. *)
Definition load_in (written : list Session.t) (teacher_id : Z) : nat :=
  length (filter (fun s => Session.assigned_teacher_id s = Some teacher_id) written).

(** A teacher is committed in an hour once a row written in that hour
    holds them. *)
Definition committed_in (written : list Session.t) (hour : hour_key) (teacher_id : Z)
    : Prop :=
  exists s, s ∈ written /\ hour_of s = hour
            /\ Session.assigned_teacher_id s = Some teacher_id.

(** What the dictionaries of the loop hold after the rows [written]: the
    load of each teacher, and the teachers committed in each hour. *)
Definition run_inv (teacher_rows : list Teacher.t) (st : alloc_state)
    (written : list Session.t) : Prop :=
  (forall t, t ∈ teacher_rows ->
     assigned_count st !! Teacher.id t = Some (load_in written (Teacher.id t)))
  /\ (forall hour tid,
        tid ∈ busy_at (busy_at_slot st) hour <-> committed_in written hour tid).

(** The candidates for a session after the rows [written]: the teachers of
    the list who hold the required skill, are available in the hour and are
    not committed in it. *)
Definition candidate (teacher_rows : list Teacher.t) (written : list Session.t)
    (session : Session.t) (teacher : Teacher.t) : Prop :=
  teacher ∈ teacher_rows
  /\ Session.required_skill_id session ∈ Teacher.skills teacher
  /\ (exists day, Session.day session = Some day
        /\ is_available teacher day (Session.slot session) = Some true)
  /\ ~ committed_in written (hour_of session) (Teacher.id teacher).

(** A row of the Monday 09:00-10:00 hour. *)
Definition monday_9 (id skill : Z) (year_group : string) (teacher : option Z) : Session.t :=
  Session.mk id skill "09:00-10:00" teacher (Some "Monday") (Some year_group).

(** Two teachers of the same skill, both free in the first two hours of
    Monday. *)
Definition ann_and_bob : list Teacher.t :=
  [ Teacher.mk 1 "Ann" "Mon 08:00-09:00, Mon 09:00-10:00" [1%Z];
    Teacher.mk 2 "Bob" "Mon 08:00-09:00, Mon 09:00-10:00" [1%Z] ].



(** * Properties *)

(** ** Stable sorting *)

Section StableSortFacts.
Context {K A : Type} (leb : K -> K -> bool).
Implicit Types (l : list (K * A)) (p m : K * A).

Lemma insert_by_perm p l : insert_by leb p l ≡ₚ p :: l.
Proof.
  induction l as [| y l IH]; simpl; [done |].
  destruct (leb p.1 y.1); [done |].
  rewrite IH. apply Permutation_swap.
Qed.

Lemma sort_decorated_perm l : sort_decorated leb l ≡ₚ l.
Proof.
  induction l as [| x l IH]; simpl; [done |].
  by rewrite insert_by_perm, IH.
Qed.

Lemma decorate_snd (key : A -> K) (l : list A) :
  snd <$> ((fun x => (key x, x)) <$> l) = l.
Proof. induction l as [| a l IH]; [done |]. by rewrite !fmap_cons, IH. Qed.

Lemma sort_by_perm (key : A -> K) (l : list A) : sort_by leb key l ≡ₚ l.
Proof.
  unfold sort_by. rewrite sort_decorated_perm. by rewrite decorate_snd.
Qed.

Lemma decorate_raising_snd (key : A -> option K) (l : list A) ks :
  mapM (fun x => k ← key x; Some (k, x)) l = Some ks -> snd <$> ks = l.
Proof.
  intros Hks. eapply mapM_fmap_Some_inv; [exact Hks |].
  intros x [k y]. destruct (key x); simpl; [| done]. by intros [= _ ->].
Qed.

Lemma decorate_raising_fst (key : A -> option K) (l : list A) ks :
  mapM (fun x => k ← key x; Some (k, x)) l = Some ks ->
  Forall (fun p => key p.2 = Some p.1) ks.
Proof.
  intros Hks. apply mapM_Some_1 in Hks.
  induction Hks as [| x [k y] l ks Hx _ IH]; constructor; [| done].
  destruct (key x) eqn:Hkx; simpl in Hx; [| done].
  injection Hx as -> ->. done.
Qed.

Lemma sort_by_key_perm (key : A -> option K) (l l' : list A) :
  sort_by_key leb key l = Some l' -> l' ≡ₚ l.
Proof.
  unfold sort_by_key. intros Hs.
  destruct (mapM _ l) as [ks |] eqn:Hks; simpl in Hs; [| done].
  injection Hs as <-. rewrite sort_decorated_perm.
  by rewrite (decorate_raising_snd key l ks).
Qed.

Lemma sort_by_key_is_Some (key : A -> option K) (l : list A) :
  Forall (fun x => is_Some (key x)) l -> is_Some (sort_by_key leb key l).
Proof.
  intros Hall. unfold sort_by_key.
  destruct (mapM_is_Some_2 (fun x => k ← key x; Some (k, x)) l) as [ks ->].
  - eapply Forall_impl; [exact Hall |]. intros x [k Hk]. unfold compose.
    rewrite Hk. simpl. eauto.
  - simpl. eauto.
Qed.

Lemma head_insert_by p l :
  head (insert_by leb p l)
  = match head l with
    | None => Some p
    | Some y => if leb p.1 y.1 then Some p else Some y
    end.
Proof. destruct l as [| y l]; simpl; [done |]. by destruct (leb p.1 y.1). Qed.

(** The head of the sorted list is the first element of smallest key. *)
Lemma head_sort_decorated l : head (sort_decorated leb l) = first_min leb l.
Proof.
  induction l as [| x l IH]; simpl; [done |].
  by rewrite head_insert_by, IH.
Qed.

Lemma first_min_elem_of l m : first_min leb l = Some m -> m ∈ l.
Proof.
  revert m. induction l as [| x l IH]; intros m; simpl; [done |].
  destruct (first_min leb l) as [m' |].
  - destruct (leb x.1 m'.1); intros [= <-]; [left | right; by apply IH].
  - intros [= <-]. left.
Qed.

Lemma first_min_is_Some l : l <> [] -> is_Some (first_min leb l).
Proof.
  destruct l as [| x l]; [done |]. intros _. simpl.
  destruct (first_min leb l) as [m |]; [destruct (leb x.1 m.1) |]; eauto.
Qed.

(** Every element before the selected one has a strictly larger key. *)
Lemma first_min_first l m :
  first_min leb l = Some m ->
  exists l1 l2, l = l1 ++ m :: l2 /\ Forall (fun y => leb y.1 m.1 = false) l1.
Proof.
  revert m. induction l as [| x l IH]; intros m; simpl; [done |].
  destruct (first_min leb l) as [m' |] eqn:Hm'.
  - destruct (leb x.1 m'.1) eqn:Hx; intros [= <-].
    + exists [], l. by split.
    + destruct (IH m' eq_refl) as (l1 & l2 & -> & Hl1).
      exists (x :: l1), l2. split; [done |]. by constructor.
  - intros [= <-]. exists [], l. by split.
Qed.

Context (leb_total : forall a b, leb a b = true \/ leb b a = true).
Context (leb_trans : forall a b c, leb a b = true -> leb b c = true -> leb a c = true).

Lemma leb_refl a : leb a a = true.
Proof. by destruct (leb_total a a). Qed.

(** The selected element has a smallest key. *)
Lemma first_min_le l m :
  first_min leb l = Some m -> Forall (fun y => leb m.1 y.1 = true) l.
Proof.
  revert m. induction l as [| x l IH]; intros m; simpl; [by constructor |].
  destruct (first_min leb l) as [m' |] eqn:Hm'.
  - specialize (IH m' eq_refl).
    destruct (leb x.1 m'.1) eqn:Hx; intros [= <-].
    + constructor; [apply leb_refl |].
      eapply Forall_impl; [exact IH |]. intros y Hy. simpl in *. eauto.
    + constructor; [| done]. by destruct (leb_total x.1 m'.1) as [Ht | Ht]; [congruence |].
  - intros [= <-]. destruct l; [| by destruct (first_min_is_Some (p :: l)) as [? ?]; [| congruence]].
    constructor; [apply leb_refl | constructor].
Qed.

Lemma insert_by_sorted p l :
  StronglySorted (fun a b => leb a.1 b.1 = true) l ->
  StronglySorted (fun a b => leb a.1 b.1 = true) (insert_by leb p l).
Proof.
  induction 1 as [| y l Hl IH Hy]; simpl; [repeat constructor |].
  destruct (leb p.1 y.1) eqn:Hxy.
  - constructor; [by constructor |]. constructor; [done |].
    eapply Forall_impl; [exact Hy |]. intros z Hz. simpl in *. eauto.
  - constructor; [done |].
    rewrite (insert_by_perm p l). constructor; [| done].
    by destruct (leb_total p.1 y.1); [congruence |].
Qed.

Lemma sort_decorated_sorted l :
  StronglySorted (fun a b => leb a.1 b.1 = true) (sort_decorated leb l).
Proof.
  induction l as [| x l IH]; simpl; [constructor |]. by apply insert_by_sorted.
Qed.
End StableSortFacts.

(** *** The orders used as sort keys *)

Lemma string_compare_refl s : String.compare s s = Eq.
Proof.
  induction s as [| c s IH]; simpl; [done |].
  unfold Ascii.compare. by rewrite N.compare_refl.
Qed.

Lemma string_compare_Lt_trans a b c :
  String.compare a b = Lt -> String.compare b c = Lt -> String.compare a c = Lt.
Proof.
  revert b c. induction a as [| x a IH]; intros [| y b] [| z c]; simpl; try done.
  unfold Ascii.compare.
  destruct (N.compare_spec (N_of_ascii x) (N_of_ascii y)) as [Hxy | Hxy | Hxy]; [| | done];
    destruct (N.compare_spec (N_of_ascii y) (N_of_ascii z)) as [Hyz | Hyz | Hyz];
    try done; intros Hab Hbc.
  - rewrite Hxy, Hyz, N.compare_refl. eauto.
  - rewrite Hxy. by apply N.compare_lt_iff in Hyz as ->.
  - rewrite <- Hyz. by apply N.compare_lt_iff in Hxy as ->.
  - assert (Hxz : (N_of_ascii x < N_of_ascii z)%N) by lia.
    by apply N.compare_lt_iff in Hxz as ->.
Qed.

Lemma string_leb_trans a b c :
  String.leb a b = true -> String.leb b c = true -> String.leb a c = true.
Proof.
  unfold String.leb.
  destruct (String.compare a b) eqn:Hab; [| | done];
    destruct (String.compare b c) eqn:Hbc; try done; intros _ _.
  - apply String.compare_eq_iff in Hab as ->. by rewrite Hbc.
  - apply String.compare_eq_iff in Hab as ->. by rewrite Hbc.
  - apply String.compare_eq_iff in Hbc as <-. by rewrite Hab.
  - by rewrite (string_compare_Lt_trans a b c).
Qed.

Lemma pair_leb_nat_spec {K2} (leb2 : K2 -> K2 -> bool) (a b : nat * K2) :
  pair_leb Nat.ltb Nat.eqb leb2 a b = true
  <-> a.1 < b.1 \/ (a.1 = b.1 /\ leb2 a.2 b.2 = true).
Proof.
  unfold pair_leb. rewrite orb_true_iff, andb_true_iff, Nat.ltb_lt, Nat.eqb_eq. tauto.
Qed.

Lemma pair_leb_nat_total {K2} (leb2 : K2 -> K2 -> bool) :
  (forall a b, leb2 a b = true \/ leb2 b a = true) ->
  forall a b : nat * K2,
    pair_leb Nat.ltb Nat.eqb leb2 a b = true \/ pair_leb Nat.ltb Nat.eqb leb2 b a = true.
Proof.
  intros Htotal a b. rewrite !pair_leb_nat_spec.
  destruct (Htotal a.2 b.2); destruct (lt_eq_lt_dec a.1 b.1) as [[? | ?] | ?]; auto.
Qed.

Lemma pair_leb_nat_trans {K2} (leb2 : K2 -> K2 -> bool) :
  (forall a b c, leb2 a b = true -> leb2 b c = true -> leb2 a c = true) ->
  forall a b c : nat * K2,
    pair_leb Nat.ltb Nat.eqb leb2 a b = true ->
    pair_leb Nat.ltb Nat.eqb leb2 b c = true ->
    pair_leb Nat.ltb Nat.eqb leb2 a c = true.
Proof.
  intros Htrans a b c. rewrite !pair_leb_nat_spec.
  intros [? | [? ?]] [? | [? ?]]; [left; lia | left; lia | left; lia |].
  right. split; [lia | eauto].
Qed.

Lemma load_name_leb_total a b : load_name_leb a b = true \/ load_name_leb b a = true.
Proof. apply pair_leb_nat_total, String.leb_total. Qed.

Lemma load_name_leb_trans a b c :
  load_name_leb a b = true -> load_name_leb b c = true -> load_name_leb a c = true.
Proof. apply pair_leb_nat_trans, string_leb_trans. Qed.

Lemma nat_leb_total (a b : nat) : Nat.leb a b = true \/ Nat.leb b a = true.
Proof. rewrite !Nat.leb_le. lia. Qed.

Lemma nat_leb_trans (a b c : nat) :
  Nat.leb a b = true -> Nat.leb b c = true -> Nat.leb a c = true.
Proof. rewrite !Nat.leb_le. lia. Qed.

Lemma Z_leb_total (a b : Z) : Z.leb a b = true \/ Z.leb b a = true.
Proof. rewrite !Z.leb_le. lia. Qed.

Lemma Z_leb_trans (a b c : Z) :
  Z.leb a b = true -> Z.leb b c = true -> Z.leb a c = true.
Proof. rewrite !Z.leb_le. lia. Qed.

(** Sorting commutes with a change of the elements that keeps their keys. *)
Lemma insert_by_fmap {K A} (leb : K -> K -> bool) (f : A -> A) (p : K * A) l :
  insert_by leb (prod_map id f p) (prod_map id f <$> l)
  = prod_map id f <$> insert_by leb p l.
Proof.
  induction l as [| q l IH]; [done |].
  rewrite fmap_cons. simpl. destruct (leb p.1 q.1); [done |].
  rewrite fmap_cons. f_equal. exact IH.
Qed.

Lemma sort_decorated_cons {K A} (leb : K -> K -> bool) (p : K * A) l :
  sort_decorated leb (p :: l) = insert_by leb p (sort_decorated leb l).
Proof. reflexivity. Qed.

Lemma sort_decorated_fmap {K A} (leb : K -> K -> bool) (f : A -> A) l :
  sort_decorated leb (prod_map id f <$> l) = prod_map id f <$> sort_decorated leb l.
Proof.
  induction l as [| p l IH]; [done |].
  rewrite fmap_cons, !sort_decorated_cons, IH. apply insert_by_fmap.
Qed.

Lemma sort_by_key_fmap {K A} (leb : K -> K -> bool) (key : A -> option K)
    (f : A -> A) (l : list A) :
  (forall a, key (f a) = key a) ->
  sort_by_key leb key (f <$> l) = (fmap f : list A -> list A) <$> sort_by_key leb key l.
Proof.
  intros Hkey. unfold sort_by_key.
  assert (Hdec : mapM (fun x => k ← key x; Some (k, x)) (f <$> l)
                 = (fmap (prod_map id f) : list (K * A) -> list (K * A))
                     <$> mapM (fun x => k ← key x; Some (k, x)) l).
  { induction l as [| a l IH]; [done |].
    rewrite fmap_cons. simpl. rewrite Hkey.
    destruct (key a) as [k |]; simpl; [| done].
    simpl in IH. rewrite IH.
    by destruct (mapM (fun x => k0 ← key x; Some (k0, x)) l). }
  rewrite Hdec. destruct (mapM _ l) as [ks |]; simpl; [| done].
  f_equal. rewrite sort_decorated_fmap, <- !list_fmap_compose.
  apply list_fmap_ext. by intros i [k a] _.
Qed.


(** ** Availability matcher *)

Lemma DAY_SHORT_total day : day ∈ WEEK_DAYS -> is_Some (dict_get day DAY_SHORT).
Proof.
  intros Hday. unfold WEEK_DAYS in Hday.
  repeat (apply elem_of_cons in Hday as [-> | Hday]; [vm_compute; eauto |]).
  by apply elem_of_nil in Hday.
Qed.

Lemma slot_aliases_total day slot : day ∈ WEEK_DAYS -> is_Some (slot_aliases day slot).
Proof.
  intros Hday. destruct (DAY_SHORT_total day Hday) as [short Hshort].
  unfold slot_aliases. rewrite Hshort. simpl. eauto.
Qed.

Lemma teacher_is_available_for_slot_total tokens day slot :
  day ∈ WEEK_DAYS -> is_Some (teacher_is_available_for_slot tokens day slot).
Proof.
  intros Hday. destruct (slot_aliases_total day slot Hday) as [aliases Ha].
  unfold teacher_is_available_for_slot. rewrite Ha. simpl. eauto.
Qed.

Lemma existsb_str_in tokens aliases :
  existsb (fun token => str_in token aliases) tokens = true
  <-> exists token, token ∈ tokens /\ token ∈ aliases.
Proof.
  rewrite existsb_exists. unfold str_in. split.
  - intros (token & Hin & Hdec). exists token. split.
    + by apply list_elem_of_In.
    + by apply bool_decide_eq_true in Hdec.
  - intros (token & Hin & Hal). exists token. split.
    + by apply list_elem_of_In.
    + by apply bool_decide_eq_true.
Qed.

(** A teacher is available exactly when one of the stored tokens is, once
    normalized, one of the aliases of the hour. *)
Lemma is_available_iff teacher day slot aliases :
  slot_aliases day slot = Some aliases ->
  is_available teacher day slot = Some true
  <-> exists part, part ∈ split_multi_value_field (Teacher.free_slots teacher)
                   /\ normalize part ∈ aliases.
Proof.
  intros Ha. unfold is_available, teacher_is_available_for_slot, teacher_slot_tokens.
  rewrite Ha. simpl. split.
  - intros [= Hex]. apply existsb_str_in in Hex as (token & Hin & Hal).
    apply list_elem_of_fmap in Hin as (part & -> & Hpart). eauto.
  - intros (part & Hpart & Hal). f_equal. apply existsb_str_in.
    exists (normalize part). split; [| done].
    apply list_elem_of_fmap. eauto.
Qed.

(** C2 (as stated, refuted): the token ["Mon 9:00-10:00"] is not accepted
    for Monday 09:00-10:00, so the three spellings of the claim are not all
    matched. *)
Lemma C2_short_start_with_end_time_rejected :
  ~ (is_available (Teacher.mk 1 "T" "Mon 09:00-10:00" []) "Monday" "09:00-10:00" = Some true
     /\ is_available (Teacher.mk 1 "T" "monday 9:00" []) "Monday" "09:00-10:00" = Some true
     /\ is_available (Teacher.mk 1 "T" "Mon 9:00-10:00" []) "Monday" "09:00-10:00" = Some true).
Proof. intros (_ & _ & H). vm_compute in H. discriminate H. Qed.

(** C2 (amended): for Monday 09:00-10:00 the aliases are the six strings of
    [monday_9_aliases]; a teacher is available exactly when a stored token
    normalizes to one of them; the tokens ["Mon 09:00-10:00"] and
    ["monday 9:00"] are accepted and ["Mon 9:00-10:00"] is not. *)
Theorem C2_monday_9_alias_set (id : Z) (name : string) (skills : list Z) :
  slot_aliases "Monday" "09:00-10:00" = Some monday_9_aliases
  /\ (forall free_slots,
        is_available (Teacher.mk id name free_slots skills) "Monday" "09:00-10:00" = Some true
        <-> exists part, part ∈ split_multi_value_field free_slots
                         /\ normalize part ∈ monday_9_aliases)
  /\ is_available (Teacher.mk id name "Mon 09:00-10:00" skills) "Monday" "09:00-10:00" = Some true
  /\ is_available (Teacher.mk id name "monday 9:00" skills) "Monday" "09:00-10:00" = Some true
  /\ is_available (Teacher.mk id name "Mon 9:00-10:00" skills) "Monday" "09:00-10:00" = Some false.
Proof.
  assert (Ha : slot_aliases "Monday" "09:00-10:00" = Some monday_9_aliases)
    by (vm_compute; reflexivity).
  split; [exact Ha |]. split.
  - intros free_slots. by apply (is_available_iff (Teacher.mk id name free_slots skills)).
  - unfold is_available, teacher_slot_tokens. simpl Teacher.free_slots.
    repeat split; vm_compute; reflexivity.
Qed.

(** ** Default availability *)

Lemma default_free_slots_available_everywhere :
  Forall (fun day =>
            Forall (fun slot =>
                      teacher_is_available_for_slot
                        (normalize <$> split_multi_value_field default_free_slots) day slot
                      = Some true) TEACHING_SLOTS) WEEK_DAYS.
Proof. repeat constructor; vm_compute; reflexivity. Qed.

(** A teacher storing the default declaration is available in every
    teaching hour of the week. *)
Lemma default_teacher_is_available id name skills day slot :
  day ∈ WEEK_DAYS -> slot ∈ TEACHING_SLOTS ->
  is_available (Teacher.mk id name default_free_slots skills) day slot = Some true.
Proof.
  intros Hday Hslot. unfold is_available, teacher_slot_tokens. simpl Teacher.free_slots.
  pose proof default_free_slots_available_everywhere as Hall.
  rewrite Forall_forall in Hall. specialize (Hall day Hday).
  rewrite Forall_forall in Hall. exact (Hall slot Hslot).
Qed.

Lemma strip_blank_idemp raw : Py.strip raw = EmptyString -> Py.strip (Py.strip raw) = EmptyString.
Proof. intros ->. reflexivity. Qed.

(** C10 (as stated, refuted): updating a teacher with an empty free-time
    field keeps a stored declaration; the teacher below stays available on
    Monday 08:00-09:00 only. *)
Lemma C10_blank_update_keeps_stored_slots :
  ~ (forall teacher name skills teacher',
       update_teacher teacher name (Some EmptyString) skills = Some teacher' ->
       Teacher.free_slots teacher' = default_free_slots
       /\ is_available teacher' "Tuesday" "08:00-09:00" = Some true).
Proof.
  intros H.
  destruct (H (Teacher.mk 1 "Ann" "Mon 08:00-09:00" [1%Z]) "Ann" [1%Z]
              (Teacher.mk 1 "Ann" "Mon 08:00-09:00" [1%Z]) eq_refl) as [_ Hav].
  vm_compute in Hav. discriminate Hav.
Qed.

(** C10 (amended): a blank free-time field stores the default declaration
    when a teacher is created from the form or imported from a CSV row, and
    when a teacher whose stored declaration is empty is updated; an update
    with a blank field otherwise keeps the stored declaration. A teacher
    storing the default declaration is available at every day and teaching
    slot of the grid. *)
Theorem C10_blank_free_time_defaults
    (raw : string) (id : Z) (name : string) (skills : list Z) (day slot : string) :
  Py.strip raw = EmptyString -> day ∈ WEEK_DAYS -> slot ∈ TEACHING_SLOTS ->
  create_teacher_free_slots raw = default_free_slots
  /\ import_free_slots_value raw = default_free_slots
  /\ (forall teacher, Teacher.free_slots teacher = EmptyString ->
        update_teacher_free_slots teacher (Some raw) = default_free_slots
        /\ update_teacher_free_slots teacher None = default_free_slots)
  /\ (forall teacher, Teacher.free_slots teacher <> EmptyString ->
        update_teacher_free_slots teacher (Some raw) = Teacher.free_slots teacher
        /\ update_teacher_free_slots teacher None = Teacher.free_slots teacher)
  /\ is_available (Teacher.mk id name default_free_slots skills) day slot = Some true.
Proof.
  intros Hblank Hday Hslot.
  assert (Hstored : forall teacher,
             Teacher.free_slots teacher <> EmptyString ->
             Py.nonempty (Teacher.free_slots teacher) = true).
  { intros teacher Hne. by destruct (Teacher.free_slots teacher). }
  split; [| split; [| split; [| split]]].
  - unfold create_teacher_free_slots. by rewrite Hblank.
  - unfold import_free_slots_value, split_multi_value_field.
    by rewrite (strip_blank_idemp raw Hblank).
  - intros teacher Hempty. unfold update_teacher_free_slots.
    by rewrite Hblank, Hempty.
  - intros teacher Hne. unfold update_teacher_free_slots.
    by rewrite Hblank, (Hstored teacher Hne).
  - by apply default_teacher_is_available.
Qed.

Lemma C10_blank_free_time_defaults_witness :
  (create_teacher_free_slots "   " = default_free_slots
   /\ import_free_slots_value "   " = default_free_slots
   /\ (forall teacher, Teacher.free_slots teacher = EmptyString ->
         update_teacher_free_slots teacher (Some "   ") = default_free_slots
         /\ update_teacher_free_slots teacher None = default_free_slots)
   /\ (forall teacher, Teacher.free_slots teacher <> EmptyString ->
         update_teacher_free_slots teacher (Some "   ") = Teacher.free_slots teacher
         /\ update_teacher_free_slots teacher None = Teacher.free_slots teacher)
   /\ is_available (Teacher.mk 1 "Ann" default_free_slots [1%Z]) "Friday" "14:00-15:00"
      = Some true).
Proof.
  apply (C10_blank_free_time_defaults "   " 1 "Ann" [1%Z] "Friday" "14:00-15:00").
  - vm_compute; reflexivity.
  - apply (bool_decide_eq_true_1 ("Friday" ∈ WEEK_DAYS)). vm_compute; reflexivity.
  - apply (bool_decide_eq_true_1 ("14:00-15:00" ∈ TEACHING_SLOTS)). vm_compute; reflexivity.
Defined.

(** ** Dictionaries keyed by a teacher id *)

Lemma foldl_insert_lookup {V} (f : Teacher.t -> V) rows (m : gmap Z V) k :
  foldl (fun m teacher => <[Teacher.id teacher := f teacher]> m) m rows !! k
  = match last (filter (fun t => Teacher.id t = k) rows) with
    | Some t => Some (f t)
    | None => m !! k
    end.
Proof.
  revert m. induction rows as [| t rows IH]; intros m; [done |].
  simpl. rewrite IH. rewrite filter_cons.
  destruct (decide (Teacher.id t = k)) as [<- | Hne].
  - destruct (filter _ rows) as [| u us] eqn:Hf.
    + simpl. apply lookup_insert_eq.
    + rewrite last_cons_cons.
      destruct (proj2 (last_is_Some (u :: us))) as [v Hv]; [done |]. by rewrite Hv.
  - destruct (last (filter _ rows)); [done |]. by rewrite lookup_insert_ne.
Qed.

(** A later row with the same id replaces an earlier one. *)
Lemma dict_by_id_lookup {V} (f : Teacher.t -> V) rows k :
  dict_by_id f rows !! k = f <$> last (filter (fun t => Teacher.id t = k) rows).
Proof.
  unfold dict_by_id. rewrite foldl_insert_lookup, lookup_empty.
  by destruct (last _).
Qed.

Lemma filter_none {A} (P : A -> Prop) `{forall x, Decision (P x)} (l : list A) :
  Forall (fun x => ~ P x) l -> filter P l = [].
Proof.
  induction 1 as [| x l Hx _ IH]; [done |].
  rewrite filter_cons. by rewrite decide_False.
Qed.

Lemma filter_id_NoDup rows t :
  NoDup (Teacher.id <$> rows) -> t ∈ rows ->
  filter (fun u => Teacher.id u = Teacher.id t) rows = [t].
Proof.
  induction rows as [| u rows IH]; intros Hnd Hin; [by apply elem_of_nil in Hin |].
  rewrite fmap_cons in Hnd. apply NoDup_cons in Hnd as [Hu Hnd].
  rewrite filter_cons. apply elem_of_cons in Hin as [-> | Hin].
  - rewrite decide_True by done. f_equal.
    apply filter_none, Forall_forall. intros v Hv Heq. apply Hu.
    rewrite <- Heq. apply list_elem_of_fmap. eauto.
  - rewrite decide_False; [by apply IH |].
    intros Heq. apply Hu. rewrite Heq. apply list_elem_of_fmap. eauto.
Qed.

(** With ids that are keys, the dictionary holds the teacher's own entry. *)
Lemma dict_by_id_lookup_own {V} (f : Teacher.t -> V) rows t :
  NoDup (Teacher.id <$> rows) -> t ∈ rows ->
  dict_by_id f rows !! Teacher.id t = Some (f t).
Proof.
  intros Hnd Hin. by rewrite dict_by_id_lookup, filter_id_NoDup.
Qed.

Lemma dict_by_id_is_Some {V} (f : Teacher.t -> V) rows t :
  t ∈ rows -> is_Some (dict_by_id f rows !! Teacher.id t).
Proof.
  intros Hin. rewrite dict_by_id_lookup.
  destruct (filter (fun u => Teacher.id u = Teacher.id t) rows) as [| u us] eqn:Hf.
  - assert (Ht : t ∈ filter (fun u => Teacher.id u = Teacher.id t) rows)
      by (by apply list_elem_of_filter).
    rewrite Hf in Ht. by apply elem_of_nil in Ht.
  - destruct (proj2 (last_is_Some (u :: us))) as [v ->]; [done |]. simpl. eauto.
Qed.

(** ** The grid filter *)

Lemma in_grid_spec s :
  in_grid s = true
  <-> exists d y, Session.day s = Some d /\ Session.year_group s = Some y
                  /\ d ∈ WEEK_DAYS /\ Session.slot s ∈ TEACHING_SLOTS /\ y ∈ YEAR_GROUPS.
Proof.
  unfold in_grid, str_in.
  destruct (Session.day s) as [d |], (Session.year_group s) as [y |];
    try (split; [done | by intros (? & ? & ? & ? & _)]).
  rewrite !andb_true_iff, !bool_decide_eq_true. split.
  - intros [[? ?] ?]. eauto 10.
  - intros (? & ? & [= <-] & [= <-] & ? & ? & ?). done.
Qed.

Lemma in_grid_with_teacher v s : in_grid (Session.with_teacher v s) = in_grid s.
Proof. reflexivity. Qed.

Lemma session_sort_key_with_teacher v s :
  session_sort_key (Session.with_teacher v s) = session_sort_key s.
Proof. reflexivity. Qed.

Lemma dict_get_imap_total (g : nat -> nat) key values :
  key ∈ values -> is_Some (dict_get key (imap (fun idx value => (value, g idx)) values)).
Proof.
  intros Hin. revert g.
  induction Hin as [key values | key other values _ IH]; intros g; rewrite imap_cons; simpl.
  - rewrite bool_decide_eq_true_2 by done. eauto.
  - destruct (bool_decide (other = key)); [eauto |]. apply (IH (g ∘ S)).
Qed.

Lemma enumerate_dict_total key values :
  key ∈ values -> is_Some (dict_get key (enumerate_dict values)).
Proof. apply (dict_get_imap_total id). Qed.

Lemma session_sort_key_total s : in_grid s = true -> is_Some (session_sort_key s).
Proof.
  intros (d & y & Hd & Hy & Hdin & Hsin & Hyin)%in_grid_spec.
  destruct (enumerate_dict_total d WEEK_DAYS Hdin) as [i Hi].
  destruct (enumerate_dict_total (Session.slot s) TEACHING_SLOTS Hsin) as [j Hj].
  destruct (enumerate_dict_total y YEAR_GROUPS Hyin) as [k Hk].
  unfold session_sort_key, day_order, slot_order, year_order.
  rewrite Hd, Hy. cbn [mbind option_bind]. rewrite Hi. cbn [mbind option_bind].
  rewrite Hj. cbn [mbind option_bind]. rewrite Hk. cbn [mbind option_bind]. eauto.
Qed.

(** ** The allocator: one iteration *)

Lemma filter_raising_Some {A} (test : A -> option bool) l m :
  filter_raising test l = Some m -> m = filter (fun x => test x = Some true) l.
Proof.
  revert m. induction l as [| x l IH]; intros m; simpl; [by intros [= <-] |].
  destruct (test x) as [b |] eqn:Hx; simpl; [| done].
  destruct (filter_raising test l) as [rest |]; simpl; [| done].
  intros [= <-]. rewrite filter_cons, (IH rest eq_refl).
  destruct b; case_decide; congruence.
Qed.

Lemma filter_raising_is_Some {A} (test : A -> option bool) l :
  Forall (fun x => is_Some (test x)) l -> is_Some (filter_raising test l).
Proof.
  induction 1 as [| x l [b Hx] _ [rest IH]]; simpl; [eauto |].
  rewrite Hx, IH. simpl. eauto.
Qed.

Lemma filter_raising_nil {A} (test : A -> option bool) l :
  Forall (fun x => test x = Some false) l -> filter_raising test l = Some [].
Proof.
  induction 1 as [| x l Hx _ IH]; simpl; [done |]. by rewrite Hx, IH.
Qed.

Section AllocateFacts.
Variable teacher_rows : list Teacher.t.
Implicit Types (st : alloc_state) (session : Session.t) (teacher : Teacher.t).

(** What the three tests of the inner loop decide. *)
Lemma is_match_true st session teacher :
  is_match teacher_rows st session teacher = Some true
  <-> Session.required_skill_id session
        ∈ default [] (teacher_skill_ids teacher_rows !! Teacher.id teacher)
      /\ (exists day, Session.day session = Some day
            /\ teacher_is_available_for_slot
                 (default [] (teacher_tokens teacher_rows !! Teacher.id teacher))
                 day (Session.slot session) = Some true)
      /\ Teacher.id teacher ∉ busy_at (busy_at_slot st) (hour_of session).
Proof.
  unfold is_match.
  destruct (bool_decide (Session.required_skill_id session ∈ _)) eqn:Hskill; simpl.
  2: { apply bool_decide_eq_false in Hskill. split; [done |]. by intros (? & _). }
  apply bool_decide_eq_true in Hskill.
  destruct (Session.day session) as [day |]; simpl.
  2: { split; [done |]. by intros (_ & (? & ? & _) & _). }
  destruct (teacher_is_available_for_slot _ day _) as [[|] |] eqn:Hav; simpl.
  - destruct (bool_decide (Teacher.id teacher ∈ _)) eqn:Hbusy.
    + apply bool_decide_eq_true in Hbusy. split; [done |]. by intros (_ & _ & ?).
    + apply bool_decide_eq_false in Hbusy. split; [intros _ | done].
      split; [done |]. split; [| done]. exists day. by split.
  - split; [done |]. intros (_ & (d' & [= <-] & Hav') & _). congruence.
  - split; [done |]. intros (_ & (d' & [= <-] & Hav') & _). congruence.
Qed.

Lemma is_match_total st session teacher :
  in_grid session = true -> is_Some (is_match teacher_rows st session teacher).
Proof.
  intros (d & y & Hd & _ & Hdin & _)%in_grid_spec.
  unfold is_match. case_bool_decide; simpl; [| eauto].
  rewrite Hd. simpl.
  destruct (teacher_is_available_for_slot_total
              (default [] (teacher_tokens teacher_rows !! Teacher.id teacher))
              d (Session.slot session) Hdin) as [b ->].
  simpl. destruct b; simpl; [case_bool_decide |]; eauto.
Qed.

Lemma find_matches_total st session :
  in_grid session = true -> is_Some (find_matches teacher_rows st session).
Proof.
  intros Hgrid. apply filter_raising_is_Some, Forall_forall.
  intros teacher _. by apply is_match_total.
Qed.

Lemma find_matches_elem_of st session matches teacher :
  find_matches teacher_rows st session = Some matches ->
  teacher ∈ matches
  <-> teacher ∈ teacher_rows /\ is_match teacher_rows st session teacher = Some true.
Proof.
  intros ->%filter_raising_Some. by rewrite list_elem_of_filter, (comm and).
Qed.

(** The selected teacher is the first match of smallest key. *)
Lemma select_teacher_first_min st matches selected :
  select_teacher st matches = Some selected ->
  exists ks key,
    mapM (fun t => k ← match_sort_key st t; Some (k, t)) matches = Some ks
    /\ first_min load_name_leb ks = Some (key, selected).
Proof.
  unfold select_teacher, sort_by_key. intros Hsel.
  destruct (mapM _ matches) as [ks |] eqn:Hks; simpl in Hsel; [| done].
  exists ks. rewrite <- head_sort_decorated.
  destruct (sort_decorated load_name_leb ks) as [| [key t] rest]; simpl in Hsel; [done |].
  injection Hsel as ->. by exists key.
Qed.

Lemma select_teacher_total st matches :
  matches <> [] ->
  Forall (fun t => is_Some (assigned_count st !! Teacher.id t)) matches ->
  is_Some (select_teacher st matches).
Proof.
  intros Hne Hall. unfold select_teacher.
  destruct (sort_by_key_is_Some load_name_leb (match_sort_key st) matches) as [sorted Hs].
  - eapply Forall_impl; [exact Hall |]. intros t [c Hc].
    unfold match_sort_key. rewrite Hc. simpl. eauto.
  - rewrite Hs. simpl. apply sort_by_key_perm in Hs.
    destruct sorted as [| t sorted]; simpl; [| eauto].
    by apply Permutation_nil_l in Hs.
Qed.

Lemma select_teacher_elem_of st matches selected :
  select_teacher st matches = Some selected -> selected ∈ matches.
Proof.
  intros (ks & key & Hks & Hmin)%select_teacher_first_min.
  apply first_min_elem_of in Hmin.
  rewrite <- (decorate_raising_snd _ _ _ Hks).
  apply list_elem_of_fmap. by exists (key, selected).
Qed.


(** The two outcomes of an iteration. *)
Lemma allocate_one_inv st session st' session' :
  allocate_one teacher_rows st session = Some (st', session') ->
  exists matches,
    find_matches teacher_rows st session = Some matches
    /\ ((matches = []
         /\ st' = AllocState (busy_at_slot st) (assigned_count st) (assigned st)
                    (S (unassigned st))
         /\ session' = session)
        \/ (exists selected count,
              select_teacher st matches = Some selected
              /\ assigned_count st !! Teacher.id selected = Some count
              /\ st' = AllocState
                         (<[hour_of session :=
                              {[Teacher.id selected]}
                              ∪ busy_at (busy_at_slot st) (hour_of session)]>
                            (busy_at_slot st))
                         (<[Teacher.id selected := S count]> (assigned_count st))
                         (S (assigned st)) (unassigned st)
              /\ session' = Session.with_teacher (Some (Teacher.id selected)) session)).
Proof.
  unfold allocate_one. intros Hone.
  destruct (find_matches teacher_rows st session) as [matches |]; simpl in Hone; [| done].
  exists matches. split; [done |].
  destruct matches as [| t matches].
  - left. injection Hone as <- <-. auto.
  - right. destruct (select_teacher st (t :: matches)) as [selected |] eqn:Hsel;
      simpl in Hone; [| done].
    destruct (assigned_count st !! Teacher.id selected) as [count |] eqn:Hcount;
      simpl in Hone; [| done].
    exists selected, count. injection Hone as <- <-. auto.
Qed.

Lemma allocate_one_total st session :
  in_grid session = true ->
  (forall t, t ∈ teacher_rows -> is_Some (assigned_count st !! Teacher.id t)) ->
  is_Some (allocate_one teacher_rows st session).
Proof.
  intros Hgrid Hdom. unfold allocate_one.
  destruct (find_matches_total st session Hgrid) as [matches Hm]. rewrite Hm. simpl.
  destruct matches as [| t matches]; [eauto |].
  assert (Hsub : forall u, u ∈ t :: matches -> u ∈ teacher_rows).
  { intros u Hu. by apply (find_matches_elem_of st session _ u Hm) in Hu as [? _]. }
  destruct (select_teacher_total st (t :: matches)) as [selected Hsel]; [done | |].
  { apply Forall_forall. intros u Hu. apply Hdom, Hsub, Hu. }
  rewrite Hsel. simpl.
  destruct (Hdom selected) as [count ->]; [| simpl; eauto].
  by apply Hsub, (select_teacher_elem_of st).
Qed.

Lemma allocate_one_counts st session st' session' :
  allocate_one teacher_rows st session = Some (st', session') ->
  (forall k, is_Some (assigned_count st !! k) -> is_Some (assigned_count st' !! k))
  /\ assigned st' + unassigned st' = S (assigned st + unassigned st).
Proof.
  intros (matches & _ & [(_ & -> & _) | (selected & count & _ & _ & -> & _)])%allocate_one_inv;
    simpl; (split; [| lia]); [done |].
  intros k Hk. destruct (decide (Teacher.id selected = k)) as [<- | Hne].
  - rewrite lookup_insert_eq. eauto.
  - by rewrite lookup_insert_ne.
Qed.

Lemma allocate_one_in_grid st session st' session' :
  allocate_one teacher_rows st session = Some (st', session') ->
  in_grid session' = in_grid session /\ hour_of session' = hour_of session
  /\ cell_of session' = cell_of session /\ Session.id session' = Session.id session.
Proof.
  by intros (matches & _ & [(_ & _ & ->) | (selected & count & _ & _ & _ & ->)])%allocate_one_inv.
Qed.

(** ** The allocator: the main loop *)

Lemma allocate_loop_total st session_rows :
  Forall (fun s => in_grid s = true) session_rows ->
  (forall t, t ∈ teacher_rows -> is_Some (assigned_count st !! Teacher.id t)) ->
  is_Some (allocate_loop teacher_rows st session_rows).
Proof.
  intros Hgrid. revert st.
  induction Hgrid as [| session rest Hs _ IH]; intros st Hdom; simpl; [eauto |].
  destruct (allocate_one_total st session Hs Hdom) as [[st1 session'] Hone].
  rewrite Hone. simpl.
  destruct (IH st1) as [[st2 rest'] Hrest].
  { intros t Ht. by apply (allocate_one_counts _ _ _ _ Hone), Hdom. }
  rewrite Hrest. simpl. eauto.
Qed.

Lemma allocate_loop_inv st session rest st2 out :
  allocate_loop teacher_rows st (session :: rest) = Some (st2, out) ->
  exists st1 session' rest',
    allocate_one teacher_rows st session = Some (st1, session')
    /\ allocate_loop teacher_rows st1 rest = Some (st2, rest')
    /\ out = session' :: rest'.
Proof.
  simpl. intros Hloop.
  destruct (allocate_one teacher_rows st session) as [[st1 session'] |] eqn:Hone;
    simpl in Hloop; [| done].
  destruct (allocate_loop teacher_rows st1 rest) as [[st2' rest'] |] eqn:Hrest;
    simpl in Hloop; [| done].
  injection Hloop as <- <-. by exists st1, session', rest'.
Qed.

Lemma allocate_loop_counts st session_rows st' out :
  allocate_loop teacher_rows st session_rows = Some (st', out) ->
  assigned st' + unassigned st' = assigned st + unassigned st + length session_rows
  /\ length out = length session_rows.
Proof.
  revert st st' out. induction session_rows as [| session rest IH]; intros st st' out.
  - intros [= <- <-]. simpl. lia.
  - intros (st1 & session' & rest' & Hone & Hrest & ->)%allocate_loop_inv.
    apply allocate_one_counts in Hone as [_ Hone].
    apply IH in Hrest as [Hrest Hlen]. simpl. lia.
Qed.
End AllocateFacts.


(** ** The allocator: a whole run *)

Lemma filter_in_grid_cleared (table : list Session.t) :
  filter (fun s => in_grid s) (Session.with_teacher None <$> table)
  = Session.with_teacher None <$> filter (fun s => in_grid s) table.
Proof.
  induction table as [| s table IH]; [done |].
  rewrite fmap_cons, !filter_cons, in_grid_with_teacher, IH.
  by destruct (decide (in_grid s)).
Qed.

Lemma with_teacher_idemp v : forall s,
  Session.with_teacher v (Session.with_teacher v s) = Session.with_teacher v s.
Proof. reflexivity. Qed.

(** The run starts from the cleared rows: what was assigned before does
    not reach the loop. *)
Lemma allocate_sessions_cleared teachers table :
  allocate_sessions teachers (Session.with_teacher None <$> table)
  = allocate_sessions teachers table.
Proof.
  unfold allocate_sessions.
  rewrite filter_in_grid_cleared.
  rewrite (sort_by_key_fmap triple_leb session_sort_key (Session.with_teacher None))
    by apply session_sort_key_with_teacher.
  destruct (sort_by_key triple_leb session_sort_key _) as [sorted |]; simpl; [| done].
  rewrite <- list_fmap_compose.
  by rewrite (list_fmap_ext _ (Session.with_teacher None) sorted)
    by (intros; apply with_teacher_idemp).
Qed.


Lemma grid_rows_sorted (table : list Session.t) :
  exists sorted,
    sort_by_key triple_leb session_sort_key (filter (fun s => in_grid s) table) = Some sorted
    /\ sorted ≡ₚ filter (fun s => in_grid s) table
    /\ Forall (fun s => in_grid s = true) (Session.with_teacher None <$> sorted)
    /\ Forall (fun s => Session.assigned_teacher_id s = None)
         (Session.with_teacher None <$> sorted).
Proof.
  destruct (sort_by_key_is_Some triple_leb session_sort_key
              (filter (fun s => in_grid s) table)) as [sorted Hsorted].
  { apply Forall_forall. intros s [Hs _]%list_elem_of_filter.
    by apply session_sort_key_total, Is_true_true. }
  exists sorted. split; [done |].
  pose proof (sort_by_key_perm _ _ _ _ Hsorted) as Hperm.
  split; [done |]. split.
  - apply Forall_fmap, Forall_forall. intros s Hs. simpl.
    rewrite Hperm in Hs. apply list_elem_of_filter in Hs as [Hs _].
    by apply Is_true_true.
  - by apply Forall_fmap, Forall_forall.
Qed.


(** In memory the loop is a function of the teachers and of the session
    rows with their assignments cleared: two tables that differ only in
    the teachers assigned before give the same rows and counters. *)
Lemma allocate_sessions_ignores_prior_teachers
    (teachers : list Teacher.t) (table1 table2 : list Session.t) :
  Session.with_teacher None <$> table1 = Session.with_teacher None <$> table2 ->
  allocate_sessions teachers table1 = allocate_sessions teachers table2.
Proof.
  intros Hsame.
  rewrite <- (allocate_sessions_cleared teachers table1),
          <- (allocate_sessions_cleared teachers table2).
  by rewrite Hsame.
Qed.

(** ** No double booking by the allocator *)

Lemma I2_cons s l :
  I2 l ->
  (forall x tid, x ∈ l ->
     Session.assigned_teacher_id s = Some tid ->
     Session.assigned_teacher_id x = Some tid ->
     hour_of s <> hour_of x) ->
  I2 (s :: l).
Proof.
  intros Hl Hs i j si sj tid Hi Hj Hne Hgi Hgj Hti Htj.
  destruct i as [| i], j as [| j]; simpl in Hi, Hj.
  - done.
  - injection Hi as <-. apply (Hs sj tid); [| done | done].
    by apply list_elem_of_lookup_2 in Hj.
  - injection Hj as <-. intros Heq. apply (Hs si tid); [| done | done | done].
    by apply list_elem_of_lookup_2 in Hi.
  - apply (Hl i j si sj tid); auto.
Qed.

Section NoDoubleBooking.
Variable teacher_rows : list Teacher.t.

(** An iteration only adds to the committed sets, and the teacher it
    assigns was not committed in that hour before and is afterwards. *)
Lemma allocate_one_commits st session st' session' :
  allocate_one teacher_rows st session = Some (st', session') ->
  Session.assigned_teacher_id session = None ->
  (forall hour, busy_at (busy_at_slot st) hour ⊆ busy_at (busy_at_slot st') hour)
  /\ (forall tid, Session.assigned_teacher_id session' = Some tid ->
        (tid ∉ busy_at (busy_at_slot st) (hour_of session))
        /\ (tid ∈ busy_at (busy_at_slot st') (hour_of session))).
Proof.
  intros (matches & Hm & [(_ & -> & ->) | (selected & count & Hsel & _ & -> & ->)])%allocate_one_inv
    Hnone.
  - split; [done |]. intros tid Htid. congruence.
  - simpl. split.
    + intros hour. unfold busy_at at 2.
      destruct (decide (hour_of session = hour)) as [<- | Hne].
      * rewrite lookup_insert_eq. simpl. set_solver.
      * by rewrite lookup_insert_ne.
    + intros tid [= <-]. split.
      * apply select_teacher_elem_of in Hsel.
        apply (find_matches_elem_of _ _ _ _ _ Hm) in Hsel as [_ Hsel].
        by apply is_match_true in Hsel as (_ & _ & ?).
      * unfold busy_at at 1. rewrite lookup_insert_eq. simpl. set_solver.
Qed.

Lemma allocate_loop_commits st session_rows st' out :
  allocate_loop teacher_rows st session_rows = Some (st', out) ->
  Forall (fun s => Session.assigned_teacher_id s = None) session_rows ->
  (forall hour, busy_at (busy_at_slot st) hour ⊆ busy_at (busy_at_slot st') hour)
  /\ Forall (fun s => forall tid,
               Session.assigned_teacher_id s = Some tid ->
               (tid ∉ busy_at (busy_at_slot st) (hour_of s))
               /\ (tid ∈ busy_at (busy_at_slot st') (hour_of s))) out
  /\ I2 out.
Proof.
  intros Hloop Hnone. revert st st' out Hloop.
  induction Hnone as [| session rest Hs _ IH]; intros st st' out.
  - intros [= <- <-]. split; [done |]. split; [constructor |].
    intros i j si sj tid Hi. by rewrite lookup_nil in Hi.
  - intros (st1 & session' & rest' & Hone & Hrest & ->)%allocate_loop_inv.
    pose proof (allocate_one_in_grid _ _ _ _ _ Hone) as (_ & Hhour & _).
    apply (allocate_one_commits _ _ _ _) in Hone as [Hmono1 Hnew]; [| done].
    apply IH in Hrest as (Hmono2 & Hbooked & Hrest).
    split; [| split].
    + intros hour. etrans; [apply Hmono1 | apply Hmono2].
    + constructor.
      * intros tid Htid. destruct (Hnew tid Htid) as [Hout Hin].
        rewrite Hhour. split; [done |]. by apply Hmono2.
      * eapply Forall_impl; [exact Hbooked |]. intros x Hx tid Htid.
        destruct (Hx tid Htid) as [Hout Hin]. split; [| done].
        intros Hold. apply Hout. by apply Hmono1.
    + apply I2_cons; [done |]. intros x tid Hx Htid Hxtid Heq.
      rewrite Forall_forall in Hbooked.
      destruct (Hbooked x Hx tid Hxtid) as [Hout _]. apply Hout.
      rewrite <- Heq, Hhour. by apply Hnew.
Qed.
End NoDoubleBooking.

(** C7: in the rows written by a run no teacher is assigned to two
    sessions of the same day and slot: the rows satisfy (I2). *)
Theorem C7_allocate_no_double_booking
    (teachers : list Teacher.t) (table : list Session.t) (r : alloc_result) :
  allocate_sessions teachers table = Some r -> I2 (sessions_after r).
Proof.
  destruct (grid_rows_sorted table) as (sorted & Hsorted & _ & _ & Hnone).
  unfold allocate_sessions. rewrite Hsorted. simpl. intros Hrun.
  destruct (allocate_loop _ _ _) as [[st out] |] eqn:Hloop; simpl in Hrun; [| done].
  injection Hrun as <-. simpl.
  by apply allocate_loop_commits in Hloop as (_ & _ & ?).
Qed.

Lemma C7_allocate_no_double_booking_witness :
  I2 [ monday_8 1 1 "Grade 1" (Some 1%Z); monday_8 2 1 "Grade 2" (Some 2%Z);
       monday_8 3 1 "Grade 3" None ].
Proof.
  apply (C7_allocate_no_double_booking
           [ Teacher.mk 1 "Ann" "Mon 08:00-09:00" [1%Z];
             Teacher.mk 2 "Bob" "" [1%Z; 2%Z];
             Teacher.mk 2 "Bob" "monday 8:00" [1%Z] ]
           [ monday_8 3 1 "Grade 3" (Some 1%Z); monday_8 1 1 "Grade 1" (Some 1%Z);
             monday_8 2 1 "Grade 2" None ]
           (AllocResult
              [ monday_8 1 1 "Grade 1" (Some 1%Z); monday_8 2 1 "Grade 2" (Some 2%Z);
                monday_8 3 1 "Grade 3" None ] 2 1)).
  vm_compute. reflexivity.
Defined.

(** ** Candidates and selection *)

Section Selection.
Variable teacher_rows : list Teacher.t.
Hypothesis ids_are_keys : NoDup (Teacher.id <$> teacher_rows).

(** With ids that are keys the dictionaries hold each teacher's own skills
    and tokens, so the tests of the inner loop are about the teacher. *)
Lemma is_match_true_own st session teacher :
  teacher ∈ teacher_rows ->
  is_match teacher_rows st session teacher = Some true
  <-> Session.required_skill_id session ∈ Teacher.skills teacher
      /\ (exists day, Session.day session = Some day
            /\ is_available teacher day (Session.slot session) = Some true)
      /\ Teacher.id teacher ∉ busy_at (busy_at_slot st) (hour_of session).
Proof.
  intros Hin. rewrite is_match_true. unfold teacher_skill_ids, teacher_tokens, is_available.
  by rewrite !dict_by_id_lookup_own.
Qed.

Lemma find_matches_candidates st session matches teacher :
  find_matches teacher_rows st session = Some matches ->
  teacher ∈ matches
  <-> teacher ∈ teacher_rows
      /\ Session.required_skill_id session ∈ Teacher.skills teacher
      /\ (exists day, Session.day session = Some day
            /\ is_available teacher day (Session.slot session) = Some true)
      /\ Teacher.id teacher ∉ busy_at (busy_at_slot st) (hour_of session).
Proof.
  intros Hm. rewrite (find_matches_elem_of _ _ _ _ _ Hm). split.
  - intros [Hin Hmatch]. split; [done |]. by apply is_match_true_own.
  - intros [Hin Hmatch]. split; [done |]. by apply is_match_true_own.
Qed.
End Selection.

Lemma load_name_leb_spec (a b : nat * string) :
  load_name_leb a b = true <-> a.1 < b.1 \/ (a.1 = b.1 /\ String.leb a.2 b.2 = true).
Proof. apply pair_leb_nat_spec. Qed.

Lemma load_name_leb_false (a b : nat * string) :
  load_name_leb a b = false -> b.1 < a.1 \/ (b.1 = a.1 /\ String.leb a.2 b.2 = false).
Proof.
  intros Hf. destruct (lt_eq_lt_dec a.1 b.1) as [[Hlt | Heq] | Hgt]; [| | by left].
  - assert (load_name_leb a b = true) by (apply load_name_leb_spec; by left). congruence.
  - right. split; [done |]. destruct (String.leb a.2 b.2) eqn:Hle; [| done].
    assert (load_name_leb a b = true) by (apply load_name_leb_spec; by right). congruence.
Qed.

(** What [select_teacher] returns: a match of smallest load and, among the
    matches of that load, of smallest lower-cased name; every match listed
    before it has a larger load or, with the same load, a lower-cased name
    that is strictly after. *)
Lemma select_teacher_spec st matches selected :
  select_teacher st matches = Some selected ->
  exists load before after,
    assigned_count st !! Teacher.id selected = Some load
    /\ matches = before ++ selected :: after
    /\ (forall c, c ∈ matches ->
          exists load_c,
            assigned_count st !! Teacher.id c = Some load_c
            /\ (load < load_c
                \/ (load = load_c
                    /\ String.leb (Py.lower (Teacher.name selected))
                         (Py.lower (Teacher.name c)) = true)))
    /\ (forall c, c ∈ before ->
          exists load_c,
            assigned_count st !! Teacher.id c = Some load_c
            /\ (load < load_c
                \/ (load = load_c
                    /\ String.leb (Py.lower (Teacher.name c))
                         (Py.lower (Teacher.name selected)) = false))).
Proof.
  intros (ks & key & Hks & Hmin)%select_teacher_first_min.
  pose proof (decorate_raising_fst _ _ _ Hks) as Hkeys.
  pose proof (decorate_raising_snd _ _ _ Hks) as Hsnd.
  rewrite Forall_forall in Hkeys.
  assert (Hkey : forall k c, (k, c) ∈ ks ->
            assigned_count st !! Teacher.id c = Some k.1
            /\ k.2 = Py.lower (Teacher.name c)).
  { intros k c Hin. specialize (Hkeys _ Hin). simpl in Hkeys.
    unfold match_sort_key in Hkeys.
    destruct (assigned_count st !! Teacher.id c) as [n |]; simpl in Hkeys; [| done].
    by injection Hkeys as <-. }
  destruct (Hkey key selected (first_min_elem_of _ _ _ Hmin)) as [Hload Hname].
  destruct (first_min_first _ _ _ Hmin) as (ks1 & ks2 & Hsplit & Hbefore).
  pose proof (first_min_le _ load_name_leb_total load_name_leb_trans _ _ Hmin) as Hle.
  rewrite Forall_forall in Hle, Hbefore.
  exists key.1, (snd <$> ks1), (snd <$> ks2). split; [done |]. split; [| split].
  - by rewrite <- Hsnd, Hsplit, fmap_app, fmap_cons.
  - intros c Hc. rewrite <- Hsnd in Hc.
    apply list_elem_of_fmap in Hc as ([k c'] & -> & Hin). simpl.
    destruct (Hkey k c' Hin) as [Hk Hn]. exists k.1. split; [done |].
    specialize (Hle _ Hin). simpl in Hle. apply load_name_leb_spec in Hle.
    by rewrite <- Hname, <- Hn.
  - intros c Hc. apply list_elem_of_fmap in Hc as ([k c'] & -> & Hin). simpl.
    assert (Hin' : (k, c') ∈ ks) by (rewrite Hsplit; apply elem_of_app; by left).
    destruct (Hkey k c' Hin') as [Hk Hn]. exists k.1. split; [done |].
    specialize (Hbefore _ Hin). simpl in Hbefore. apply load_name_leb_false in Hbefore.
    by rewrite <- Hname, <- Hn.
Qed.

(** C3 (as stated, refuted): the key of the selection, load then
    lower-cased name, does not order the candidates totally: two teachers
    named alike are distinct candidates with the same key. *)
Lemma C3_selection_key_ties :
  ~ (forall teacher_rows st session matches a b,
       NoDup (Teacher.id <$> teacher_rows) ->
       find_matches teacher_rows st session = Some matches ->
       a ∈ matches -> b ∈ matches ->
       match_sort_key st a = match_sort_key st b -> a = b).
Proof.
  intros Horder.
  set (ann := Teacher.mk 1 "Ann" "Mon 08:00-09:00" [1%Z]).
  set (ann' := Teacher.mk 2 "ann" "Mon 08:00-09:00" [1%Z]).
  assert (Heq : ann = ann'); [| discriminate Heq].
  apply (Horder [ann; ann']
           (AllocState ∅ (dict_by_id (fun _ => 0) [ann; ann']) 0 0)
           (monday_8 1 1 "Grade 1" None) [ann; ann']).
  - apply (bool_decide_eq_true_1 (NoDup (Teacher.id <$> [ann; ann']))). vm_compute; reflexivity.
  - vm_compute; reflexivity.
  - apply list_elem_of_here.
  - apply list_elem_of_further, list_elem_of_here.
  - vm_compute; reflexivity.
Qed.

(** Which of two teachers named alike is selected is decided by the order
    of the rows, not by the key. *)
Lemma selection_follows_row_order :
  let ann := Teacher.mk 1 "Ann" "Mon 08:00-09:00" [1%Z] in
  let ann' := Teacher.mk 2 "Ann" "Mon 08:00-09:00" [1%Z] in
  let table := [monday_8 1 1 "Grade 1" None] in
  (sessions_after <$> allocate_sessions [ann; ann'] table)
    = Some [monday_8 1 1 "Grade 1" (Some 1%Z)]
  /\ (sessions_after <$> allocate_sessions [ann'; ann] table)
    = Some [monday_8 1 1 "Grade 1" (Some 2%Z)].
Proof. split; vm_compute; reflexivity. Qed.

(** ** Grouping *)

Lemma filter_snoc_True {A} (P : A -> Prop) `{forall x, Decision (P x)} (l : list A) x :
  P x -> filter P (l ++ [x]) = filter P l ++ [x].
Proof. intros Hx. by rewrite filter_app, filter_cons, decide_True, filter_nil. Qed.

Lemma filter_snoc_False {A} (P : A -> Prop) `{forall x, Decision (P x)} (l : list A) x :
  ~ P x -> filter P (l ++ [x]) = filter P l.
Proof.
  intros Hx. by rewrite filter_app, filter_cons, decide_False, filter_nil, app_nil_r.
Qed.

Section Grouping.
Context {K V : Type} `{EqDecision K}.
Implicit Types (d : list (K * list V)) (l : list (K * V)).

(** Appending to an existing key extends its group in place; appending to
    a new key adds a group at the end. *)
Lemma dict_append_spec k v d :
  (exists d1 g d2,
      d = d1 ++ (k, g) :: d2 /\ (k ∉ fst <$> d1)
      /\ dict_append k v d = d1 ++ (k, g ++ [v]) :: d2)
  \/ ((k ∉ fst <$> d) /\ dict_append k v d = d ++ [(k, [v])]).
Proof.
  induction d as [| [k' g] d IH]; cbn [dict_append].
  - right. split; [apply not_elem_of_nil | done].
  - destruct (decide (k = k')) as [<- | Hne].
    + left. exists [], g, d. split; [done |]. split; [apply not_elem_of_nil | done].
    + destruct IH as [(d1 & g1 & d2 & -> & Hd1 & ->) | (Hd & ->)].
      * left. exists ((k', g) :: d1), g1, d2. split; [done |]. split; [| done].
        rewrite fmap_cons. apply not_elem_of_cons. by split.
      * right. split; [| done]. rewrite fmap_cons. apply not_elem_of_cons. by split.
Qed.

Lemma group_into_snoc l p :
  group_into (l ++ [p]) = dict_append p.1 p.2 (group_into l).
Proof. unfold group_into. by rewrite foldl_snoc. Qed.

(** The groups partition the values. *)
Lemma group_into_concat l : concat (snd <$> group_into l) ≡ₚ snd <$> l.
Proof.
  induction l as [| p l IH] using rev_ind; [done |].
  rewrite group_into_snoc, fmap_app. simpl.
  destruct (dict_append_spec p.1 p.2 (group_into l))
    as [(d1 & g & d2 & Hd & _ & ->) | (_ & ->)].
  - rewrite Hd in IH. rewrite <- IH.
    rewrite !fmap_app, !fmap_cons, !concat_app, !concat_cons. simpl.
    rewrite <- !(assoc_L (++)). f_equiv. f_equiv.
    apply Permutation_app_comm.
  - rewrite fmap_app, concat_app, IH. done.
Qed.

(** The keys are those of the list, each once, and the group of a key
    holds its values in the order of the list. *)
Lemma group_into_spec l :
  NoDup (fst <$> group_into l)
  /\ (forall k, k ∈ fst <$> group_into l <-> k ∈ fst <$> l)
  /\ Forall (fun kg => kg.2 = snd <$> filter (fun p => p.1 = kg.1) l) (group_into l).
Proof.
  induction l as [| p l (Hnd & Hkeys & Hgroups)] using rev_ind.
  - split; [constructor |]. split; [done | constructor].
  - rewrite group_into_snoc.
    destruct (dict_append_spec p.1 p.2 (group_into l))
      as [(d1 & g & d2 & Hd & Hd1 & ->) | (Hnew & ->)].
    + rewrite Hd in *. split; [| split].
      * by rewrite fmap_app, fmap_cons in *.
      * intros k. specialize (Hkeys k).
        rewrite !fmap_app, !fmap_cons, !elem_of_app, !elem_of_cons in Hkeys.
        rewrite !fmap_app, !fmap_cons, fmap_nil, !elem_of_app, !elem_of_cons, elem_of_nil.
        simpl in *. tauto.
      * rewrite fmap_app, fmap_cons in Hnd.
        apply NoDup_app in Hnd as (_ & Hdisj & Hnd2).
        apply NoDup_cons in Hnd2 as [Hd2 _].
        apply Forall_app in Hgroups as [Hg1 Hg2].
        apply Forall_cons in Hg2 as [Hg Hg2]. simpl in Hg.
        apply Forall_app. split; [| apply Forall_cons; split].
        -- rewrite Forall_forall in Hg1 |- *. intros [k gk] Hin.
           rewrite (Hg1 _ Hin). simpl. rewrite filter_snoc_False; [done |].
           intros Heq. apply Hd1. rewrite Heq.
           apply list_elem_of_fmap. by exists (k, gk).
        -- simpl. rewrite filter_snoc_True by done. by rewrite fmap_app, Hg.
        -- rewrite Forall_forall in Hg2 |- *. intros [k gk] Hin.
           rewrite (Hg2 _ Hin). simpl. rewrite filter_snoc_False; [done |].
           intros Heq. apply Hd2. rewrite Heq.
           apply list_elem_of_fmap. by exists (k, gk).
    + split; [| split].
      * rewrite fmap_app. apply NoDup_app. split; [done |]. split.
        -- intros k Hk Hk'. apply list_elem_of_singleton in Hk'. simpl in Hk'. by subst.
        -- apply NoDup_singleton.
      * intros k. specialize (Hkeys k).
        rewrite !fmap_app, !fmap_cons, !fmap_nil, !elem_of_app, !elem_of_cons, !elem_of_nil.
        simpl. tauto.
      * apply Forall_app. split.
        -- rewrite Forall_forall in Hgroups |- *. intros [k gk] Hin.
           rewrite (Hgroups _ Hin). simpl. rewrite filter_snoc_False; [done |].
           intros Heq. apply Hnew. rewrite Heq.
           apply list_elem_of_fmap. by exists (k, gk).
        -- apply Forall_singleton. simpl.
           rewrite filter_snoc_True by done. rewrite filter_none; [done |].
           apply Forall_forall. intros q Hq Heq. apply Hnew, Hkeys.
           rewrite <- Heq. apply list_elem_of_fmap. by exists q.
Qed.

Lemma group_into_nonempty l : Forall (fun kg => kg.2 <> []) (group_into l).
Proof.
  destruct (group_into_spec l) as (_ & Hkeys & Hgroups).
  rewrite Forall_forall in Hgroups |- *. intros [k g] Hin.
  pose proof (Hgroups _ Hin) as Hg. simpl in *. rewrite Hg.
  assert (Hk : k ∈ fst <$> l).
  { apply Hkeys, list_elem_of_fmap. by exists (k, g). }
  apply list_elem_of_fmap in Hk as ([k' v] & -> & Hp).
  intros Hnil. apply fmap_nil_inv in Hnil.
  assert (Hp' : (k', v) ∈ filter (fun p => p.1 = (k', v).1) l)
    by (by apply list_elem_of_filter).
  rewrite Hnil in Hp'. by apply elem_of_nil in Hp'.
Qed.

Lemma filter_key_NoDup l k :
  NoDup (fst <$> l) -> length (filter (fun p => p.1 = k) l) <= 1.
Proof.
  induction l as [| [k' v] l IH]; intros Hnd; simpl; [lia |].
  rewrite fmap_cons in Hnd. apply NoDup_cons in Hnd as [Hk' Hnd].
  rewrite filter_cons. simpl. destruct (decide (k' = k)) as [-> | Hne]; [| by apply IH].
  rewrite filter_none; [simpl; lia |].
  apply Forall_forall. intros q Hq Heq. apply Hk'.
  rewrite <- Heq. apply list_elem_of_fmap. by exists q.
Qed.

(** With keys that do not repeat every group has one member. *)
Lemma group_into_singletons l :
  NoDup (fst <$> l) -> Forall (fun g => length g <= 1) (snd <$> group_into l).
Proof.
  intros Hnd. destruct (group_into_spec l) as (_ & _ & Hgroups).
  apply Forall_fmap. eapply Forall_impl; [exact Hgroups |].
  intros [k g] Hg. simpl in *. rewrite Hg, length_fmap. by apply filter_key_NoDup.
Qed.
End Grouping.

(** ** The rows loaded by the repair *)

Lemma group_by_cell_group_into loaded :
  group_by_cell loaded = group_into ((fun p => (cell_of p.2, p.1)) <$> loaded).
Proof. unfold group_by_cell, group_into. by rewrite foldl_fmap. Qed.

Lemma foldl_teacher_slot_entries d loaded :
  foldl (fun by_teacher_slot (p : ref * Session.t) =>
           match Session.assigned_teacher_id p.2 with
           | Some tid =>
               if Py.truthy (Some tid)
               then dict_append (hour_of p.2, tid) p.1 by_teacher_slot
               else by_teacher_slot
           | None => by_teacher_slot
           end) d loaded
  = foldl (fun d q => dict_append q.1 q.2 d) d (omap teacher_slot_entry loaded).
Proof.
  revert d. induction loaded as [| [r s] loaded IH]; intros d; [done |].
  cbn [foldl omap list_omap]. unfold teacher_slot_entry at 1. cbn [fst snd].
  destruct (Session.assigned_teacher_id s) as [tid |]; [| apply IH].
  destruct (Py.truthy (Some tid)); apply IH.
Qed.

Lemma group_by_teacher_slot_group_into loaded :
  group_by_teacher_slot loaded = group_into (omap teacher_slot_entry loaded).
Proof. apply foldl_teacher_slot_entries. Qed.

Lemma elem_of_rows (table : list Session.t) r s :
  (r, s) ∈ rows table <-> table !! r = Some s.
Proof.
  unfold rows. rewrite elem_of_lookup_imap. split.
  - by intros (i & x & [= -> ->] & Hx).
  - intros Hs. by exists r, s.
Qed.

Lemma rows_fst (table : list Session.t) : fst <$> rows table = seq 0 (length table).
Proof.
  unfold rows. rewrite fmap_imap. rewrite <- (list_fmap_id (seq 0 (length table))).
  apply (imap_seq_0 table id).
Qed.

Lemma rows_snd (table : list Session.t) : snd <$> rows table = table.
Proof.
  unfold rows. rewrite fmap_imap. apply list_eq. intros i.
  rewrite list_lookup_imap. by destruct (table !! i).
Qed.

Lemma rows_NoDup (table : list Session.t) : NoDup (fst <$> rows table).
Proof. rewrite rows_fst. apply NoDup_seq. Qed.

Section Loaded.
Variable table : list Session.t.

Lemma loaded_rows_perm : loaded_rows table ≡ₚ grid_sessions_query table.
Proof. apply sort_by_perm. Qed.

Lemma elem_of_loaded_rows r s :
  (r, s) ∈ loaded_rows table <-> table !! r = Some s /\ in_grid s = true.
Proof.
  rewrite loaded_rows_perm. unfold grid_sessions_query.
  rewrite list_elem_of_filter, elem_of_rows. simpl. rewrite Is_true_true. tauto.
Qed.

Lemma loaded_rows_NoDup : NoDup (fst <$> loaded_rows table).
Proof.
  rewrite loaded_rows_perm. unfold grid_sessions_query.
  apply (NoDup_fmap_fst (filter _ _)).
  - intros r s1 s2 [_ H1%elem_of_rows]%list_elem_of_filter
      [_ H2%elem_of_rows]%list_elem_of_filter. congruence.
  - apply NoDup_filter. eapply NoDup_fmap_1. apply rows_NoDup.
Qed.
End Loaded.

(** ** The repair on a clean grid *)

Lemma merge_cell_short st (sessions : list ref) :
  length sessions <= 1 -> merge_cell st sessions = st.
Proof.
  intros Hlen. unfold merge_cell. by rewrite (proj2 (Nat.leb_le _ _) Hlen).
Qed.

Lemma clear_conflicts_short st (sessions : list ref) :
  length sessions <= 1 -> clear_conflicts st sessions = st.
Proof.
  intros Hlen. unfold clear_conflicts. by rewrite (proj2 (Nat.leb_le _ _) Hlen).
Qed.

Lemma foldl_merge_cell_short st groups :
  Forall (fun g => length g <= 1) groups -> foldl merge_cell st groups = st.
Proof.
  induction 1 as [| g groups Hg _ IH]; simpl; [done |]. by rewrite merge_cell_short.
Qed.

Lemma foldl_clear_conflicts_short st groups :
  Forall (fun g => length g <= 1) groups -> foldl clear_conflicts st groups = st.
Proof.
  induction 1 as [| g groups Hg _ IH]; simpl; [done |]. by rewrite clear_conflicts_short.
Qed.

(** Under (I1) the loaded rows have pairwise different cells. *)
Lemma I1_cells_NoDup table :
  I1 table -> NoDup (fst <$> ((fun p => (cell_of p.2, p.1)) <$> loaded_rows table)).
Proof.
  intros Hclean. rewrite <- list_fmap_compose.
  apply NoDup_fmap_2_strong; [| eapply NoDup_fmap_1, loaded_rows_NoDup].
  intros [i si] [j sj] [Hi Hgi]%elem_of_loaded_rows [Hj Hgj]%elem_of_loaded_rows Hcell.
  simpl in Hcell. destruct (decide (i = j)) as [-> | Hne]; [congruence |].
  by destruct (Hclean i j si sj).
Qed.

Lemma NoDup_fmap_omap {A B C} (f : A -> option B) (g : B -> C) (l : list A) :
  NoDup l ->
  (forall x y b1 b2, x ∈ l -> y ∈ l -> f x = Some b1 -> f y = Some b2 ->
                     g b1 = g b2 -> x = y) ->
  NoDup (g <$> omap f l).
Proof.
  induction 1 as [| x l Hx Hnd IH]; intros Hinj; [constructor |].
  cbn [omap list_omap]. destruct (f x) as [b |] eqn:Hb.
  - rewrite fmap_cons. apply NoDup_cons. split.
    + intros (b' & Hg & (y & Hy & Hb')%list_elem_of_omap)%list_elem_of_fmap.
      apply Hx. rewrite (Hinj x y b b'); auto using list_elem_of_here, list_elem_of_further.
    + apply IH. intros y z b1 b2 Hy Hz. apply Hinj; by apply list_elem_of_further.
  - apply IH. intros y z b1 b2 Hy Hz. apply Hinj; by apply list_elem_of_further.
Qed.

(** Under (I2) the entries of [by_teacher_slot] have pairwise different
    keys. *)
Lemma I2_entries_NoDup table :
  I2 table -> NoDup (fst <$> omap teacher_slot_entry (loaded_rows table)).
Proof.
  intros Hclean. apply NoDup_fmap_omap; [eapply NoDup_fmap_1, loaded_rows_NoDup |].
  intros [r1 s1] [r2 s2] [k1 r1'] [k2 r2'] Hin1 Hin2 He1 He2 Hkey. simpl in Hkey. subst k2.
  assert (Hk1 : (k1, r1') ∈ omap teacher_slot_entry (loaded_rows table))
    by (apply list_elem_of_omap; eauto).
  assert (Hk2 : (k1, r2') ∈ omap teacher_slot_entry (loaded_rows table))
    by (apply list_elem_of_omap; eauto).
  unfold teacher_slot_entry in He1, He2. cbn [fst snd] in He1, He2.
  destruct (Session.assigned_teacher_id s1) as [t1 |] eqn:Ht1; [| discriminate He1].
  destruct (Session.assigned_teacher_id s2) as [t2 |] eqn:Ht2; [| discriminate He2].
  destruct (Py.truthy (Some t1)); [| discriminate He1].
  destruct (Py.truthy (Some t2)); [| discriminate He2].
  injection He1 as <- <-. injection He2 as Hday Hslot Ht Hr. subst t2.
  apply elem_of_loaded_rows in Hin1 as [Hr1 Hg1], Hin2 as [Hr2 Hg2].
  destruct (decide (r1 = r2)) as [-> | Hne]; [congruence |].
  destruct (Hclean r1 r2 s1 s2 t1); auto. unfold hour_of. congruence.
Qed.

(** X1: on a table that satisfies (I1) and (I2) the repair changes nothing:
    every row is kept as it is and both counters are zero. *)
Theorem repair_of_clean_grid_is_noop (table : list Session.t) :
  I1 table -> I2 table ->
  deduplicate_grid_sessions table = RepairResult table 0 0.
Proof.
  intros H1 H2. unfold deduplicate_grid_sessions. fold (loaded_rows table).
  rewrite group_by_cell_group_into, group_by_teacher_slot_group_into.
  rewrite foldl_merge_cell_short by (by apply group_into_singletons, I1_cells_NoDup).
  rewrite foldl_clear_conflicts_short by (by apply group_into_singletons, I2_entries_NoDup).
  reflexivity.
Qed.

Lemma repair_of_clean_grid_is_noop_witness :
  deduplicate_grid_sessions
    [monday_8 1 1 "Grade 1" (Some 7%Z); monday_8 2 1 "Grade 2" None]
  = RepairResult [monday_8 1 1 "Grade 1" (Some 7%Z); monday_8 2 1 "Grade 2" None] 0 0.
Proof.
  apply repair_of_clean_grid_is_noop.
  - intros i j si sj Hi Hj Hne _ _.
    destruct i as [| [| i]], j as [| [| j]]; simpl in Hi, Hj; try done;
      injection Hi as <-; injection Hj as <-; discriminate.
  - intros i j si sj tid Hi Hj Hne _ _ Hti Htj.
    destruct i as [| [| i]], j as [| [| j]]; simpl in Hi, Hj; try done;
      injection Hi as <-; injection Hj as <-; discriminate.
Defined.

(** ** What the two repair loops do to the state *)

Lemma with_teacher_same s : Session.with_teacher (Session.assigned_teacher_id s) s = s.
Proof. by destruct s. Qed.

Lemma forget_teachers_insert store r s v :
  store !! r = Some s ->
  forget_teachers (<[r := Session.with_teacher v s]> store) = forget_teachers store.
Proof.
  intros Hr. unfold forget_teachers. rewrite list_fmap_insert. simpl.
  apply list_insert_id. by rewrite list_lookup_fmap, Hr.
Qed.

Lemma forget_teachers_lookup store table r :
  forget_teachers store = forget_teachers table ->
  is_Some (table !! r) -> is_Some (store !! r).
Proof.
  intros Heq [s Hs]. apply lookup_lt_is_Some.
  rewrite <- (length_fmap (Session.with_teacher None) store).
  fold (forget_teachers store). rewrite Heq. unfold forget_teachers.
  rewrite length_fmap. by apply lookup_lt_Some in Hs.
Qed.

Lemma forget_teachers_row store table r s :
  forget_teachers store = forget_teachers table ->
  store !! r = Some s ->
  exists s0, table !! r = Some s0
             /\ Session.with_teacher None s = Session.with_teacher None s0.
Proof.
  intros Heq Hs.
  assert (Hf : forget_teachers store !! r = Some (Session.with_teacher None s))
    by (unfold forget_teachers; by rewrite list_lookup_fmap, Hs).
  rewrite Heq in Hf. unfold forget_teachers in Hf. rewrite list_lookup_fmap in Hf.
  destruct (table !! r) as [s0 |]; [| done]. exists s0. split; [done |].
  simpl in Hf. congruence.
Qed.

Lemma forget_teacher_fields s s0 :
  Session.with_teacher None s = Session.with_teacher None s0 ->
  in_grid s = in_grid s0 /\ cell_of s = cell_of s0 /\ hour_of s = hour_of s0
  /\ Session.id s = Session.id s0
  /\ Session.required_skill_id s = Session.required_skill_id s0.
Proof. destruct s, s0. cbv [Session.with_teacher]. simpl. by intros [= -> -> -> -> ->]. Qed.

Section RepairLoops.
Variable table : list Session.t.
Implicit Types (st : repair_state) (r keep extra : ref).

Lemma merge_extra_spec keep extra st :
  forget_teachers (store st) = forget_teachers table ->
  is_Some (table !! keep) -> is_Some (table !! extra) ->
  forget_teachers (store (merge_extra keep extra st)) = forget_teachers table
  /\ deleted (merge_extra keep extra st) = deleted st ++ [extra]
  /\ removed (merge_extra keep extra st) = S (removed st)
  /\ unassigned_conflicts (merge_extra keep extra st) = unassigned_conflicts st
  /\ (forall r, r <> keep -> store (merge_extra keep extra st) !! r = store st !! r).
Proof.
  intros Hst Hk He.
  destruct (forget_teachers_lookup _ _ _ Hst Hk) as [k Hkeep].
  destruct (forget_teachers_lookup _ _ _ Hst He) as [e Hextra].
  unfold merge_extra, ref in *. rewrite Hkeep, Hextra.
  destruct (_ && _); simpl; repeat split; try done.
  - by rewrite forget_teachers_insert.
  - intros r Hr. by rewrite list_lookup_insert_ne.
Qed.

Lemma merge_extras_spec keep extras st :
  forget_teachers (store st) = forget_teachers table ->
  is_Some (table !! keep) -> Forall (fun r => is_Some (table !! r)) extras ->
  let st' := foldl (fun st extra => merge_extra keep extra st) st extras in
  forget_teachers (store st') = forget_teachers table
  /\ deleted st' = deleted st ++ extras
  /\ removed st' = removed st + length extras
  /\ unassigned_conflicts st' = unassigned_conflicts st
  /\ (forall r, r <> keep -> store st' !! r = store st !! r).
Proof.
  intros Hst Hk Hextras. revert st Hst.
  induction Hextras as [| extra extras He _ IH]; intros st Hst; simpl.
  - rewrite app_nil_r, Nat.add_0_r. done.
  - destruct (merge_extra_spec keep extra st Hst Hk He) as (Hst1 & Hd1 & Hr1 & Hc1 & Hf1).
    destruct (IH _ Hst1) as (Hst2 & Hd2 & Hr2 & Hc2 & Hf2).
    split; [done |]. split; [| split; [| split]].
    + rewrite Hd2, Hd1. by rewrite <- (assoc_L (++)).
    + rewrite Hr2, Hr1. lia.
    + by rewrite Hc2.
    + intros r Hr. by rewrite Hf2, Hf1.
Qed.

Lemma merge_cell_spec sessions st :
  forget_teachers (store st) = forget_teachers table ->
  Forall (fun r => is_Some (table !! r)) sessions ->
  forget_teachers (store (merge_cell st sessions)) = forget_teachers table
  /\ deleted (merge_cell st sessions) = deleted st ++ tail sessions
  /\ removed (merge_cell st sessions) = removed st + length (tail sessions)
  /\ unassigned_conflicts (merge_cell st sessions) = unassigned_conflicts st
  /\ (forall r, r ∉ sessions -> store (merge_cell st sessions) !! r = store st !! r).
Proof.
  intros Hst Hvalid. unfold merge_cell.
  destruct sessions as [| keep [| extra extras]]; simpl.
  - by rewrite app_nil_r, Nat.add_0_r.
  - by rewrite app_nil_r, Nat.add_0_r.
  - apply Forall_cons in Hvalid as [Hk Hextras].
    destruct (merge_extras_spec keep (extra :: extras) st Hst Hk Hextras)
      as (H1 & H2 & H3 & H4 & H5).
    simpl in *. repeat split; try done.
    intros r Hr. apply H5. intros ->. apply Hr, list_elem_of_here.
Qed.

Lemma foldl_merge_cell_spec groups st :
  forget_teachers (store st) = forget_teachers table ->
  Forall (Forall (fun r => is_Some (table !! r))) groups ->
  let st' := foldl merge_cell st groups in
  forget_teachers (store st') = forget_teachers table
  /\ deleted st' = deleted st ++ concat (tail <$> groups)
  /\ removed st' = removed st + length (concat (tail <$> groups))
  /\ unassigned_conflicts st' = unassigned_conflicts st
  /\ (forall r, r ∉ concat groups -> store st' !! r = store st !! r).
Proof.
  intros Hst Hvalid. revert st Hst.
  induction Hvalid as [| g groups Hg _ IH]; intros st Hst.
  - simpl. by rewrite app_nil_r, Nat.add_0_r.
  - cbn [foldl]. destruct (merge_cell_spec g st Hst Hg) as (Hst1 & Hd1 & Hr1 & Hc1 & Hf1).
    destruct (IH _ Hst1) as (Hst2 & Hd2 & Hr2 & Hc2 & Hf2).
    split; [done |]. split; [| split; [| split]].
    + rewrite fmap_cons, concat_cons, Hd2, Hd1. by rewrite <- (assoc_L (++)).
    + rewrite fmap_cons, concat_cons, length_app, Hr2, Hr1. lia.
    + by rewrite Hc2.
    + intros r Hr. rewrite concat_cons, elem_of_app in Hr.
      rewrite Hf2, Hf1; [done | tauto | tauto].
Qed.

Lemma clear_extra_spec extra st :
  forget_teachers (store st) = forget_teachers table ->
  is_Some (table !! extra) ->
  forget_teachers (store (clear_extra st extra)) = forget_teachers table
  /\ deleted (clear_extra st extra) = deleted st
  /\ removed (clear_extra st extra) = removed st
  /\ unassigned_conflicts (clear_extra st extra) = S (unassigned_conflicts st)
  /\ (forall r, r <> extra -> store (clear_extra st extra) !! r = store st !! r).
Proof.
  intros Hst He. destruct (forget_teachers_lookup _ _ _ Hst He) as [e Hextra].
  unfold clear_extra, ref in *. rewrite Hextra. simpl. repeat split; try done.
  - by rewrite forget_teachers_insert.
  - intros r Hr. by rewrite list_lookup_insert_ne.
Qed.

Lemma clear_extras_spec extras st :
  forget_teachers (store st) = forget_teachers table ->
  Forall (fun r => is_Some (table !! r)) extras ->
  let st' := foldl clear_extra st extras in
  forget_teachers (store st') = forget_teachers table
  /\ deleted st' = deleted st
  /\ removed st' = removed st
  /\ unassigned_conflicts st' = unassigned_conflicts st + length extras
  /\ (forall r, r ∉ extras -> store st' !! r = store st !! r).
Proof.
  intros Hst Hextras. revert st Hst.
  induction Hextras as [| extra extras He _ IH]; intros st Hst; simpl.
  - by rewrite Nat.add_0_r.
  - destruct (clear_extra_spec extra st Hst He) as (Hst1 & Hd1 & Hr1 & Hc1 & Hf1).
    destruct (IH _ Hst1) as (Hst2 & Hd2 & Hr2 & Hc2 & Hf2).
    split; [done |]. split; [congruence |]. split; [congruence |]. split; [lia |].
    intros r Hr. rewrite not_elem_of_cons in Hr. destruct Hr as [Hne Hr].
    by rewrite Hf2, Hf1.
Qed.

Lemma clear_conflicts_spec sessions st :
  forget_teachers (store st) = forget_teachers table ->
  Forall (fun r => is_Some (table !! r)) sessions ->
  forget_teachers (store (clear_conflicts st sessions)) = forget_teachers table
  /\ deleted (clear_conflicts st sessions) = deleted st
  /\ removed (clear_conflicts st sessions) = removed st
  /\ unassigned_conflicts (clear_conflicts st sessions)
     = unassigned_conflicts st + length (tail sessions)
  /\ (forall r, r ∉ tail sessions -> store (clear_conflicts st sessions) !! r = store st !! r).
Proof.
  intros Hst Hvalid. unfold clear_conflicts.
  destruct sessions as [| first [| extra extras]]; simpl.
  - by rewrite Nat.add_0_r.
  - by rewrite Nat.add_0_r.
  - apply Forall_cons in Hvalid as [_ Hextras].
    apply (clear_extras_spec (extra :: extras) st Hst Hextras).
Qed.

Lemma foldl_clear_conflicts_spec groups st :
  forget_teachers (store st) = forget_teachers table ->
  Forall (Forall (fun r => is_Some (table !! r))) groups ->
  let st' := foldl clear_conflicts st groups in
  forget_teachers (store st') = forget_teachers table
  /\ deleted st' = deleted st
  /\ removed st' = removed st
  /\ unassigned_conflicts st' = unassigned_conflicts st + length (concat (tail <$> groups))
  /\ (forall r, r ∉ concat (tail <$> groups) -> store st' !! r = store st !! r).
Proof.
  intros Hst Hvalid. revert st Hst.
  induction Hvalid as [| g groups Hg _ IH]; intros st Hst.
  - simpl. by rewrite Nat.add_0_r.
  - cbn [foldl]. destruct (clear_conflicts_spec g st Hst Hg) as (Hst1 & Hd1 & Hr1 & Hc1 & Hf1).
    destruct (IH _ Hst1) as (Hst2 & Hd2 & Hr2 & Hc2 & Hf2).
    split; [done |]. split; [congruence |]. split; [congruence |]. split.
    + rewrite fmap_cons, concat_cons, length_app, Hc2, Hc1. lia.
    + intros r Hr. rewrite fmap_cons, concat_cons, elem_of_app in Hr.
      rewrite Hf2, Hf1; [done | tauto | tauto].
Qed.
End RepairLoops.

(** ** The repair, end to end *)

Lemma elem_of_concat {A} (ls : list (list A)) x :
  x ∈ concat ls <-> exists l, x ∈ l /\ l ∈ ls.
Proof.
  induction ls as [| l0 ls IH].
  - simpl. split; [by intros ?%elem_of_nil | by intros (l & _ & ?%elem_of_nil)].
  - rewrite concat_cons, elem_of_app, IH. split.
    + intros [Hx | (l & Hx & Hl)].
      * exists l0. split; [done | apply list_elem_of_here].
      * exists l. split; [done | by apply list_elem_of_further].
    + intros (l & Hx & [-> | Hl]%elem_of_cons); [by left | right; eauto].
Qed.

Lemma filter_all {A} (P : A -> Prop) `{forall x, Decision (P x)} (l : list A) :
  Forall P l -> filter P l = l.
Proof.
  induction 1 as [| x l Hx _ IH]; [done |].
  by rewrite filter_cons, decide_True, IH.
Qed.

Lemma tail_elem_of {A} (l : list A) x : x ∈ tail l -> x ∈ l.
Proof. destruct l; simpl; [done |]. apply list_elem_of_further. Qed.

Lemma head_of_kept {A} (l : list A) x : x ∈ l -> x ∉ tail l -> head l = Some x.
Proof.
  destruct l as [| y l]; simpl; [by intros ?%elem_of_nil |].
  intros [-> | Hin]%elem_of_cons Hout; [done | by destruct Hout].
Qed.

Lemma concat_tail_nil {A} (groups : list (list A)) :
  concat (tail <$> groups) = [] -> Forall (fun g => length g <= 1) groups.
Proof.
  induction groups as [| g groups IH]; [constructor |].
  rewrite fmap_cons, concat_cons. intros [Hg Hrest]%app_eq_nil.
  constructor; [| by apply IH]. destruct g as [| x [| y g]]; simpl in *; [lia | lia | done].
Qed.

Lemma NoDup_concat_tail {A} (groups : list (list A)) :
  NoDup (concat groups) -> NoDup (concat (tail <$> groups)).
Proof.
  induction groups as [| g groups IH]; [done |].
  rewrite fmap_cons, !concat_cons. intros (Hg & Hdisj & Hrest)%NoDup_app.
  apply NoDup_app. split; [| split; [| by apply IH]].
  - destruct g; simpl; [done |]. by apply NoDup_cons in Hg as [_ ?].
  - intros x Hx Hx'. apply (Hdisj x); [by apply tail_elem_of |].
    apply elem_of_concat in Hx' as (t & Hxt & Ht).
    apply list_elem_of_fmap in Ht as (g' & -> & Hg').
    apply elem_of_concat. exists g'. split; [by apply tail_elem_of | done].
Qed.

Lemma surviving_nothing_deleted st : deleted st = [] -> surviving st = store st.
Proof.
  intros Hd. unfold surviving. rewrite Hd.
  rewrite filter_all; [apply rows_snd |].
  apply Forall_forall. intros p _. apply not_elem_of_nil.
Qed.

Lemma teacher_slot_entry_ref p e : teacher_slot_entry p = Some e -> e.2 = p.1.
Proof.
  unfold teacher_slot_entry. destruct (Session.assigned_teacher_id p.2); [| done].
  destruct (Py.truthy _); [| done]. by intros [= <-].
Qed.

Section RepairEndToEnd.
Variable table : list Session.t.

Lemma loaded_rows_valid r : r ∈ fst <$> loaded_rows table -> is_Some (table !! r).
Proof.
  intros ([r' s] & -> & [Hr _]%elem_of_loaded_rows)%list_elem_of_fmap. simpl. eauto.
Qed.

Lemma cell_groups_concat :
  concat (snd <$> group_by_cell (loaded_rows table)) ≡ₚ fst <$> loaded_rows table.
Proof.
  rewrite group_by_cell_group_into, group_into_concat, <- list_fmap_compose.
  done.
Qed.

Lemma teacher_slot_groups_loaded r :
  r ∈ concat (snd <$> group_by_teacher_slot (loaded_rows table)) ->
  r ∈ fst <$> loaded_rows table.
Proof.
  rewrite group_by_teacher_slot_group_into, group_into_concat.
  intros (e & -> & (p & Hp & He)%list_elem_of_omap)%list_elem_of_fmap.
  rewrite (teacher_slot_entry_ref p e He). apply list_elem_of_fmap. by exists p.
Qed.

Lemma teacher_slot_groups_valid :
  Forall (Forall (fun r => is_Some (table !! r)))
    (snd <$> group_by_teacher_slot (loaded_rows table)).
Proof.
  apply Forall_forall. intros g Hg. apply Forall_forall. intros r Hr.
  apply loaded_rows_valid, teacher_slot_groups_loaded, elem_of_concat. eauto.
Qed.

Lemma cell_groups_valid :
  Forall (Forall (fun r => is_Some (table !! r)))
    (snd <$> group_by_cell (loaded_rows table)).
Proof.
  apply Forall_forall. intros g Hg. apply Forall_forall. intros r Hr.
  apply loaded_rows_valid. rewrite <- cell_groups_concat.
  apply elem_of_concat. eauto.
Qed.

(** The state after the two loops: rows keep everything but their
    teacher; the rows deleted are the members after the first of each cell
    group; rows that were not loaded are untouched. *)
Lemma repaired_state_spec :
  forget_teachers (store (repaired_state table)) = forget_teachers table
  /\ deleted (repaired_state table)
     = concat (tail <$> (snd <$> group_by_cell (loaded_rows table)))
  /\ removed (repaired_state table) = length (deleted (repaired_state table))
  /\ unassigned_conflicts (repaired_state table)
     = length (concat (tail <$> (snd <$> group_by_teacher_slot (loaded_rows table))))
  /\ (forall r, r ∉ fst <$> loaded_rows table ->
                store (repaired_state table) !! r = table !! r).
Proof.
  unfold repaired_state.
  destruct (foldl_merge_cell_spec table _ (RepairState table [] 0 0) eq_refl cell_groups_valid)
    as (Hst1 & Hd1 & Hr1 & Hc1 & Hf1).
  destruct (foldl_clear_conflicts_spec table _ _ Hst1 teacher_slot_groups_valid)
    as (Hst2 & Hd2 & Hr2 & Hc2 & Hf2).
  simpl in *. split; [done |]. split; [congruence |]. split; [congruence |].
  split; [by rewrite Hc2, Hc1 |].
  intros r Hr. rewrite Hf2, Hf1; [done | |].
  - by rewrite cell_groups_concat.
  - intros Hin. apply Hr, teacher_slot_groups_loaded.
    apply elem_of_concat in Hin as (t & Hrt & Ht).
    apply list_elem_of_fmap in Ht as (g & -> & Hg).
    apply elem_of_concat. exists g. split; [by apply tail_elem_of | done].
Qed.

(** What is committed is what survives the deletions, also when the
    commit is skipped because both counters are zero. *)
Lemma table_after_surviving :
  table_after (deduplicate_grid_sessions table) = surviving (repaired_state table)
  /\ removed_duplicate_cells (deduplicate_grid_sessions table)
     = removed (repaired_state table)
  /\ unassigned_teacher_conflicts (deduplicate_grid_sessions table)
     = unassigned_conflicts (repaired_state table).
Proof.
  split; [| done].
  change (table_after (deduplicate_grid_sessions table))
    with (if (0 <? removed (repaired_state table))%nat
             || (0 <? unassigned_conflicts (repaired_state table))%nat
          then surviving (repaired_state table) else table).
  destruct (_ || _) eqn:Hcommit; [done |].
  apply orb_false_iff in Hcommit as [Hr%Nat.ltb_ge Hc%Nat.ltb_ge].
  destruct repaired_state_spec as (_ & Hd & Hrem & Hconf & _).
  assert (Hnone : deleted (repaired_state table) = []).
  { apply length_zero_iff_nil. lia. }
  rewrite surviving_nothing_deleted by done.
  unfold repaired_state.
  rewrite foldl_merge_cell_short.
  - rewrite foldl_clear_conflicts_short; [done |].
    apply concat_tail_nil, length_zero_iff_nil. lia.
  - apply concat_tail_nil. by rewrite <- Hd.
Qed.
End RepairEndToEnd.

Lemma elem_of_surviving_rows st r s :
  (r, s) ∈ filter (fun p => p.1 ∉ deleted st) (rows (store st))
  <-> store st !! r = Some s /\ r ∉ deleted st.
Proof. rewrite list_elem_of_filter, elem_of_rows. simpl. tauto. Qed.

Lemma surviving_rows_NoDup st :
  NoDup (fst <$> filter (fun p => p.1 ∉ deleted st) (rows (store st))).
Proof.
  apply (NoDup_fmap_fst (filter _ _)).
  - intros r s1 s2 [H1 _]%elem_of_surviving_rows [H2 _]%elem_of_surviving_rows. congruence.
  - apply NoDup_filter. eapply NoDup_fmap_1. apply rows_NoDup.
Qed.

(** (I1) for the rows of a list of distinct references. *)
Lemma I1_of_refs (l : list (ref * Session.t)) :
  NoDup (fst <$> l) ->
  (forall r1 s1 r2 s2,
     (r1, s1) ∈ l -> (r2, s2) ∈ l -> r1 <> r2 ->
     in_grid s1 = true -> in_grid s2 = true -> cell_of s1 <> cell_of s2) ->
  I1 (snd <$> l).
Proof.
  unfold ref in *. intros Hnd Hcells i j si sj Hi Hj Hne Hgi Hgj.
  apply list_lookup_fmap_Some in Hi as ([ri si'] & -> & Hi).
  apply list_lookup_fmap_Some in Hj as ([rj sj'] & -> & Hj). simpl in *.
  apply (Hcells ri si' rj sj'); try done.
  - by apply list_elem_of_lookup_2 in Hi.
  - by apply list_elem_of_lookup_2 in Hj.
  - intros ->. apply Hne. apply (NoDup_lookup _ i j rj Hnd).
    + by rewrite list_lookup_fmap, Hi.
    + by rewrite list_lookup_fmap, Hj.
Qed.

(** Every loaded row is a member of the group of its cell. *)
Lemma cell_group_of_loaded table r s :
  (r, s) ∈ loaded_rows table ->
  exists g, g ∈ snd <$> group_by_cell (loaded_rows table)
            /\ forall r' s', (r', s') ∈ loaded_rows table ->
                             cell_of s' = cell_of s -> r' ∈ g.
Proof.
  intros Hin. rewrite group_by_cell_group_into.
  set (pairs := (fun p : ref * Session.t => (cell_of p.2, p.1)) <$> loaded_rows table).
  destruct (group_into_spec pairs) as (_ & Hkeys & Hgroups).
  assert (Hk : cell_of s ∈ fst <$> group_into pairs).
  { apply Hkeys. subst pairs. rewrite <- list_fmap_compose.
    apply list_elem_of_fmap. by exists (r, s). }
  apply list_elem_of_fmap in Hk as ([k g] & Hk & Hkg). simpl in Hk. subst k.
  exists g. split; [apply list_elem_of_fmap; by exists (cell_of s, g) |].
  intros r' s' Hin' Hcell. rewrite Forall_forall in Hgroups.
  pose proof (Hgroups _ Hkg) as Hg. simpl in Hg. rewrite Hg.
  apply list_elem_of_fmap. exists (cell_of s', r'). split; [done |].
  apply list_elem_of_filter. split; [done |].
  subst pairs. apply list_elem_of_fmap. by exists (r', s').
Qed.

(** X2: after the repair no two rows of the grid share a cell, whatever
    the table was. *)
Theorem repair_establishes_I1 (table : list Session.t) :
  I1 (table_after (deduplicate_grid_sessions table)).
Proof.
  destruct (table_after_surviving table) as (-> & _).
  destruct (repaired_state_spec table) as (Hforget & Hdeleted & _).
  apply I1_of_refs; [apply surviving_rows_NoDup |].
  intros r1 s1 r2 s2 [H1 Hk1]%elem_of_surviving_rows [H2 Hk2]%elem_of_surviving_rows
    Hne Hg1 Hg2 Hcell.
  destruct (forget_teachers_row _ _ _ _ Hforget H1) as (t1 & Ht1 & Hf1).
  destruct (forget_teachers_row _ _ _ _ Hforget H2) as (t2 & Ht2 & Hf2).
  apply forget_teacher_fields in Hf1 as (Hgrid1 & Hcell1 & _).
  apply forget_teacher_fields in Hf2 as (Hgrid2 & Hcell2 & _).
  assert (Hl1 : (r1, t1) ∈ loaded_rows table)
    by (apply elem_of_loaded_rows; split; [done | congruence]).
  assert (Hl2 : (r2, t2) ∈ loaded_rows table)
    by (apply elem_of_loaded_rows; split; [done | congruence]).
  destruct (cell_group_of_loaded table r1 t1 Hl1) as (g & Hg & Hmembers).
  assert (Hkept : forall r, r ∈ g -> r ∉ deleted (repaired_state table) -> head g = Some r).
  { intros r Hr Hkeep. apply head_of_kept; [done |]. intros Htail. apply Hkeep.
    rewrite Hdeleted. apply elem_of_concat. exists (tail g). split; [done |].
    apply list_elem_of_fmap. by exists g. }
  apply Hne.
  assert (Some r1 = Some r2); [| congruence].
  rewrite <- (Hkept r1), <- (Hkept r2); try done.
  - apply (Hmembers r2 t2 Hl2). congruence.
  - by apply (Hmembers r1 t1 Hl1).
Qed.

(** ** What the repair keeps *)

Lemma filter_fmap {A B} (f : A -> B) (Q : B -> Prop) `{forall y, Decision (Q y)}
    (l : list A) :
  filter Q (f <$> l) = f <$> filter (fun x => Q (f x)) l.
Proof.
  induction l as [| x l IH]; [done |].
  rewrite fmap_cons, !filter_cons, IH. by destruct (decide (Q (f x))).
Qed.

(** Two tables of the same length filtered position by position. *)
Lemma filter_indexed_ext (F G : ref * Session.t -> Prop)
    `{forall p, Decision (F p)} `{forall p, Decision (G p)}
    (g : nat -> nat) (a b : list Session.t) :
  length a = length b ->
  (forall i x y, a !! i = Some x -> b !! i = Some y ->
                 (F (g i, x) <-> G (g i, y)) /\ (F (g i, x) -> x = y)) ->
  filter F (imap (fun i s => (g i, s)) a) = filter G (imap (fun i s => (g i, s)) b).
Proof.
  revert g b. induction a as [| x a IH]; intros g [| y b] Hlen Hpoint; try done.
  rewrite !imap_cons, !filter_cons.
  destruct (Hpoint 0 x y eq_refl eq_refl) as [Hiff Heq].
  assert (Hrest : filter F (imap ((fun i s => (g i, s)) ∘ S) a)
                  = filter G (imap ((fun i s => (g i, s)) ∘ S) b)).
  { apply (IH (g ∘ S)); [by injection Hlen |].
    intros i x' y' Hx' Hy'. apply (Hpoint (S i)); done. }
  destruct (decide (F (g 0, x))) as [HF | HF], (decide (G (g 0, y))) as [HG | HG].
  - rewrite (Heq HF). by f_equal.
  - tauto.
  - tauto.
  - done.
Qed.

Lemma length_surviving st :
  NoDup (deleted st) -> Forall (fun r => is_Some (store st !! r)) (deleted st) ->
  length (surviving st) + length (deleted st) = length (store st).
Proof.
  intros Hnd Hvalid. unfold surviving. rewrite length_fmap.
  assert (Hrows : length (rows (store st)) = length (store st))
    by (unfold rows; apply length_imap).
  pose proof (Permutation_length
                (filter_app_complement (fun p => p.1 ∉ deleted st) (rows (store st))))
    as Hsplit.
  rewrite length_app in Hsplit.
  enough (length (filter (fun p => ¬ (p.1 ∉ deleted st)) (rows (store st)))
          = length (deleted st)) by lia.
  rewrite <- (length_fmap fst (filter (fun p => ¬ (p.1 ∉ deleted st)) (rows (store st)))).
  apply Permutation_length. symmetry. apply NoDup_Permutation; [done | |].
  - apply (NoDup_fmap_fst (filter _ _)).
    + intros r s1 s2 [_ H1%elem_of_rows]%list_elem_of_filter
        [_ H2%elem_of_rows]%list_elem_of_filter. congruence.
    + apply NoDup_filter. eapply NoDup_fmap_1. apply rows_NoDup.
  - intros r. rewrite list_elem_of_fmap. split.
    + intros Hr. rewrite Forall_forall in Hvalid. destruct (Hvalid r Hr) as [s Hs].
      exists (r, s). split; [done |]. apply list_elem_of_filter. split.
      * simpl. tauto.
      * by apply elem_of_rows.
    + intros ([r' s] & -> & [Hin _]%list_elem_of_filter). simpl in *.
      by destruct (decide (r' ∈ deleted st)).
Qed.

(** X3: the repair only deletes rows and rewrites assigned teachers. With
    the teachers blanked the result is a sublist of the table, so a row
    that is kept keeps its id, skill, day, slot and year group, and the
    order of the rows; the number of rows deleted is the reported count;
    the rows outside the grid are all kept, unchanged. *)
Theorem repair_keeps_rows (table : list Session.t) :
  forget_teachers (table_after (deduplicate_grid_sessions table))
    `sublist_of` forget_teachers table
  /\ length (table_after (deduplicate_grid_sessions table))
     + removed_duplicate_cells (deduplicate_grid_sessions table) = length table
  /\ filter (fun s => in_grid s = false) (table_after (deduplicate_grid_sessions table))
     = filter (fun s => in_grid s = false) table.
Proof.
  destruct (table_after_surviving table) as (-> & -> & _).
  destruct (repaired_state_spec table) as (Hforget & Hdeleted & Hremoved & _ & Hframe).
  assert (Hlen : length (store (repaired_state table)) = length table).
  { rewrite <- (length_fmap (Session.with_teacher None)).
    fold (forget_teachers (store (repaired_state table))).
    rewrite Hforget. apply length_fmap. }
  assert (Hloaded : forall r, r ∈ deleted (repaired_state table) ->
                              r ∈ fst <$> loaded_rows table).
  { intros r Hr. rewrite Hdeleted in Hr.
    apply elem_of_concat in Hr as (t & Hrt & Ht).
    apply list_elem_of_fmap in Ht as (g & -> & Hg).
    rewrite <- cell_groups_concat. apply elem_of_concat.
    exists g. split; [by apply tail_elem_of | done]. }
  split; [| split].
  - rewrite <- Hforget. unfold forget_teachers, surviving.
    apply fmap_sublist.
    rewrite <- (rows_snd (store (repaired_state table))) at 2.
    apply fmap_sublist, sublist_filter.
  - rewrite Hremoved, <- Hlen. apply length_surviving.
    + rewrite Hdeleted. apply NoDup_concat_tail.
      rewrite cell_groups_concat. apply loaded_rows_NoDup.
    + apply Forall_forall. intros r Hr.
      apply (forget_teachers_lookup _ table); [done |].
      by apply loaded_rows_valid, Hloaded.
  - unfold surviving. rewrite filter_fmap, list_filter_filter.
    rewrite <- (rows_snd table) at 2. rewrite filter_fmap. f_equal.
    apply (filter_indexed_ext _ _ id); [done |].
    intros r x y Hx Hy. simpl.
    destruct (forget_teachers_row _ _ _ _ Hforget Hx) as (y' & Hy' & Hxy).
    assert (y' = y) as -> by congruence.
    apply forget_teacher_fields in Hxy as (Hgrid & _).
    assert (Hout : in_grid y = false -> r ∉ fst <$> loaded_rows table).
    { intros Hng ([r' s] & -> & [Hr Hs]%elem_of_loaded_rows)%list_elem_of_fmap.
      unfold ref in *. simpl in *. congruence. }
    split.
    + split.
      * intros [Hng _]. congruence.
      * intros Hng. split; [congruence |]. intros Hdel. by apply (Hout Hng), Hloaded.
    + intros [Hng _]. rewrite Hgrid in Hng.
      pose proof (Hframe r (Hout Hng)) as Hsame. unfold ref in *. congruence.
Qed.

(** ** The row kept for a duplicated cell *)

Lemma merge_extra_lookup_ne keep extra st r :
  r <> keep -> store (merge_extra keep extra st) !! r = store st !! r.
Proof.
  intros Hne. unfold merge_extra.
  destruct (store st !! keep) as [k |]; [| done].
  destruct (store st !! extra) as [e |]; [| done]. simpl.
  destruct (_ && _); [| done]. by apply list_lookup_insert_ne.
Qed.

Lemma merge_extra_keep keep extra st k e :
  store st !! keep = Some k -> store st !! extra = Some e ->
  store (merge_extra keep extra st) !! keep
  = Some (Session.with_teacher
            (merge_teacher (Session.assigned_teacher_id k) (Session.assigned_teacher_id e)) k).
Proof.
  intros Hk He. unfold merge_extra, ref in *. rewrite Hk, He. simpl.
  destruct (Session.assigned_teacher_id k) as [t |] eqn:Ht; simpl.
  - rewrite Hk, <- Ht. by rewrite with_teacher_same.
  - destruct (Session.assigned_teacher_id e) as [t |] eqn:Hte; simpl.
    + rewrite list_lookup_insert_eq; [done |]. by apply lookup_lt_Some in Hk.
    + rewrite Hk, <- Ht. by rewrite with_teacher_same.
Qed.

Lemma merge_extras_keep keep extras st k :
  store st !! keep = Some k -> keep ∉ extras ->
  Forall (fun r => is_Some (store st !! r)) extras ->
  store (foldl (fun st extra => merge_extra keep extra st) st extras) !! keep
  = Some (Session.with_teacher
            (foldl merge_teacher (Session.assigned_teacher_id k)
               (teacher_at (store st) <$> extras)) k).
Proof.
  revert st k. induction extras as [| extra extras IH]; intros st k Hk Hout Hvalid.
  - simpl. by rewrite with_teacher_same.
  - apply not_elem_of_cons in Hout as [Hne Hout].
    apply Forall_cons in Hvalid as [[e He] Hvalid].
    assert (Hsame : forall r, r ∈ extras ->
              store (merge_extra keep extra st) !! r = store st !! r).
    { intros r Hr. apply merge_extra_lookup_ne. intros ->. by apply Hout. }
    cbn [foldl]. rewrite fmap_cons. cbn [foldl].
    rewrite (IH _ _ (merge_extra_keep keep extra st k e Hk He) Hout).
    + assert (Hextra : teacher_at (store st) extra = Session.assigned_teacher_id e).
      { unfold teacher_at. unfold ref in *. by rewrite He. }
      assert (Hothers : teacher_at (store (merge_extra keep extra st)) <$> extras
                        = teacher_at (store st) <$> extras).
      { apply list_fmap_ext. intros i r Hr. unfold teacher_at.
        rewrite Hsame; [done |]. by apply list_elem_of_lookup_2 in Hr. }
      simpl. rewrite Hextra, Hothers. reflexivity.
    + apply Forall_forall. intros r Hr. rewrite Hsame by done.
      rewrite Forall_forall in Hvalid. by apply Hvalid.
Qed.

Lemma merge_cell_keep keep extras st k :
  store st !! keep = Some k -> keep ∉ extras ->
  Forall (fun r => is_Some (store st !! r)) extras ->
  store (merge_cell st (keep :: extras)) !! keep
  = Some (Session.with_teacher
            (foldl merge_teacher (Session.assigned_teacher_id k)
               (teacher_at (store st) <$> extras)) k).
Proof.
  intros Hk Hout Hvalid. unfold merge_cell.
  destruct extras as [| extra extras].
  - simpl. by rewrite with_teacher_same.
  - cbn [length Nat.leb]. by apply merge_extras_keep.
Qed.

Lemma merge_cell_lookup_ne sessions st r :
  head sessions <> Some r -> store (merge_cell st sessions) !! r = store st !! r.
Proof.
  intros Hhead. unfold merge_cell. destruct (length sessions <=? 1)%nat; [done |].
  destruct sessions as [| keep extras]; [done |].
  assert (Hne : r <> keep) by (intros ->; by apply Hhead).
  clear Hhead. revert st.
  induction extras as [| extra extras IH]; intros st; [done |].
  cbn [foldl]. by rewrite IH, merge_extra_lookup_ne.
Qed.

Lemma foldl_merge_cell_lookup_ne groups st r :
  Forall (fun g => head g <> Some r) groups ->
  store (foldl merge_cell st groups) !! r = store st !! r.
Proof.
  intros Hheads. revert st.
  induction Hheads as [| g groups Hg _ IH]; intros st; [done |].
  cbn [foldl]. by rewrite IH, merge_cell_lookup_ne.
Qed.

Lemma foldl_merge_teacher_Some t teachers :
  foldl merge_teacher (Some t) teachers = Some t.
Proof. induction teachers as [| v teachers IH]; [done |]. exact IH. Qed.

(** Merging into a row without a teacher gives it the first teacher found
    among the duplicates. *)
Lemma foldl_merge_teacher_None {A} (f : A -> option Z) (l : list A) :
  foldl merge_teacher None (f <$> l) = head (omap f l).
Proof.
  induction l as [| x l IH]; [done |].
  rewrite fmap_cons. cbn [foldl omap list_omap merge_teacher].
  destruct (f x) as [t |]; [apply foldl_merge_teacher_Some | exact IH].
Qed.

Lemma not_head_of_disjoint {A} (groups : list (list A)) x :
  x ∉ concat groups -> Forall (fun g => head g <> Some x) groups.
Proof.
  intros Hout. apply Forall_forall. intros g Hg Hhead. apply Hout.
  apply elem_of_concat. exists g. split; [| done].
  destruct g as [| y g]; [done |]. injection Hhead as ->. apply list_elem_of_here.
Qed.

Lemma teacher_slot_entry_truthy p e :
  teacher_slot_entry p = Some e -> Py.truthy (Session.assigned_teacher_id p.2) = true.
Proof.
  unfold teacher_slot_entry. destruct (Session.assigned_teacher_id p.2); [| done].
  by destruct (Py.truthy _).
Qed.

(** The loaded rows are sorted by ascending id. *)
Lemma loaded_rows_sorted table :
  StronglySorted (fun p q => (Session.id p.2 <= Session.id q.2)%Z) (loaded_rows table).
Proof.
  unfold loaded_rows, order_by_id, sort_by.
  set (keyed := (fun x : ref * Session.t => (Session.id x.2, x)) <$> _).
  assert (Hkeys : Forall (fun a : Z * (ref * Session.t) => a.1 = Session.id a.2.2)
                    (sort_decorated Z.leb keyed)).
  { rewrite sort_decorated_perm. subst keyed. by apply Forall_fmap, Forall_forall. }
  pose proof (sort_decorated_sorted Z.leb Z_leb_total Z_leb_trans keyed) as Hsorted.
  induction Hsorted as [| a l _ IH Hall]; [constructor |].
  apply Forall_cons in Hkeys as [Ha Hkeys]. rewrite fmap_cons. constructor.
  - by apply IH.
  - apply Forall_fmap. rewrite Forall_forall in Hall, Hkeys |- *.
    intros b Hb. simpl. rewrite <- Ha, <- (Hkeys b Hb). by apply Z.leb_le, Hall.
Qed.

Lemma StronglySorted_filter {A} (R : relation A) (P : A -> Prop)
    `{forall x, Decision (P x)} (l : list A) :
  StronglySorted R l -> StronglySorted R (filter P l).
Proof.
  induction 1 as [| x l _ IH Hall]; [constructor |].
  rewrite filter_cons. destruct (decide (P x)); [| done].
  constructor; [done |]. rewrite Forall_forall in Hall |- *.
  intros y [_ Hy]%list_elem_of_filter. by apply Hall.
Qed.

(** A group of [by_cell] holds the loaded rows of its cell, in order. *)
Lemma cell_group_members table k g :
  (k, g) ∈ group_by_cell (loaded_rows table) ->
  g = fst <$> filter (fun p => cell_of p.2 = k) (loaded_rows table).
Proof.
  rewrite group_by_cell_group_into. intros Hin.
  destruct (group_into_spec ((fun p : ref * Session.t => (cell_of p.2, p.1))
                               <$> loaded_rows table)) as (_ & _ & Hgroups).
  rewrite Forall_forall in Hgroups. pose proof (Hgroups _ Hin) as Hg. simpl in Hg.
  rewrite Hg, filter_fmap, <- list_fmap_compose. done.
Qed.

(** The row kept for a cell group [keep :: extras] of [by_cell]: the
    members are all the grid rows of the cell, the first one has the
    lowest id, and a row with the columns of the first one is in the
    repaired table, with the teacher of the first of the other members
    that has one if the first one had none. *)
Lemma cell_group_kept_row
    (table : list Session.t) (k : cell_key) (keep : ref) (extras : list ref)
    (krow : Session.t) :
  (k, keep :: extras) ∈ group_by_cell (loaded_rows table) ->
  table !! keep = Some krow ->
  (forall r s, table !! r = Some s -> in_grid s = true -> cell_of s = k ->
               r ∈ keep :: extras)
  /\ cell_of krow = k
  /\ (forall r s, r ∈ extras -> table !! r = Some s ->
                  (Session.id krow <= Session.id s)%Z)
  /\ exists row,
       row ∈ table_after (deduplicate_grid_sessions table)
       /\ Session.with_teacher None row = Session.with_teacher None krow
       /\ (Session.assigned_teacher_id krow = None ->
           Session.assigned_teacher_id row = head (omap (teacher_at table) extras)).
Proof.
  intros Hgroup Hkeep.
  pose proof (cell_group_members table k _ Hgroup) as Hmembers.
  assert (Hg : keep :: extras ∈ snd <$> group_by_cell (loaded_rows table)).
  { apply list_elem_of_fmap. by exists (k, keep :: extras). }
  (* the members of the group *)
  assert (Hin : forall r, r ∈ keep :: extras ->
            exists s, table !! r = Some s /\ in_grid s = true /\ cell_of s = k).
  { intros r Hr. rewrite Hmembers in Hr.
    apply list_elem_of_fmap in Hr as ([r' s] & -> & [Hcell Hl]%list_elem_of_filter).
    apply elem_of_loaded_rows in Hl as [Hs Hgrid]. exists s. by simpl in *. }
  destruct (Hin keep) as (krow' & Hkeep' & Hkgrid & Hkcell); [apply list_elem_of_here |].
  assert (krow' = krow) as -> by (unfold ref in *; congruence).
  (* the references of the groups are pairwise different *)
  pose proof (loaded_rows_NoDup table) as Hnd.
  rewrite <- cell_groups_concat in Hnd.
  destruct (list_elem_of_split _ _ Hg) as (G1 & G2 & Hsplit).
  rewrite Hsplit, concat_app, concat_cons in Hnd.
  apply NoDup_app in Hnd as (_ & Hdisj1 & Hnd).
  apply NoDup_app in Hnd as (Hnd_g & Hdisj2 & _).
  apply NoDup_cons in Hnd_g as [Hkeep_out _].
  assert (Hout1 : forall r, r ∈ keep :: extras -> r ∉ concat G1).
  { intros r Hr Hr1. apply (Hdisj1 r Hr1). apply elem_of_app. by left. }
  (* the state when the group is reached, and after it *)
  set (st_a := foldl merge_cell (RepairState table [] 0 0) G1).
  assert (Hsame : forall r, r ∈ keep :: extras -> store st_a !! r = table !! r).
  { intros r Hr. subst st_a.
    rewrite foldl_merge_cell_lookup_ne; [done |]. by apply not_head_of_disjoint, Hout1. }
  assert (Hst1 : store (foldl merge_cell (RepairState table [] 0 0)
                          (snd <$> group_by_cell (loaded_rows table))) !! keep
                 = Some (Session.with_teacher
                           (foldl merge_teacher (Session.assigned_teacher_id krow)
                              (teacher_at table <$> extras)) krow)).
  { rewrite Hsplit, foldl_app. cbn [foldl]. fold st_a.
    rewrite foldl_merge_cell_lookup_ne by (by apply not_head_of_disjoint, Hdisj2, list_elem_of_here).
    rewrite (merge_cell_keep keep extras st_a krow).
    - f_equal. f_equal. f_equal. apply list_fmap_ext. intros i r Hr.
      unfold teacher_at. rewrite Hsame; [done |].
      apply list_elem_of_further. by apply list_elem_of_lookup_2 in Hr.
    - rewrite Hsame; [done | apply list_elem_of_here].
    - done.
    - apply Forall_forall. intros r Hr.
      rewrite Hsame by (by apply list_elem_of_further).
      destruct (Hin r) as (s & -> & _); [by apply list_elem_of_further | eauto]. }
  split; [| split; [done | split]].
  - intros r s Hs Hgrid Hcell. rewrite Hmembers.
    apply list_elem_of_fmap. exists (r, s). split; [done |].
    apply list_elem_of_filter. split; [done |]. by apply elem_of_loaded_rows.
  - intros r s Hr Hs.
    pose proof (StronglySorted_filter _ (fun p => cell_of p.2 = k) _ (loaded_rows_sorted table))
      as Hsorted.
    destruct (filter (fun p => cell_of p.2 = k) (loaded_rows table))
      as [| [r0 s0] rest] eqn:Hfilter; [done |].
    rewrite fmap_cons in Hmembers. injection Hmembers as -> ->.
    apply StronglySorted_inv in Hsorted as [_ Hall]. rewrite Forall_forall in Hall.
    apply list_elem_of_fmap in Hr as ([r' s'] & -> & Hrest). simpl in *.
    assert (Hl0 : (r0, s0) ∈ loaded_rows table).
    { eapply list_elem_of_filter. rewrite Hfilter. apply list_elem_of_here. }
    assert (Hl' : (r', s') ∈ loaded_rows table).
    { eapply list_elem_of_filter. rewrite Hfilter. by apply list_elem_of_further. }
    apply elem_of_loaded_rows in Hl0 as [Hs0 _], Hl' as [Hs' _].
    specialize (Hall _ Hrest). simpl in Hall. unfold ref in *.
    assert (s0 = krow) as -> by congruence. assert (s' = s) as -> by congruence. done.
  - destruct (table_after_surviving table) as (-> & _).
    destruct (repaired_state_spec table) as (_ & Hdeleted & _).
    set (st1 := foldl merge_cell (RepairState table [] 0 0)
                  (snd <$> group_by_cell (loaded_rows table))) in *.
    destruct (foldl_merge_cell_spec table _ (RepairState table [] 0 0) eq_refl
                (cell_groups_valid table)) as (Hforget1 & _).
    destruct (foldl_clear_conflicts_spec table _ _ Hforget1 (teacher_slot_groups_valid table))
      as (_ & _ & _ & _ & Hframe2).
    fold st1 in Hframe2. cbn zeta in Hframe2.
    fold (repaired_state table) in Hframe2.
    assert (Hkept : keep ∉ deleted (repaired_state table)).
    { rewrite Hdeleted, Hsplit. rewrite !fmap_app, fmap_cons, concat_app, concat_cons.
      rewrite !elem_of_app. intros [Hd | [Hd | Hd]].
      - apply (Hout1 keep); [apply list_elem_of_here |].
        apply elem_of_concat in Hd as (t & Ht & (g' & -> & Hg')%list_elem_of_fmap).
        apply elem_of_concat. exists g'. split; [by apply tail_elem_of | done].
      - by apply Hkeep_out.
      - apply (Hdisj2 keep); [apply list_elem_of_here |].
        apply elem_of_concat in Hd as (t & Ht & (g' & -> & Hg')%list_elem_of_fmap).
        apply elem_of_concat. exists g'. split; [by apply tail_elem_of | done]. }
    destruct (Session.assigned_teacher_id krow) as [t |] eqn:Hteacher.
    + (* the first row had a teacher: it may be cleared by the second loop *)
      destruct (forget_teachers_lookup (store (repaired_state table)) table keep)
        as [row Hrow]; [by destruct (repaired_state_spec table) | eauto |].
      exists row. split; [| split; [| done]].
      * apply list_elem_of_fmap. exists (keep, row). split; [done |].
        by apply elem_of_surviving_rows.
      * destruct (repaired_state_spec table) as (Hforget & _).
        destruct (forget_teachers_row _ _ _ _ Hforget Hrow) as (s0 & Hs0 & Heq).
        unfold ref in *. congruence.
    + (* the first row had none: the second loop does not reach it *)
      assert (Hrow : store (repaired_state table) !! keep
                     = Some (Session.with_teacher
                               (head (omap (teacher_at table) extras)) krow)).
      { rewrite Hframe2, Hst1; [by rewrite foldl_merge_teacher_None |].
        intros Hd. apply elem_of_concat in Hd as (t & Ht & (g' & -> & Hg')%list_elem_of_fmap).
        assert (Hcat : keep ∈ concat (snd <$> group_by_teacher_slot (loaded_rows table))).
        { apply elem_of_concat. exists g'. split; [by apply tail_elem_of | done]. }
        rewrite group_by_teacher_slot_group_into, group_into_concat in Hcat.
        apply list_elem_of_fmap in Hcat as (e & Hk & ([r s] & Hl & He)%list_elem_of_omap).
        pose proof (teacher_slot_entry_ref _ _ He) as Href.
        pose proof (teacher_slot_entry_truthy _ _ He) as Htruthy.
        simpl in *. apply elem_of_loaded_rows in Hl as [Hs _].
        unfold ref in *. assert (s = krow) as -> by congruence.
        by rewrite Hteacher in Htruthy. }
      exists (Session.with_teacher (head (omap (teacher_at table) extras)) krow).
      split; [| split; [done | done]].
      apply list_elem_of_fmap. exists (keep, Session.with_teacher
                                               (head (omap (teacher_at table) extras)) krow).
      split; [done |]. by apply elem_of_surviving_rows.
Qed.

(** X4: for a cell group [keep :: extras] of [by_cell], the members are
    all the grid rows of the cell, the first one has the lowest id, and a
    row with the columns of the first one is in the repaired table; if the
    first one had no teacher it carries the teacher of the first of the
    other members that has one. *)
Theorem repair_keeps_first_row_of_cell
    (table : list Session.t) (k : cell_key) (keep : ref) (extras : list ref)
    (krow : Session.t) :
  (k, keep :: extras) ∈ group_by_cell (loaded_rows table) ->
  table !! keep = Some krow ->
  (forall r s, table !! r = Some s -> in_grid s = true -> cell_of s = k ->
               r ∈ keep :: extras)
  /\ cell_of krow = k
  /\ (forall r s, r ∈ extras -> table !! r = Some s ->
                  (Session.id krow <= Session.id s)%Z)
  /\ exists row,
       row ∈ table_after (deduplicate_grid_sessions table)
       /\ Session.with_teacher None row = Session.with_teacher None krow
       /\ (Session.assigned_teacher_id krow = None ->
           Session.assigned_teacher_id row = head (omap (teacher_at table) extras)).
Proof. apply cell_group_kept_row. Qed.

Lemma repair_keeps_first_row_of_cell_witness :
  exists row,
    row ∈ table_after
            (deduplicate_grid_sessions
               [ monday_8 3 1 "Grade 1" None; monday_8 1 1 "Grade 1" None;
                 monday_8 2 1 "Grade 1" (Some 7%Z) ])
    /\ Session.with_teacher None row
       = Session.with_teacher None (monday_8 1 1 "Grade 1" None)
    /\ (Session.assigned_teacher_id (monday_8 1 1 "Grade 1" None) = None ->
        Session.assigned_teacher_id row
        = head (omap (teacher_at [ monday_8 3 1 "Grade 1" None; monday_8 1 1 "Grade 1" None;
                                   monday_8 2 1 "Grade 1" (Some 7%Z) ]) [2; 0])).
Proof.
  refine (proj2 (proj2 (proj2
            (repair_keeps_first_row_of_cell
               [ monday_8 3 1 "Grade 1" None; monday_8 1 1 "Grade 1" None;
                 monday_8 2 1 "Grade 1" (Some 7%Z) ]
               (Some "Monday", "08:00-09:00", Some "Grade 1") 1 [2; 0]
               (monday_8 1 1 "Grade 1" None) _ _)))).
  - vm_compute. apply list_elem_of_here.
  - reflexivity.
Defined.

(** The scenario of three rows in one cell, one of them with a teacher:
    one row is left, the one of lowest id, with that teacher, and two rows
    are removed. *)
Example repair_three_rows_one_cell :
  deduplicate_grid_sessions
    [ monday_8 3 1 "Grade 1" None; monday_8 1 1 "Grade 1" None;
      monday_8 2 1 "Grade 1" (Some 7%Z) ]
  = RepairResult [monday_8 1 1 "Grade 1" (Some 7%Z)] 2 0.
Proof. vm_compute. reflexivity. Qed.

(** ** Double bookings after the repair *)

Lemma clear_extra_lookup st extra r :
  store (clear_extra st extra) !! r
  = if decide (r = extra) then Session.with_teacher None <$> store st !! r
    else store st !! r.
Proof.
  unfold clear_extra, ref in *. destruct (decide (r = extra)) as [-> | Hne].
  - destruct (store st !! extra) as [e |] eqn:He; simpl.
    + rewrite list_lookup_insert_eq; [done |]. by apply lookup_lt_Some in He.
    + by rewrite He.
  - destruct (store st !! extra) as [e |]; [| done]. simpl.
    by apply list_lookup_insert_ne.
Qed.

(** The second loop blanks the teacher of the rows it visits and leaves
    the other rows as they are. *)
Lemma foldl_clear_extra_lookup extras st r :
  store (foldl clear_extra st extras) !! r
  = if decide (r ∈ extras) then Session.with_teacher None <$> store st !! r
    else store st !! r.
Proof.
  revert st. induction extras as [| extra extras IH]; intros st.
  - destruct (decide _) as [Hin | _]; [by apply elem_of_nil in Hin | done].
  - cbn [foldl]. rewrite IH, clear_extra_lookup. unfold ref in *.
    repeat case_decide; subst; try done;
      try (by destruct (store st !! extra)); exfalso;
      repeat match goal with
             | H : _ ∉ _ :: _ |- _ => apply not_elem_of_cons in H as [? ?]
             | H : _ ∈ _ :: _ |- _ => apply elem_of_cons in H as [? | ?]
             end; done.
Qed.

Lemma clear_conflicts_lookup sessions st r :
  store (clear_conflicts st sessions) !! r
  = if decide (r ∈ tail sessions) then Session.with_teacher None <$> store st !! r
    else store st !! r.
Proof.
  unfold clear_conflicts. destruct sessions as [| first [| extra extras]].
  - destruct (decide _) as [Hin | _]; [by apply elem_of_nil in Hin | done].
  - destruct (decide _) as [Hin | _]; [by apply elem_of_nil in Hin | done].
  - cbn [length Nat.leb List.tl tail]. apply foldl_clear_extra_lookup.
Qed.

Lemma foldl_clear_conflicts_lookup groups st r :
  store (foldl clear_conflicts st groups) !! r
  = if decide (r ∈ concat (tail <$> groups))
    then Session.with_teacher None <$> store st !! r
    else store st !! r.
Proof.
  revert st. induction groups as [| g groups IH]; intros st.
  - destruct (decide _) as [Hin | _]; [by apply elem_of_nil in Hin | done].
  - cbn [foldl]. rewrite IH, clear_conflicts_lookup, fmap_cons, concat_cons.
    unfold ref in *.
    repeat case_decide; try done; try (by destruct (store st !! r)); exfalso;
      repeat match goal with
             | H : _ ∉ _ ++ _ |- _ => apply not_elem_of_app in H as [? ?]
             | H : _ ∈ _ ++ _ |- _ => apply elem_of_app in H as [? | ?]
             end; done.
Qed.

(** Every loaded row with a teacher id other than 0 is a member of the
    group of its hour and teacher. *)
Lemma teacher_slot_group_of_loaded table r s tid :
  (r, s) ∈ loaded_rows table ->
  Session.assigned_teacher_id s = Some tid -> tid <> 0%Z ->
  exists g, g ∈ snd <$> group_by_teacher_slot (loaded_rows table)
            /\ forall r' s', (r', s') ∈ loaded_rows table ->
                             Session.assigned_teacher_id s' = Some tid ->
                             hour_of s' = hour_of s -> r' ∈ g.
Proof.
  intros Hin Htid Hnz. rewrite group_by_teacher_slot_group_into.
  set (entries := omap teacher_slot_entry (loaded_rows table)).
  assert (Hentry : forall r' s', (r', s') ∈ loaded_rows table ->
            Session.assigned_teacher_id s' = Some tid ->
            (hour_of s', tid, r') ∈ entries).
  { intros r' s' Hin' Htid'. apply list_elem_of_omap. exists (r', s'). split; [done |].
    unfold teacher_slot_entry, Py.truthy. simpl. rewrite Htid'.
    by destruct (Z.eqb_spec tid 0). }
  destruct (group_into_spec entries) as (_ & Hkeys & Hgroups).
  assert (Hk : (hour_of s, tid) ∈ fst <$> group_into entries).
  { apply Hkeys, list_elem_of_fmap. exists (hour_of s, tid, r). split; [done |].
    by apply Hentry. }
  apply list_elem_of_fmap in Hk as ([key g] & Hk & Hkg). simpl in Hk. subst key.
  exists g. split; [apply list_elem_of_fmap; by exists (hour_of s, tid, g) |].
  intros r' s' Hin' Htid' Hhour. rewrite Forall_forall in Hgroups.
  pose proof (Hgroups _ Hkg) as Hg. simpl in Hg. rewrite Hg.
  apply list_elem_of_fmap. exists (hour_of s', tid, r'). split; [done |].
  apply list_elem_of_filter. split; [simpl; by rewrite Hhour | by apply Hentry].
Qed.

(** X5: on a table without duplicated cells whose teacher ids are not 0,
    the repair deletes nothing and leaves no teacher assigned twice in an
    hour: the result satisfies (I2) as well as (I1). *)
Theorem repair_establishes_I2_without_duplicate_cells (table : list Session.t) :
  I1 table ->
  (forall r s, table !! r = Some s -> Session.assigned_teacher_id s <> Some 0%Z) ->
  I2 (table_after (deduplicate_grid_sessions table))
  /\ removed_duplicate_cells (deduplicate_grid_sessions table) = 0
  /\ length (table_after (deduplicate_grid_sessions table)) = length table.
Proof.
  intros Hclean Hnz.
  destruct (table_after_surviving table) as (-> & -> & _).
  assert (Hst1 : foldl merge_cell (RepairState table [] 0 0)
                   (snd <$> group_by_cell (loaded_rows table))
                 = RepairState table [] 0 0).
  { rewrite group_by_cell_group_into.
    by apply foldl_merge_cell_short, group_into_singletons, I1_cells_NoDup. }
  destruct (repaired_state_spec table) as (Hforget & _ & Hremoved & _).
  assert (Hdeleted : deleted (repaired_state table) = []).
  { destruct (foldl_clear_conflicts_spec table
                (snd <$> group_by_teacher_slot (loaded_rows table))
                (RepairState table [] 0 0) eq_refl (teacher_slot_groups_valid table))
      as (_ & Hd & _).
    unfold repaired_state. by rewrite Hst1. }
  rewrite surviving_nothing_deleted by done.
  split; [| split].
  - intros i j si sj tid Hi Hj Hne Hgi Hgj Hti Htj Hhour.
    unfold repaired_state in Hi, Hj. rewrite Hst1 in Hi, Hj.
    rewrite foldl_clear_conflicts_lookup in Hi, Hj. simpl in Hi, Hj.
    destruct (decide (i ∈ _)) as [Hci | Hci].
    { destruct (table !! i); simpl in Hi; [| done]. injection Hi as <-. done. }
    destruct (decide (j ∈ _)) as [Hcj | Hcj].
    { destruct (table !! j); simpl in Hj; [| done]. injection Hj as <-. done. }
    assert (Htid : tid <> 0%Z) by (intros ->; by apply (Hnz i si)).
    assert (Hli : (i, si) ∈ loaded_rows table) by (by apply elem_of_loaded_rows).
    assert (Hlj : (j, sj) ∈ loaded_rows table) by (by apply elem_of_loaded_rows).
    destruct (teacher_slot_group_of_loaded table i si tid Hli Hti Htid) as (g & Hg & Hmembers).
    assert (Hkept : forall r, r ∈ g ->
              r ∉ concat (tail <$> (snd <$> group_by_teacher_slot (loaded_rows table))) ->
              head g = Some r).
    { intros r Hr Hkeep. apply head_of_kept; [done |]. intros Htail. apply Hkeep.
      apply elem_of_concat. exists (tail g). split; [done |].
      apply list_elem_of_fmap. by exists g. }
    apply Hne. assert (Hii : head g = Some i).
    { apply Hkept; [by apply (Hmembers i si) | done]. }
    assert (Hjj : head g = Some j).
    { apply Hkept; [by apply (Hmembers j sj) | done]. }
    unfold ref in *. congruence.
  - by rewrite Hremoved, Hdeleted.
  - rewrite <- (length_fmap (Session.with_teacher None)).
    fold (forget_teachers (store (repaired_state table))).
    rewrite Hforget. apply length_fmap.
Qed.

Lemma repair_establishes_I2_without_duplicate_cells_witness :
  I2 (table_after
        (deduplicate_grid_sessions
           [monday_8 1 1 "Grade 1" (Some 7%Z); monday_8 2 1 "Grade 2" (Some 7%Z)]))
  /\ removed_duplicate_cells
       (deduplicate_grid_sessions
          [monday_8 1 1 "Grade 1" (Some 7%Z); monday_8 2 1 "Grade 2" (Some 7%Z)]) = 0
  /\ length (table_after
               (deduplicate_grid_sessions
                  [monday_8 1 1 "Grade 1" (Some 7%Z); monday_8 2 1 "Grade 2" (Some 7%Z)]))
     = length [monday_8 1 1 "Grade 1" (Some 7%Z); monday_8 2 1 "Grade 2" (Some 7%Z)].
Proof.
  apply repair_establishes_I2_without_duplicate_cells.
  - intros i j si sj Hi Hj Hne _ _.
    destruct i as [| [| i]], j as [| [| j]]; simpl in Hi, Hj; try done;
      injection Hi as <-; injection Hj as <-; discriminate.
  - intros r s Hr.
    destruct r as [| [| r]]; simpl in Hr; try done; injection Hr as <-; discriminate.
Defined.

(** With a duplicated cell the transplant can defeat the second loop: in
    [transplant_table] the kept row of Grade 1 receives teacher 7 after
    the hour groups were built, and teacher 7 stays booked twice. *)
Example repair_transplant_double_books :
  deduplicate_grid_sessions transplant_table
  = RepairResult
      [monday_8 1 1 "Grade 2" (Some 7%Z); monday_8 2 1 "Grade 1" (Some 7%Z)] 1 1.
Proof. vm_compute. reflexivity. Qed.

(** ** The allocator: what a run writes *)

Lemma forget_teacher_columns s s0 :
  Session.with_teacher None s = Session.with_teacher None s0 ->
  Session.required_skill_id s = Session.required_skill_id s0
  /\ Session.day s = Session.day s0 /\ Session.slot s = Session.slot s0.
Proof. destruct s, s0. cbv [Session.with_teacher]. simpl. by intros [= -> -> -> -> ->]. Qed.

Section AllocateRun.
Variable teacher_rows : list Teacher.t.
Implicit Types (st : alloc_state) (session : Session.t) (teacher : Teacher.t).

(** An iteration leaves every column but the teacher as it is. *)
Lemma allocate_one_row st session st' session' :
  allocate_one teacher_rows st session = Some (st', session') ->
  Session.with_teacher None session' = Session.with_teacher None session.
Proof.
  by intros (matches & _ & [(_ & _ & ->) | (selected & count & _ & _ & _ & ->)])%allocate_one_inv.
Qed.

Lemma allocate_loop_rows st session_rows st' out :
  allocate_loop teacher_rows st session_rows = Some (st', out) ->
  Session.with_teacher None <$> out = Session.with_teacher None <$> session_rows.
Proof.
  revert st st' out. induction session_rows as [| session rest IH]; intros st st' out.
  - by intros [= <- <-].
  - intros (st1 & session' & rest' & Hone & Hrest & ->)%allocate_loop_inv.
    rewrite !fmap_cons. f_equal; [by eapply allocate_one_row | by eapply IH].
Qed.

(** The two outcomes of an iteration on a cleared row, told apart by the
    teacher of the row written. *)
Lemma allocate_one_outcome st session st' session' :
  allocate_one teacher_rows st session = Some (st', session') ->
  Session.assigned_teacher_id session = None ->
  match Session.assigned_teacher_id session' with
  | Some tid =>
      (exists teacher, teacher ∈ teacher_rows /\ Teacher.id teacher = tid
                       /\ is_match teacher_rows st session teacher = Some true)
      /\ assigned st' = S (assigned st) /\ unassigned st' = unassigned st
  | None =>
      find_matches teacher_rows st session = Some []
      /\ assigned st' = assigned st /\ unassigned st' = S (unassigned st)
  end.
Proof.
  intros (matches & Hm & [(-> & -> & ->) | (selected & count & Hsel & _ & -> & ->)])%allocate_one_inv
    Hnone.
  - by rewrite Hnone.
  - simpl. split; [| done]. exists selected.
    apply select_teacher_elem_of in Hsel.
    apply (find_matches_elem_of _ _ _ _ _ Hm) in Hsel as [Hin Hmatch]. auto.
Qed.

(** The counters of the loop count the rows written with and without a
    teacher. *)
Lemma allocate_loop_tally st session_rows st' out :
  allocate_loop teacher_rows st session_rows = Some (st', out) ->
  Forall (fun s => Session.assigned_teacher_id s = None) session_rows ->
  assigned st'
  = assigned st + length (filter (fun s => Session.assigned_teacher_id s <> None) out)
  /\ unassigned st'
     = unassigned st + length (filter (fun s => Session.assigned_teacher_id s = None) out).
Proof.
  intros Hloop Hnone. revert st st' out Hloop.
  induction Hnone as [| session rest Hs _ IH]; intros st st' out.
  - intros [= <- <-]. simpl. lia.
  - intros (st1 & session' & rest' & Hone & Hrest & ->)%allocate_loop_inv.
    apply allocate_one_outcome in Hone; [| done].
    apply IH in Hrest as [Ha Hu]. rewrite !filter_cons.
    destruct (Session.assigned_teacher_id session') as [tid |] eqn:Htid.
    + destruct Hone as (_ & Ha1 & Hu1).
      destruct (decide (Some tid <> None)) as [_ | []]; [| done].
      destruct (decide (Some tid = None)) as [? | _]; [done |].
      simpl. lia.
    + destruct Hone as (_ & Ha1 & Hu1).
      destruct (decide (None <> None)) as [? | _]; [done |].
      destruct (decide (None = None)) as [_ | []]; [| done].
      simpl. lia.
Qed.

(** Every teacher written by the loop passed the tests of the inner loop
    for the row. *)
Lemma allocate_loop_sound st session_rows st' out :
  allocate_loop teacher_rows st session_rows = Some (st', out) ->
  Forall (fun s => Session.assigned_teacher_id s = None) session_rows ->
  Forall (fun s => forall tid,
            Session.assigned_teacher_id s = Some tid ->
            exists teacher day,
              teacher ∈ teacher_rows /\ Teacher.id teacher = tid
              /\ Session.required_skill_id s
                   ∈ default [] (teacher_skill_ids teacher_rows !! tid)
              /\ Session.day s = Some day
              /\ teacher_is_available_for_slot
                   (default [] (teacher_tokens teacher_rows !! tid))
                   day (Session.slot s) = Some true) out.
Proof.
  intros Hloop Hnone. revert st st' out Hloop.
  induction Hnone as [| session rest Hs _ IH]; intros st st' out.
  - intros [= <- <-]. constructor.
  - intros (st1 & session' & rest' & Hone & Hrest & ->)%allocate_loop_inv.
    constructor; [| by eapply IH].
    intros tid Htid.
    pose proof (allocate_one_row _ _ _ _ Hone) as Hrow.
    apply allocate_one_outcome in Hone; [| done]. rewrite Htid in Hone.
    destruct Hone as ((teacher & Hin & <- & Hmatch) & _).
    apply is_match_true in Hmatch as (Hskill & (day & Hday & Hav) & _).
    exists teacher, day.
    destruct (forget_teacher_columns _ _ Hrow) as (-> & -> & ->). auto.
Qed.

(** A teacher committed in an hour after an iteration was committed
    before, or is the teacher the iteration wrote. *)
Lemma allocate_one_busy st session st' session' hour tid :
  allocate_one teacher_rows st session = Some (st', session') ->
  tid ∈ busy_at (busy_at_slot st') hour ->
  tid ∈ busy_at (busy_at_slot st) hour
  \/ (hour = hour_of session /\ Session.assigned_teacher_id session' = Some tid).
Proof.
  intros (matches & _ & [(_ & -> & ->) | (selected & count & _ & _ & -> & ->)])%allocate_one_inv;
    simpl; [by left |].
  unfold busy_at at 1. destruct (decide (hour_of session = hour)) as [<- | Hne].
  - rewrite lookup_insert_eq. simpl.
    intros [->%elem_of_singleton | Hold]%elem_of_union; [by right | by left].
  - rewrite lookup_insert_ne by done. by left.
Qed.

(** A row the loop leaves without a teacher had no match: every teacher
    passing the first two tests was committed in that hour, before the loop
    or by a row written in it. *)
Lemma allocate_loop_exhausts st session_rows st' out :
  allocate_loop teacher_rows st session_rows = Some (st', out) ->
  Forall (fun s => Session.assigned_teacher_id s = None) session_rows ->
  Forall (fun s => in_grid s = true) session_rows ->
  Forall (fun s =>
            Session.assigned_teacher_id s = None ->
            forall teacher day,
              teacher ∈ teacher_rows ->
              Session.required_skill_id s
                ∈ default [] (teacher_skill_ids teacher_rows !! Teacher.id teacher) ->
              Session.day s = Some day ->
              teacher_is_available_for_slot
                (default [] (teacher_tokens teacher_rows !! Teacher.id teacher))
                day (Session.slot s) = Some true ->
              Teacher.id teacher ∈ busy_at (busy_at_slot st) (hour_of s)
              \/ exists s', s' ∈ out /\ hour_of s' = hour_of s
                            /\ Session.assigned_teacher_id s' = Some (Teacher.id teacher))
    out.
Proof.
  intros Hloop Hnone. revert st st' out Hloop.
  induction Hnone as [| session rest Hs _ IH]; intros st st' out.
  - intros [= <- <-] _. constructor.
  - intros (st1 & session' & rest' & Hone & Hrest & ->)%allocate_loop_inv
      [Hgrid Hgrids]%Forall_cons.
    pose proof (allocate_one_row _ _ _ _ Hone) as Hrow.
    pose proof (allocate_one_in_grid _ _ _ _ _ Hone) as (_ & Hhour & _).
    constructor.
    + intros Hfree teacher day Hin Hskill Hday Hav. left.
      pose proof (allocate_one_outcome _ _ _ _ Hone Hs) as Hout.
      rewrite Hfree in Hout. destruct Hout as (Hm & _).
      apply filter_raising_Some in Hm.
      assert (Hno : is_match teacher_rows st session teacher <> Some true).
      { intros Hmatch.
        assert (Hin' : teacher ∈ filter (fun x => is_match teacher_rows st session x = Some true)
                         teacher_rows) by (by apply list_elem_of_filter).
        rewrite <- Hm in Hin'. by apply elem_of_nil in Hin'. }
      destruct (decide (Teacher.id teacher ∈ busy_at (busy_at_slot st) (hour_of session')))
        as [Hbusy | Hidle]; [done |].
      exfalso. apply Hno. apply is_match_true.
      destruct (forget_teacher_columns _ _ Hrow) as (Hk & Hd & Hsl).
      rewrite Hk in Hskill. rewrite Hd in Hday. rewrite Hsl in Hav.
      split; [done |]. split; [by exists day |]. by rewrite <- Hhour.
    + specialize (IH _ _ _ Hrest Hgrids).
      eapply Forall_impl; [exact IH |]. intros s Hx Hfree teacher day Hin Hskill Hday Hav.
      destruct (Hx Hfree teacher day Hin Hskill Hday Hav) as [Hbusy | (s' & Hs' & Hh & Ht)].
      * destruct (allocate_one_busy _ _ _ _ _ _ Hone Hbusy) as [Hold | [Hh Ht]]; [by left |].
        right. exists session'. split; [apply list_elem_of_here |].
        split; [congruence | done].
      * right. exists s'. split; [by apply list_elem_of_further | done].
Qed.
End AllocateRun.

(** The dictionaries of a run hold, under an id, the skills and the tokens
    of one and the same teacher of that id. *)
Lemma dict_by_id_same_teacher rows tid :
  (exists t, t ∈ rows /\ Teacher.id t = tid) ->
  exists teacher,
    teacher ∈ rows /\ Teacher.id teacher = tid
    /\ teacher_skill_ids rows !! tid = Some (Teacher.skills teacher)
    /\ teacher_tokens rows !! tid = Some (teacher_slot_tokens teacher).
Proof.
  intros (t & Hin & Hid). unfold teacher_skill_ids, teacher_tokens.
  rewrite !dict_by_id_lookup.
  destruct (last (filter (fun t => Teacher.id t = tid) rows)) as [teacher |] eqn:Hlast.
  - exists teacher. apply last_Some in Hlast as [l' Hl'].
    assert (Hmem : teacher ∈ filter (fun t => Teacher.id t = tid) rows).
    { rewrite Hl'. apply elem_of_app. right. apply list_elem_of_here. }
    apply list_elem_of_filter in Hmem as [? ?]. auto.
  - apply last_None in Hlast.
    assert (Hmem : t ∈ filter (fun t => Teacher.id t = tid) rows)
      by (by apply list_elem_of_filter).
    rewrite Hlast in Hmem. by apply elem_of_nil in Hmem.
Qed.

Lemma teachers_by_name_perm teachers : teachers_by_name teachers ≡ₚ teachers.
Proof. apply sort_by_perm. Qed.

(** The loop of a run, as [allocate_sessions] starts it. *)
Lemma allocate_sessions_inv teachers table r :
  allocate_sessions teachers table = Some r ->
  exists sorted st,
    sort_by_key triple_leb session_sort_key (filter (fun s => in_grid s) table) = Some sorted
    /\ allocate_loop (teachers_by_name teachers)
         (AllocState ∅ (dict_by_id (fun _ => 0) (teachers_by_name teachers)) 0 0)
         (Session.with_teacher None <$> sorted)
       = Some (st, sessions_after r)
    /\ assigned_total r = assigned st /\ unassigned_total r = unassigned st.
Proof.
  unfold allocate_sessions. intros Hrun.
  destruct (sort_by_key triple_leb session_sort_key _) as [sorted |]; simpl in Hrun; [| done].
  destruct (allocate_loop _ _ _) as [[st out] |] eqn:Hloop; simpl in Hrun; [| done].
  injection Hrun as <-. by exists sorted, st.
Qed.

Lemma cleared_rows (l : list Session.t) :
  Forall (fun s => Session.assigned_teacher_id s = None) (Session.with_teacher None <$> l).
Proof. by apply Forall_fmap, Forall_forall. Qed.

(** X6: Every teacher a run assigns is a teacher of the table who holds the
    skill the session requires and is free at its day and slot. *)
Theorem allocate_assigns_qualified_available_teachers
    (teachers : list Teacher.t) (table : list Session.t) (r : alloc_result) :
  allocate_sessions teachers table = Some r ->
  forall s tid,
    s ∈ sessions_after r -> Session.assigned_teacher_id s = Some tid ->
    exists teacher day,
      teacher ∈ teachers /\ Teacher.id teacher = tid
      /\ Session.required_skill_id s ∈ Teacher.skills teacher
      /\ Session.day s = Some day
      /\ is_available teacher day (Session.slot s) = Some true.
Proof.
  intros (sorted & st & _ & Hloop & _)%allocate_sessions_inv s tid Hs Htid.
  apply allocate_loop_sound in Hloop; [| apply cleared_rows].
  rewrite Forall_forall in Hloop.
  destruct (Hloop s Hs tid Htid) as (t & day & Hin & Hid & Hskill & Hday & Hav).
  destruct (dict_by_id_same_teacher (teachers_by_name teachers) tid) as
    (teacher & Hin' & Hid' & Hsk & Htok); [by exists t |].
  rewrite Hsk in Hskill. rewrite Htok in Hav. simpl in Hskill, Hav.
  exists teacher, day. rewrite teachers_by_name_perm in Hin'. auto.
Qed.

Lemma allocate_assigns_qualified_available_teachers_witness :
  exists teacher day,
    teacher ∈ [ Teacher.mk 1 "Ann" "Mon 08:00-09:00" [1%Z];
                Teacher.mk 2 "Bob" "monday 8:00" [1%Z; 2%Z] ]
    /\ Teacher.id teacher = 2%Z
    /\ Session.required_skill_id (monday_8 2 2 "Grade 2" (Some 2%Z)) ∈ Teacher.skills teacher
    /\ Session.day (monday_8 2 2 "Grade 2" (Some 2%Z)) = Some day
    /\ is_available teacher day (Session.slot (monday_8 2 2 "Grade 2" (Some 2%Z))) = Some true.
Proof.
  apply (allocate_assigns_qualified_available_teachers
           [ Teacher.mk 1 "Ann" "Mon 08:00-09:00" [1%Z];
             Teacher.mk 2 "Bob" "monday 8:00" [1%Z; 2%Z] ]
           [ monday_8 2 2 "Grade 2" None; monday_8 1 1 "Grade 1" (Some 2%Z) ]
           (AllocResult
              [ monday_8 1 1 "Grade 1" (Some 1%Z); monday_8 2 2 "Grade 2" (Some 2%Z) ] 2 0)).
  - vm_compute. reflexivity.
  - apply list_elem_of_further, list_elem_of_here.
  - reflexivity.
Defined.

Lemma Forall2_of_fmap_eq {A B C} (f : A -> C) (g : B -> C) (l1 : list A) (l2 : list B) :
  f <$> l1 = g <$> l2 -> Forall2 (fun a b => f a = g b) l1 l2.
Proof.
  revert l2. induction l1 as [| a l1 IH]; intros [| b l2]; try done.
  rewrite !fmap_cons. intros [= Hab Hrest]. constructor; [done | by apply IH].
Qed.

Lemma triple_leb_total a b : triple_leb a b = true \/ triple_leb b a = true.
Proof. apply pair_leb_nat_total, pair_leb_nat_total, nat_leb_total. Qed.

Lemma triple_leb_trans a b c :
  triple_leb a b = true -> triple_leb b c = true -> triple_leb a c = true.
Proof. apply pair_leb_nat_trans, pair_leb_nat_trans, nat_leb_trans. Qed.

(** X7: A run changes nothing but assigned teachers: the rows written are the
    grid rows of the table, each once, with every other column as it was,
    in the order of the key (day, slot, year group). *)
Theorem allocate_rewrites_teachers_only
    (teachers : list Teacher.t) (table : list Session.t) (r : alloc_result) :
  allocate_sessions teachers table = Some r ->
  forget_teachers (sessions_after r)
    ≡ₚ forget_teachers (filter (fun s => in_grid s) table)
  /\ exists keys,
       mapM session_sort_key (sessions_after r) = Some keys
       /\ StronglySorted (fun a b => triple_leb a b = true) keys.
Proof.
  intros (sorted & st & Hsorted & Hloop & _)%allocate_sessions_inv.
  apply allocate_loop_rows in Hloop. split.
  - unfold forget_teachers. rewrite Hloop, <- list_fmap_compose.
    rewrite (list_fmap_ext _ (Session.with_teacher None) sorted)
      by (intros; apply with_teacher_idemp).
    by rewrite (sort_by_key_perm _ _ _ _ Hsorted).
  - unfold sort_by_key in Hsorted.
    destruct (mapM _ (filter _ table)) as [ks |] eqn:Hks; simpl in Hsorted; [| done].
    injection Hsorted as <-.
    exists (fst <$> sort_decorated triple_leb ks). split.
    + apply mapM_Some. apply Forall2_fmap_r.
      assert (Hkeys : Forall (fun p => session_sort_key p.2 = Some p.1)
                        (sort_decorated triple_leb ks)).
      { pose proof (decorate_raising_fst _ _ _ Hks) as Hall.
        rewrite Forall_forall in Hall. apply Forall_forall. intros p Hp.
        apply Hall. by rewrite <- (sort_decorated_perm triple_leb ks). }
      assert (Hout : Forall2 (fun s p => Session.with_teacher None s
                                         = Session.with_teacher None p.2)
                       (sessions_after r) (sort_decorated triple_leb ks)).
      { rewrite <- !list_fmap_compose in Hloop.
        by apply Forall2_of_fmap_eq in Hloop. }
      clear Hloop. induction Hout as [| s p l1 l2 Hsp Hrest IH]; [constructor |].
      apply Forall_cons in Hkeys as [Hp Hkeys]. constructor; [| by apply IH].
      simpl in Hp, Hsp. simpl. etrans; [| exact Hp].
      rewrite <- (session_sort_key_with_teacher None s), Hsp.
      apply session_sort_key_with_teacher.
    + pose proof (sort_decorated_sorted triple_leb triple_leb_total triple_leb_trans ks) as Hs.
      clear Hloop. induction Hs as [| p l Hl IH Hp]; [constructor |].
      rewrite fmap_cons. constructor; [exact IH |].
      apply Forall_fmap. eapply Forall_impl; [exact Hp |]. by intros.
Qed.

Lemma allocate_rewrites_teachers_only_witness :
  forget_teachers
    (sessions_after
       (AllocResult
          [ monday_8 1 1 "Grade 1" (Some 1%Z); monday_8 2 2 "Grade 2" (Some 2%Z) ] 2 0))
    ≡ₚ forget_teachers
         (filter (fun s => in_grid s)
            [ monday_8 2 2 "Grade 2" None; monday_8 1 1 "Grade 1" (Some 2%Z) ])
  /\ exists keys,
       mapM session_sort_key
         (sessions_after
            (AllocResult
               [ monday_8 1 1 "Grade 1" (Some 1%Z); monday_8 2 2 "Grade 2" (Some 2%Z) ] 2 0))
       = Some keys
       /\ StronglySorted (fun a b => triple_leb a b = true) keys.
Proof.
  apply (allocate_rewrites_teachers_only
           [ Teacher.mk 1 "Ann" "Mon 08:00-09:00" [1%Z];
             Teacher.mk 2 "Bob" "monday 8:00" [1%Z; 2%Z] ]).
  vm_compute. reflexivity.
Defined.

Lemma unassigned_count_grid (l : list Session.t) :
  Forall (fun s => in_grid s = true) l ->
  unassigned_count l = length (filter (fun s => Session.assigned_teacher_id s = None) l).
Proof.
  unfold unassigned_count. induction 1 as [| s l Hs _ IH]; [done |].
  rewrite !filter_cons, Hs. simpl.
  destruct (decide (Session.assigned_teacher_id s = None)) as [Hn | Hn].
  - rewrite bool_decide_eq_true_2 by done. simpl. by rewrite IH.
  - rewrite bool_decide_eq_false_2 by done. simpl. by rewrite IH.
Qed.

(** The rows a run writes are rows of the grid. *)
Lemma allocate_sessions_in_grid teachers table r :
  allocate_sessions teachers table = Some r ->
  Forall (fun s => in_grid s = true) (sessions_after r).
Proof.
  intros (sorted & st & Hsorted & Hloop & _)%allocate_sessions_inv.
  apply allocate_loop_rows in Hloop.
  apply Forall2_of_fmap_eq in Hloop.
  assert (Hgrid : Forall (fun s => in_grid s = true) (Session.with_teacher None <$> sorted)).
  { apply Forall_fmap, Forall_forall. intros s Hs. simpl.
    rewrite in_grid_with_teacher.
    rewrite (sort_by_key_perm _ _ _ _ Hsorted) in Hs.
    apply list_elem_of_filter in Hs as [Hs _]. by apply Is_true_true. }
  induction Hloop as [| s s0 l l0 Hs _ IH]; [constructor |].
  apply Forall_cons in Hgrid as [Hg Hgrid]. constructor; [| by apply IH].
  by destruct (forget_teacher_fields _ _ Hs) as (-> & _).
Qed.

(** X8: The two totals a run reports count the rows it wrote with and without
    a teacher; the second is the number the index page shows as
    unassigned for these rows. *)
Theorem allocate_totals_count_rows
    (teachers : list Teacher.t) (table : list Session.t) (r : alloc_result) :
  allocate_sessions teachers table = Some r ->
  assigned_total r
  = length (filter (fun s => Session.assigned_teacher_id s <> None) (sessions_after r))
  /\ unassigned_total r = unassigned_count (sessions_after r).
Proof.
  intros Hrun. pose proof (allocate_sessions_in_grid _ _ _ Hrun) as Hgrid.
  apply allocate_sessions_inv in Hrun as (sorted & st & _ & Hloop & -> & ->).
  apply allocate_loop_tally in Hloop as [Ha Hu]; [| apply cleared_rows].
  rewrite unassigned_count_grid by done. simpl in Ha, Hu. done.
Qed.

Lemma allocate_totals_count_rows_witness :
  assigned_total
    (AllocResult [ monday_8 1 1 "Grade 1" (Some 1%Z); monday_8 2 1 "Grade 2" None ] 1 1)
  = length (filter (fun s => Session.assigned_teacher_id s <> None)
              (sessions_after
                 (AllocResult
                    [ monday_8 1 1 "Grade 1" (Some 1%Z); monday_8 2 1 "Grade 2" None ] 1 1)))
  /\ unassigned_total
       (AllocResult [ monday_8 1 1 "Grade 1" (Some 1%Z); monday_8 2 1 "Grade 2" None ] 1 1)
     = unassigned_count
         (sessions_after
            (AllocResult
               [ monday_8 1 1 "Grade 1" (Some 1%Z); monday_8 2 1 "Grade 2" None ] 1 1)).
Proof.
  apply (allocate_totals_count_rows
           [ Teacher.mk 1 "Ann" "Mon 08:00-09:00" [1%Z] ]
           [ monday_8 1 1 "Grade 1" None; monday_8 2 1 "Grade 2" (Some 1%Z) ]).
  vm_compute. reflexivity.
Defined.

(** X9: A run leaves a session without a teacher only when no teacher can
    take it: every teacher who holds the required skill and is free at the
    day and slot has been given another session of that day and slot. *)
Theorem allocate_unassigned_only_when_exhausted
    (teachers : list Teacher.t) (table : list Session.t) (r : alloc_result) :
  NoDup (Teacher.id <$> teachers) ->
  allocate_sessions teachers table = Some r ->
  forall s teacher day,
    s ∈ sessions_after r -> Session.assigned_teacher_id s = None ->
    teacher ∈ teachers ->
    Session.required_skill_id s ∈ Teacher.skills teacher ->
    Session.day s = Some day ->
    is_available teacher day (Session.slot s) = Some true ->
    exists s', s' ∈ sessions_after r /\ hour_of s' = hour_of s
               /\ Session.assigned_teacher_id s' = Some (Teacher.id teacher).
Proof.
  intros Hkeys Hrun s teacher day Hs Hfree Hin Hskill Hday Hav.
  apply allocate_sessions_inv in Hrun as (sorted & st & Hsorted & Hloop & _).
  assert (Hkeys' : NoDup (Teacher.id <$> teachers_by_name teachers))
    by (by rewrite teachers_by_name_perm).
  assert (Hin' : teacher ∈ teachers_by_name teachers) by (by rewrite teachers_by_name_perm).
  apply allocate_loop_exhausts in Hloop; [| apply cleared_rows |].
  2: { apply Forall_fmap, Forall_forall. intros x Hx. simpl.
       rewrite in_grid_with_teacher.
       rewrite (sort_by_key_perm _ _ _ _ Hsorted) in Hx.
       apply list_elem_of_filter in Hx as [Hx _]. by apply Is_true_true. }
  rewrite Forall_forall in Hloop.
  assert (Hskill' : Session.required_skill_id s
                      ∈ default [] (teacher_skill_ids (teachers_by_name teachers)
                                      !! Teacher.id teacher)).
  { unfold teacher_skill_ids. by rewrite dict_by_id_lookup_own. }
  assert (Hav' : teacher_is_available_for_slot
                   (default [] (teacher_tokens (teachers_by_name teachers)
                                  !! Teacher.id teacher))
                   day (Session.slot s) = Some true).
  { unfold teacher_tokens. by rewrite dict_by_id_lookup_own. }
  destruct (Hloop s Hs Hfree teacher day Hin' Hskill' Hday Hav') as [Hbusy | Hother];
    [| done].
  simpl in Hbusy. unfold busy_at in Hbusy. rewrite lookup_empty in Hbusy.
  by apply elem_of_empty in Hbusy.
Qed.

Lemma allocate_unassigned_only_when_exhausted_witness :
  exists s',
    s' ∈ sessions_after
           (AllocResult [ monday_8 1 1 "Grade 1" (Some 1%Z); monday_8 2 1 "Grade 2" None ] 1 1)
    /\ hour_of s' = hour_of (monday_8 2 1 "Grade 2" None)
    /\ Session.assigned_teacher_id s'
       = Some (Teacher.id (Teacher.mk 1 "Ann" "Mon 08:00-09:00" [1%Z])).
Proof.
  apply (allocate_unassigned_only_when_exhausted
           [ Teacher.mk 1 "Ann" "Mon 08:00-09:00" [1%Z] ]
           [ monday_8 1 1 "Grade 1" None; monday_8 2 1 "Grade 2" (Some 1%Z) ]
           (AllocResult [ monday_8 1 1 "Grade 1" (Some 1%Z); monday_8 2 1 "Grade 2" None ] 1 1)
           ltac:(apply NoDup_singleton) ltac:(vm_compute; reflexivity)
           (monday_8 2 1 "Grade 2" None) (Teacher.mk 1 "Ann" "Mon 08:00-09:00" [1%Z])
           "Monday").
  - apply list_elem_of_further, list_elem_of_here.
  - reflexivity.
  - apply list_elem_of_here.
  - apply list_elem_of_here.
  - reflexivity.
  - vm_compute. reflexivity.
Defined.

(** ** The grid view *)

(** A dictionary comprehension keeps, under a key, the last row of that
    key. *)
Lemma foldl_session_lookup (l : list Session.t) (m : gmap cell_key Session.t) key :
  foldl (fun m session => <[cell_of session := session]> m) m l !! key
  = match last (filter (fun s => cell_of s = key) l) with
    | Some s => Some s
    | None => m !! key
    end.
Proof.
  revert m. induction l as [| s l IH]; intros m; [done |].
  cbn [foldl]. rewrite IH, filter_cons.
  destruct (decide (cell_of s = key)) as [<- | Hne].
  - change (s :: filter (fun s0 => cell_of s0 = cell_of s) l)
      with ([s] ++ filter (fun s0 => cell_of s0 = cell_of s) l).
    rewrite last_app. destruct (last (filter _ l)); [done |].
    simpl. by rewrite lookup_insert_eq.
  - destruct (last (filter _ l)); [done |]. by rewrite lookup_insert_ne.
Qed.

Lemma session_lookup_last (l : list Session.t) key :
  session_lookup l !! key = last (filter (fun s => cell_of s = key) l).
Proof.
  unfold session_lookup. rewrite foldl_session_lookup, lookup_empty.
  by destruct (last _).
Qed.

(** The teachers recorded as taken in an hour are the non-zero teachers
    of the rows of that hour. *)
Lemma foldl_busy_snapshot (l : list Session.t) (m : gmap hour_key (gset Z)) hour tid :
  tid ∈ busy_at
          (foldl (fun m session =>
                    match Session.assigned_teacher_id session with
                    | Some tid =>
                        if Py.truthy (Some tid)
                        then <[hour_of session := {[tid]} ∪ busy_at m (hour_of session)]> m
                        else m
                    | None => m
                    end) m l) hour
  <-> tid ∈ busy_at m hour
      \/ exists s, s ∈ l /\ hour_of s = hour
                   /\ Session.assigned_teacher_id s = Some tid /\ tid <> 0%Z.
Proof.
  revert m. induction l as [| s l IH]; intros m.
  - cbn [foldl]. split; [by left |]. intros [? | (s & Hs & _)]; [done |].
    by apply elem_of_nil in Hs.
  - cbn [foldl]. rewrite IH. clear IH.
    assert (Hstep : forall m' : gmap hour_key (gset Z),
              (tid ∈ busy_at m' hour
               <-> tid ∈ busy_at m hour
                   \/ (hour_of s = hour /\ Session.assigned_teacher_id s = Some tid
                       /\ tid <> 0%Z)) ->
              (tid ∈ busy_at m' hour
               \/ (exists s0, s0 ∈ l /\ hour_of s0 = hour
                              /\ Session.assigned_teacher_id s0 = Some tid /\ tid <> 0%Z))
              <-> tid ∈ busy_at m hour
                  \/ exists s0, s0 ∈ s :: l /\ hour_of s0 = hour
                                /\ Session.assigned_teacher_id s0 = Some tid /\ tid <> 0%Z).
    { intros m' Hm'. rewrite Hm'. split.
      - intros [[? | (? & ? & ?)] | (s0 & Hs0 & ?)]; [by left | |].
        + right. exists s. split; [apply list_elem_of_here | done].
        + right. exists s0. split; [by apply list_elem_of_further | done].
      - intros [? | (s0 & [-> | Hs0]%elem_of_cons & ?)]; [by left; left | by left; right |].
        right. by exists s0. }
    apply Hstep.
    destruct (Session.assigned_teacher_id s) as [t |] eqn:Ht.
    + unfold Py.truthy. destruct (Z.eqb_spec t 0) as [-> | Hnz]; simpl.
      * split; [by left |]. intros [? | (_ & [= <-] & ?)]; done.
      * unfold busy_at at 1. destruct (decide (hour_of s = hour)) as [<- | Hne].
        -- rewrite lookup_insert_eq. simpl. rewrite elem_of_union, elem_of_singleton.
           split.
           ++ intros [-> | ?]; [by right | by left].
           ++ intros [? | (_ & [= <-] & _)]; [by right | by left].
        -- rewrite lookup_insert_ne by done.
           split; [by left |]. intros [? | (? & _)]; done.
    + split; [by left |]. intros [? | (_ & ? & _)]; done.
Qed.

Lemma busy_snapshot_spec (l : list Session.t) hour tid :
  tid ∈ busy_at (busy_snapshot l) hour
  <-> exists s, s ∈ l /\ hour_of s = hour
                /\ Session.assigned_teacher_id s = Some tid /\ tid <> 0%Z.
Proof.
  unfold busy_snapshot. rewrite foldl_busy_snapshot.
  unfold busy_at at 1. rewrite lookup_empty. simpl.
  split; [intros [Hin | ?]; [by apply elem_of_empty in Hin | done] | by right].
Qed.

Section BuildScheduleFacts.
Variables (teachers : list Teacher.t) (sessions : list Session.t).

Lemma teacher_option_total day slot current required teacher :
  teacher ∈ teachers -> day ∈ WEEK_DAYS ->
  is_Some (teacher_option teachers sessions day slot current required teacher).
Proof.
  intros Hin Hday. unfold teacher_option, teacher_tokens.
  destruct (dict_by_id_is_Some teacher_slot_tokens teachers teacher Hin) as [tokens ->].
  simpl.
  destruct (teacher_is_available_for_slot_total tokens day slot Hday) as [b ->].
  simpl. eauto.
Qed.

Lemma build_cell_total day slot year_group :
  day ∈ WEEK_DAYS -> is_Some (build_cell teachers sessions day slot year_group).
Proof.
  intros Hday. unfold build_cell.
  destruct (mapM _ teachers) as [options |] eqn:Hopts; simpl; [eauto |].
  assert (Hsome : is_Some (mapM (teacher_option teachers sessions day slot
                    (session_lookup (schedule_sessions sessions)
                       !! (Some day, slot, Some year_group)
                     ≫= Session.assigned_teacher_id)
                    (Session.required_skill_id
                       <$> session_lookup (schedule_sessions sessions)
                             !! (Some day, slot, Some year_group))) teachers)).
  { apply mapM_is_Some, Forall_forall. intros t Ht. by apply teacher_option_total. }
  rewrite Hopts in Hsome. by destruct Hsome.
Qed.

Lemma build_row_total day row :
  day ∈ WEEK_DAYS -> is_Some (build_row teachers sessions day row).
Proof.
  intros Hday. destruct row as [slot lunch]. unfold build_row. cbn [fst snd].
  destruct lunch; [eauto |].
  destruct (mapM (build_cell teachers sessions day slot) YEAR_GROUPS) as [cells |] eqn:Hc;
    simpl; [eauto |].
  assert (Hsome : is_Some (mapM (build_cell teachers sessions day slot) YEAR_GROUPS)).
  { apply mapM_is_Some, Forall_forall. intros y _. by apply build_cell_total. }
  rewrite Hc in Hsome. by destruct Hsome.
Qed.

Lemma build_schedule_total : is_Some (build_schedule teachers sessions).
Proof.
  unfold build_schedule. apply mapM_is_Some, Forall_forall. intros day Hday. unfold compose.
  destruct (mapM (build_row teachers sessions day) TIME_ROWS) as [day_rows |] eqn:Hr;
    simpl; [eauto |].
  assert (Hsome : is_Some (mapM (build_row teachers sessions day) TIME_ROWS)).
  { apply mapM_is_Some, Forall_forall. intros row _. by apply build_row_total. }
  rewrite Hr in Hsome. by destruct Hsome.
Qed.

(** What a cell is built from. *)
Lemma build_cell_inv day slot year_group cell :
  build_cell teachers sessions day slot year_group = Some cell ->
  let existing := session_lookup (schedule_sessions sessions)
                    !! (Some day, slot, Some year_group) in
  Cell.year_group cell = year_group /\ Cell.day cell = day /\ Cell.slot cell = slot
  /\ Cell.session_id cell = Session.id <$> existing
  /\ Cell.required_skill_id cell = Session.required_skill_id <$> existing
  /\ Cell.assigned_teacher_id cell = existing ≫= Session.assigned_teacher_id
  /\ Forall2 (fun teacher opt =>
                teacher_option teachers sessions day slot
                  (Cell.assigned_teacher_id cell) (Cell.required_skill_id cell) teacher
                = Some opt)
       teachers (Cell.teacher_options cell).
Proof.
  unfold build_cell. intros Hcell.
  destruct (mapM _ teachers) as [options |] eqn:Hopts; simpl in Hcell; [| done].
  injection Hcell as <-. simpl. repeat split; try done. by apply mapM_Some.
Qed.

Lemma teacher_option_id day slot current required teacher opt :
  teacher_option teachers sessions day slot current required teacher = Some opt ->
  TeacherOption.id opt = Teacher.id teacher /\ TeacherOption.name opt = Teacher.name teacher.
Proof.
  unfold teacher_option. intros Hopt.
  destruct (teacher_tokens teachers !! Teacher.id teacher) as [tokens |];
    simpl in Hopt; [| done].
  destruct (teacher_is_available_for_slot tokens day slot) as [b |]; simpl in Hopt; [| done].
  by injection Hopt as <-.
Qed.

Lemma build_cell_options day slot year_group cell :
  build_cell teachers sessions day slot year_group = Some cell ->
  TeacherOption.id <$> Cell.teacher_options cell = Teacher.id <$> teachers
  /\ TeacherOption.name <$> Cell.teacher_options cell = Teacher.name <$> teachers.
Proof.
  intros (_ & _ & _ & _ & _ & _ & Hopts)%build_cell_inv.
  induction Hopts as [| t o ts os Hto _ [IH1 IH2]]; [done |].
  apply teacher_option_id in Hto as [Hid Hname].
  rewrite !fmap_cons. by rewrite Hid, Hname, IH1, IH2.
Qed.
End BuildScheduleFacts.

(** X10: The schedule is built for every input, and it has the shape of the
    grid: the five days in order, for each day the seven rows of
    [TIME_ROWS], no cell in the lunch row and in every other row one cell
    per year group, each with one option per teacher, in the order of the
    teachers. *)
Theorem build_schedule_has_grid_shape (teachers : list Teacher.t) (sessions : list Session.t) :
  exists schedule,
    build_schedule teachers sessions = Some schedule
    /\ Forall2
         (fun day item =>
            item.1 = day
            /\ Forall2
                 (fun time_row row =>
                    Row.slot row = time_row.1 /\ Row.is_lunch row = time_row.2
                    /\ if time_row.2 : bool then Row.cells row = []
                       else Forall2
                              (fun year_group cell =>
                                 build_cell teachers sessions day time_row.1 year_group
                                 = Some cell
                                 /\ Cell.year_group cell = year_group
                                 /\ Cell.day cell = day
                                 /\ Cell.slot cell = time_row.1
                                 /\ TeacherOption.id <$> Cell.teacher_options cell
                                    = Teacher.id <$> teachers
                                 /\ TeacherOption.name <$> Cell.teacher_options cell
                                    = Teacher.name <$> teachers)
                              YEAR_GROUPS (Row.cells row))
                 TIME_ROWS item.2)
         WEEK_DAYS schedule.
Proof.
  destruct (build_schedule_total teachers sessions) as [schedule Hs].
  exists schedule. split; [done |].
  unfold build_schedule in Hs. apply mapM_Some in Hs.
  eapply Forall2_impl; [exact Hs |]. clear Hs. intros day item Hitem. cbn beta in Hitem.
  destruct (mapM (build_row teachers sessions day) TIME_ROWS) as [day_rows |] eqn:Hrows;
    simpl in Hitem; [| done].
  injection Hitem as <-. simpl. split; [done |].
  apply mapM_Some in Hrows.
  eapply Forall2_impl; [exact Hrows |]. clear Hrows. intros [slot lunch] row Hrow.
  unfold build_row in Hrow. cbn [fst snd] in Hrow. cbn [fst snd].
  destruct lunch.
  - by injection Hrow as <-.
  - destruct (mapM (build_cell teachers sessions day slot) YEAR_GROUPS) as [cells |] eqn:Hcells;
      simpl in Hrow; [| done].
    injection Hrow as <-. simpl. split; [done |]. split; [done |].
    apply mapM_Some in Hcells.
    eapply Forall2_impl; [exact Hcells |]. clear Hcells. intros year_group cell Hcell.
    cbn beta in Hcell. split; [done |].
    destruct (build_cell_inv _ _ _ _ _ _ Hcell) as (? & ? & ? & _).
    destruct (build_cell_options _ _ _ _ _ _ Hcell) as [? ?]. auto.
Qed.

(** (I1) on a list with one more row in front. *)
Lemma I1_cons_inv s l :
  I1 (s :: l) ->
  I1 l /\ forall x, x ∈ l -> in_grid s = true -> in_grid x = true -> cell_of s <> cell_of x.
Proof.
  intros H. split.
  - intros i j si sj Hi Hj Hne. apply (H (S i) (S j)); auto.
  - intros x [j Hj]%list_elem_of_lookup_1. by apply (H 0 (S j)).
Qed.

(** Under (I1) a grid row is the only grid row of its cell. *)
Lemma I1_filter_cell l s :
  I1 l -> s ∈ l -> in_grid s = true ->
  filter (fun x => cell_of x = cell_of s) (filter (fun x => in_grid x) l) = [s].
Proof.
  induction l as [| x l IH]; intros HI Hin Hgrid; [by apply elem_of_nil in Hin |].
  apply I1_cons_inv in HI as [HI Hx].
  assert (Hnone : forall y, y ∈ l -> in_grid y = true ->
            cell_of y = cell_of s -> y ∈ l -> False -> False) by done.
  rewrite filter_cons. apply elem_of_cons in Hin as [-> | Hin].
  - rewrite decide_True by (by apply Is_true_true).
    rewrite filter_cons, decide_True by done. f_equal.
    apply filter_none, Forall_forall. intros y [Hy Hyl]%list_elem_of_filter Heq.
    apply (Hx y); [done | done | by apply Is_true_true | done].
  - destruct (decide (in_grid x)) as [Hgx | Hgx]; [| by apply IH].
    rewrite filter_cons. destruct (decide (cell_of x = cell_of s)) as [Heq | Hne];
      [| by apply IH].
    exfalso. apply (Hx s); [done | by apply Is_true_true | done | done].
Qed.

(** X11: A cell of the view shows the last row of the page that lies in the
    grid at that cell, and nothing when there is none; on a table without
    duplicated cells this is the one row of the cell. *)
Theorem build_cell_shows_row_of_cell
    (teachers : list Teacher.t) (sessions : list Session.t)
    (day slot year_group : string) (cell : Cell.t) :
  build_cell teachers sessions day slot year_group = Some cell ->
  (Cell.session_id cell
   = Session.id
       <$> last (filter (fun s => cell_of s = (Some day, slot, Some year_group))
                   (filter (fun s => in_grid s) sessions)))
  /\ (Cell.required_skill_id cell
      = Session.required_skill_id
          <$> last (filter (fun s => cell_of s = (Some day, slot, Some year_group))
                      (filter (fun s => in_grid s) sessions)))
  /\ (Cell.assigned_teacher_id cell
      = last (filter (fun s => cell_of s = (Some day, slot, Some year_group))
                (filter (fun s => in_grid s) sessions))
          ≫= Session.assigned_teacher_id)
  /\ (I1 sessions ->
      forall s, s ∈ sessions -> in_grid s = true ->
                cell_of s = (Some day, slot, Some year_group) ->
                Cell.session_id cell = Some (Session.id s)
                /\ Cell.required_skill_id cell = Some (Session.required_skill_id s)
                /\ Cell.assigned_teacher_id cell = Session.assigned_teacher_id s).
Proof.
  intros (_ & _ & _ & Hid & Hskill & Hteacher & _)%build_cell_inv.
  rewrite session_lookup_last in Hid, Hskill, Hteacher.
  unfold schedule_sessions in Hid, Hskill, Hteacher.
  split; [done |]. split; [done |]. split; [done |].
  intros HI s Hs Hgrid Hcell.
  rewrite Hid, Hskill, Hteacher, <- Hcell, (I1_filter_cell sessions s) by done.
  done.
Qed.

Lemma build_cell_shows_row_of_cell_witness :
  (Cell.session_id (Cell.mk "Grade 1" "Monday" "08:00-09:00" (Some 3%Z) (Some 2%Z) None [])
   = Session.id
       <$> last (filter (fun s => cell_of s = (Some "Monday", "08:00-09:00", Some "Grade 1"))
                   (filter (fun s => in_grid s)
                      [monday_8 1 1 "Grade 1" (Some 7%Z); monday_8 3 2 "Grade 1" None])))
  /\ (Cell.required_skill_id
        (Cell.mk "Grade 1" "Monday" "08:00-09:00" (Some 3%Z) (Some 2%Z) None [])
      = Session.required_skill_id
          <$> last (filter (fun s => cell_of s = (Some "Monday", "08:00-09:00", Some "Grade 1"))
                      (filter (fun s => in_grid s)
                         [monday_8 1 1 "Grade 1" (Some 7%Z); monday_8 3 2 "Grade 1" None])))
  /\ (Cell.assigned_teacher_id
        (Cell.mk "Grade 1" "Monday" "08:00-09:00" (Some 3%Z) (Some 2%Z) None [])
      = last (filter (fun s => cell_of s = (Some "Monday", "08:00-09:00", Some "Grade 1"))
                (filter (fun s => in_grid s)
                   [monday_8 1 1 "Grade 1" (Some 7%Z); monday_8 3 2 "Grade 1" None]))
          ≫= Session.assigned_teacher_id)
  /\ (I1 [monday_8 1 1 "Grade 1" (Some 7%Z); monday_8 3 2 "Grade 1" None] ->
      forall s, s ∈ [monday_8 1 1 "Grade 1" (Some 7%Z); monday_8 3 2 "Grade 1" None] ->
                in_grid s = true ->
                cell_of s = (Some "Monday", "08:00-09:00", Some "Grade 1") ->
                Cell.session_id
                  (Cell.mk "Grade 1" "Monday" "08:00-09:00" (Some 3%Z) (Some 2%Z) None [])
                = Some (Session.id s)
                /\ Cell.required_skill_id
                     (Cell.mk "Grade 1" "Monday" "08:00-09:00" (Some 3%Z) (Some 2%Z) None [])
                   = Some (Session.required_skill_id s)
                /\ Cell.assigned_teacher_id
                     (Cell.mk "Grade 1" "Monday" "08:00-09:00" (Some 3%Z) (Some 2%Z) None [])
                   = Session.assigned_teacher_id s).
Proof.
  apply (build_cell_shows_row_of_cell []). vm_compute. reflexivity.
Defined.

Section Selectable.
Variables (teachers : list Teacher.t) (sessions : list Session.t).
Hypothesis ids_are_keys : NoDup (Teacher.id <$> teachers).

(** With ids that are keys an option of a cell is built from the
    teacher's own tokens and skills. *)
Lemma teacher_option_own day slot current required teacher opt :
  teacher ∈ teachers ->
  teacher_option teachers sessions day slot current required teacher = Some opt ->
  exists available,
    is_available teacher day slot = Some available
    /\ TeacherOption.selected opt = bool_decide (Some (Teacher.id teacher) = current)
    /\ TeacherOption.available opt = available
    /\ TeacherOption.busy opt
       = bool_decide (Teacher.id teacher
                        ∈ busy_at (busy_snapshot (schedule_sessions sessions)) (Some day, slot))
         && bool_decide (Some (Teacher.id teacher) <> current)
    /\ TeacherOption.has_skill opt
       = match required with
         | Some k => if Py.truthy (Some k) then bool_decide (k ∈ Teacher.skills teacher)
                     else true
         | None => true
         end
    /\ TeacherOption.selectable opt
       = TeacherOption.available opt && negb (TeacherOption.busy opt)
         && TeacherOption.has_skill opt.
Proof.
  intros Hin. unfold teacher_option, teacher_tokens, teacher_skill_ids, is_available.
  rewrite !dict_by_id_lookup_own by done. simpl.
  destruct (teacher_is_available_for_slot _ day slot) as [available |]; simpl; [| done].
  intros [= <-]. exists available. simpl. by repeat split.
Qed.
End Selectable.

(** X12: With teacher ids that are keys, an option of a cell is selectable
    exactly when the teacher is free at the day and slot of the cell,
    holds the skill the cell requires (if it requires one), and is not
    assigned to a grid row of that day and slot, unless the teacher is the
    one assigned to the cell itself. The option marked as selected is the
    one of the teacher assigned to the cell. *)
Theorem build_cell_selectable_options
    (teachers : list Teacher.t) (sessions : list Session.t)
    (day slot year_group : string) (cell : Cell.t) :
  NoDup (Teacher.id <$> teachers) ->
  build_cell teachers sessions day slot year_group = Some cell ->
  Forall2
    (fun teacher opt =>
       (TeacherOption.selected opt = true
        <-> Cell.assigned_teacher_id cell = Some (Teacher.id teacher))
       /\ (TeacherOption.selectable opt = true
           <-> is_available teacher day slot = Some true
               /\ (forall k, Cell.required_skill_id cell = Some k -> k <> 0%Z ->
                             k ∈ Teacher.skills teacher)
               /\ (forall s, s ∈ sessions -> in_grid s = true ->
                             hour_of s = (Some day, slot) ->
                             Session.assigned_teacher_id s = Some (Teacher.id teacher) ->
                             Teacher.id teacher <> 0%Z ->
                             Cell.assigned_teacher_id cell = Some (Teacher.id teacher))))
    teachers (Cell.teacher_options cell).
Proof.
  intros Hkeys (_ & _ & _ & _ & _ & _ & Hopts)%build_cell_inv.
  apply Forall2_same_length_lookup. split; [by eapply Forall2_length |].
  intros i teacher opt Hi Ho.
  assert (Hopt := Forall2_lookup_lr _ _ _ _ _ _ Hopts Hi Ho). cbn beta in Hopt.
  apply list_elem_of_lookup_2 in Hi.
  destruct (teacher_option_own teachers sessions Hkeys _ _ _ _ _ _ Hi Hopt)
    as (available & Hav & Hsel & Havail & Hbusy & Hskill & Hable).
  split.
  - rewrite Hsel, bool_decide_eq_true. split; congruence.
  - rewrite Hable, Hbusy, Hskill, Havail, !andb_true_iff, negb_true_iff, andb_false_iff.
    rewrite !bool_decide_eq_false, busy_snapshot_spec.
    unfold schedule_sessions. split.
    + intros [[-> Hidle] Hk]. split; [done |]. split.
      * intros k Hreq Hnz. rewrite Hreq in Hk. unfold Py.truthy in Hk.
        destruct (Z.eqb_spec k 0) as [? | _]; [done |]. simpl in Hk.
        by apply bool_decide_eq_true in Hk.
      * intros s Hs Hgrid Hhour Hteacher Hnz.
        destruct Hidle as [Hidle | Hcur].
        -- exfalso. apply Hidle. exists s. split; [| done].
           apply list_elem_of_filter. split; [by apply Is_true_true | done].
        -- destruct (decide (Some (Teacher.id teacher) = Cell.assigned_teacher_id cell));
             [done | by exfalso; apply Hcur].
    + intros (Hav' & Hk & Hidle). rewrite Hav in Hav'. injection Hav' as ->.
      split; [split; [done |] |].
      * destruct (decide (Some (Teacher.id teacher) = Cell.assigned_teacher_id cell))
          as [Hcur | Hcur]; [right; by intros ? | left].
        intros (s & [Hgrid Hs]%list_elem_of_filter & Hhour & Hteacher & Hnz).
        apply Hcur. symmetry. apply (Hidle s); try done. by apply Is_true_true.
      * destruct (Cell.required_skill_id cell) as [k |]; [| done].
        unfold Py.truthy. destruct (Z.eqb_spec k 0) as [? | Hnz]; [done |]. simpl.
        apply bool_decide_eq_true. by apply Hk.
Qed.

Lemma build_cell_selectable_options_witness :
  Forall2
    (fun teacher opt =>
       (TeacherOption.selected opt = true
        <-> Cell.assigned_teacher_id
              (Cell.mk "Grade 2" "Monday" "08:00-09:00" None None None
                 [TeacherOption.mk 1 "Ann" false true true true false])
            = Some (Teacher.id teacher))
       /\ (TeacherOption.selectable opt = true
           <-> is_available teacher "Monday" "08:00-09:00" = Some true
               /\ (forall k,
                     Cell.required_skill_id
                       (Cell.mk "Grade 2" "Monday" "08:00-09:00" None None None
                          [TeacherOption.mk 1 "Ann" false true true true false])
                     = Some k ->
                     k <> 0%Z -> k ∈ Teacher.skills teacher)
               /\ (forall s, s ∈ [monday_8 1 1 "Grade 1" (Some 1%Z)] -> in_grid s = true ->
                             hour_of s = (Some "Monday", "08:00-09:00") ->
                             Session.assigned_teacher_id s = Some (Teacher.id teacher) ->
                             Teacher.id teacher <> 0%Z ->
                             Cell.assigned_teacher_id
                               (Cell.mk "Grade 2" "Monday" "08:00-09:00" None None None
                                  [TeacherOption.mk 1 "Ann" false true true true false])
                             = Some (Teacher.id teacher))))
    [Teacher.mk 1 "Ann" "Mon 08:00-09:00" [1%Z]]
    (Cell.teacher_options
       (Cell.mk "Grade 2" "Monday" "08:00-09:00" None None None
          [TeacherOption.mk 1 "Ann" false true true true false])).
Proof.
  apply (build_cell_selectable_options
           [Teacher.mk 1 "Ann" "Mon 08:00-09:00" [1%Z]]
           [monday_8 1 1 "Grade 1" (Some 1%Z)] "Monday" "08:00-09:00" "Grade 2").
  - apply NoDup_singleton.
  - vm_compute. reflexivity.
Defined.

(** ** The row of a cell *)

Lemma order_by_id_perm (l : list (ref * Session.t)) : order_by_id l ≡ₚ l.
Proof. apply sort_by_perm. Qed.

Lemma order_by_id_sorted (l : list (ref * Session.t)) :
  StronglySorted (fun p q => (Session.id p.2 <= Session.id q.2)%Z) (order_by_id l).
Proof.
  unfold order_by_id, sort_by.
  set (keyed := (fun x : ref * Session.t => (Session.id x.2, x)) <$> l).
  assert (Hkeys : Forall (fun a : Z * (ref * Session.t) => a.1 = Session.id a.2.2)
                    (sort_decorated Z.leb keyed)).
  { rewrite sort_decorated_perm. subst keyed. by apply Forall_fmap, Forall_forall. }
  pose proof (sort_decorated_sorted Z.leb Z_leb_total Z_leb_trans keyed) as Hsorted.
  induction Hsorted as [| a l' _ IH Hall]; [constructor |].
  apply Forall_cons in Hkeys as [Ha Hkeys]. rewrite fmap_cons. constructor.
  - by apply IH.
  - apply Forall_fmap. rewrite Forall_forall in Hall, Hkeys |- *.
    intros b Hb. simpl. rewrite <- Ha, <- (Hkeys b Hb). by apply Z.leb_le, Hall.
Qed.

Lemma filter_singleton_NoDup {A} (P : A -> Prop) `{forall x, Decision (P x)}
    (l : list A) (x : A) :
  NoDup l -> x ∈ l -> (forall y, y ∈ l -> P y <-> y = x) -> filter P l = [x].
Proof.
  induction l as [| a l IH]; intros Hnd Hin Hiff; [by apply elem_of_nil in Hin |].
  apply NoDup_cons in Hnd as [Ha Hnd]. rewrite filter_cons.
  apply elem_of_cons in Hin as [-> | Hin].
  - rewrite decide_True by (apply Hiff; [apply list_elem_of_here | done]). f_equal.
    apply filter_none, Forall_forall. intros y Hy Hp.
    apply Hiff in Hp; [| by apply list_elem_of_further]. by subst.
  - rewrite decide_False.
    + apply IH; [done | done |]. intros y Hy. apply Hiff. by apply list_elem_of_further.
    + intros Hp. apply Hiff in Hp; [| apply list_elem_of_here]. by subst.
Qed.

Lemma rows_are_NoDup (table : list Session.t) : NoDup (rows table).
Proof. eapply NoDup_fmap_1, rows_NoDup. Qed.

Lemma filter_rows (Q : Session.t -> Prop) `{forall s, Decision (Q s)}
    (table : list Session.t) :
  filter Q table = snd <$> filter (fun p => Q p.2) (rows table).
Proof. rewrite <- (rows_snd table) at 1. apply filter_fmap. Qed.

Section CellMatches.
Variables (day slot year_group : string) (table : list Session.t).

Lemma elem_of_cell_matches r :
  r ∈ cell_matches day slot year_group table
  <-> exists s, table !! r = Some s /\ cell_of s = (Some day, slot, Some year_group).
Proof.
  unfold cell_matches. rewrite order_by_id_perm. split.
  - intros ([r' s] & -> & [Hc Hin]%list_elem_of_filter)%list_elem_of_fmap.
    apply bool_decide_unpack in Hc. apply elem_of_rows in Hin. by exists s.
  - intros (s & Hs & Hc). apply list_elem_of_fmap. exists (r, s). split; [done |].
    apply list_elem_of_filter. split; [by apply bool_decide_pack | by apply elem_of_rows].
Qed.

Lemma cell_matches_NoDup : NoDup (cell_matches day slot year_group table).
Proof.
  unfold cell_matches. rewrite order_by_id_perm.
  apply (NoDup_fmap_fst (filter _ _)).
  - intros r s1 s2 [_ H1%elem_of_rows]%list_elem_of_filter
      [_ H2%elem_of_rows]%list_elem_of_filter. congruence.
  - apply NoDup_filter, rows_are_NoDup.
Qed.

Lemma length_cell_matches :
  length (cell_matches day slot year_group table)
  = length (filter (fun s => cell_of s = (Some day, slot, Some year_group)) table).
Proof.
  unfold cell_matches.
  rewrite length_fmap, (Permutation_length (order_by_id_perm _)), filter_rows, length_fmap.
  f_equal. apply list_filter_iff. intros p. apply bool_decide_spec.
Qed.

(** The first match has the lowest id of the cell. *)
Lemma cell_matches_first primary extras first :
  cell_matches day slot year_group table = primary :: extras ->
  table !! primary = Some first ->
  forall s, s ∈ table -> cell_of s = (Some day, slot, Some year_group) ->
            (Session.id first <= Session.id s)%Z.
Proof.
  unfold cell_matches. intros Hm Hfirst s [r Hr]%list_elem_of_lookup_1 Hcell.
  set (found := filter (fun p : ref * Session.t =>
                          bool_decide (cell_of p.2 = (Some day, slot, Some year_group)))
                  (rows table)) in *.
  pose proof (order_by_id_sorted found) as Hsorted.
  assert (Hmem : forall p, p ∈ order_by_id found -> table !! p.1 = Some p.2).
  { intros [r' s']. rewrite order_by_id_perm.
    intros [_ Hin]%list_elem_of_filter. by apply elem_of_rows. }
  assert (Hin : (r, s) ∈ order_by_id found).
  { rewrite order_by_id_perm. apply list_elem_of_filter.
    split; [by apply bool_decide_pack | by apply elem_of_rows]. }
  destruct (order_by_id found) as [| [r0 s0] rest]; [by apply elem_of_nil in Hin |].
  rewrite fmap_cons in Hm. injection Hm as -> Hrest.
  pose proof (Hmem (primary, s0) (list_elem_of_here _ _)) as H0. simpl in H0.
  assert (s0 = first) as -> by (unfold ref in *; congruence).
  apply StronglySorted_inv in Hsorted as [_ Hall]. rewrite Forall_forall in Hall.
  apply elem_of_cons in Hin as [[= -> ->] | Hin]; [lia |].
  by apply (Hall (r, s) Hin).
Qed.

(** The state in which the loop over the other matches ends. *)
Lemma merge_matches_state primary extras :
  cell_matches day slot year_group table = primary :: extras ->
  let st := foldl (fun st extra => merge_extra primary extra st)
              (RepairState table [] 0 0) extras in
  forget_teachers (store st) = forget_teachers table
  /\ deleted st = extras
  /\ removed st = length extras
  /\ (forall r, r <> primary -> store st !! r = table !! r)
  /\ (primary ∉ extras) /\ NoDup extras
  /\ exists first,
       table !! primary = Some first /\ cell_of first = (Some day, slot, Some year_group)
       /\ store st !! primary
          = Some (Session.with_teacher
                    (foldl merge_teacher (Session.assigned_teacher_id first)
                       (teacher_at table <$> extras)) first).
Proof.
  intros Hm st.
  pose proof cell_matches_NoDup as Hnd. rewrite Hm in Hnd.
  apply NoDup_cons in Hnd as [Hout Hnd].
  assert (Hvalid : forall r, r ∈ primary :: extras ->
            exists s, table !! r = Some s /\ cell_of s = (Some day, slot, Some year_group)).
  { intros r Hr. rewrite <- Hm in Hr. by apply elem_of_cell_matches. }
  destruct (Hvalid primary) as (first & Hfirst & Hcell); [apply list_elem_of_here |].
  assert (Hextras : Forall (fun r => is_Some (table !! r)) extras).
  { apply Forall_forall. intros r Hr.
    destruct (Hvalid r) as (s & -> & _); [by apply list_elem_of_further | eauto]. }
  destruct (merge_extras_spec table primary extras (RepairState table [] 0 0))
    as (Hforget & Hdel & Hrem & _ & Hother); [done | eauto | done |].
  fold st in Hforget, Hdel, Hrem, Hother. simpl in Hdel, Hrem, Hother.
  split; [done |]. split; [done |]. split; [done |]. split; [done |].
  split; [done |]. split; [done |].
  exists first. split; [done |]. split; [done |].
  subst st. by rewrite (merge_extras_keep primary extras _ first).
Qed.
End CellMatches.

(** X13: Whatever the table, after [get_or_create_grid_cell_session] returns,
    the cell holds exactly one row, the row returned; the rows of the other
    cells are as before, in the same order; and the number returned is the
    number of rows of the cell beyond the first. *)
Theorem get_or_create_leaves_one_row_in_cell
    (day slot year_group : string) (required_skill_id : Z) (table : list Session.t) :
  let result := get_or_create_grid_cell_session day slot year_group required_skill_id table in
  filter (fun s => cell_of s = (Some day, slot, Some year_group)) result.1.1 = [result.1.2]
  /\ filter (fun s => cell_of s <> (Some day, slot, Some year_group)) result.1.1
     = filter (fun s => cell_of s <> (Some day, slot, Some year_group)) table
  /\ result.2 = pred (length (filter (fun s => cell_of s = (Some day, slot, Some year_group))
                                table)).
Proof.
  pose proof (length_cell_matches day slot year_group table) as Hlen.
  unfold get_or_create_grid_cell_session.
  change (fst <$> order_by_id _) with (cell_matches day slot year_group table).
  destruct (cell_matches day slot year_group table) as [| primary extras] eqn:Hm;
    cbn zeta; cbn [fst snd].
  - simpl in Hlen. symmetry in Hlen. apply length_zero_iff_nil in Hlen.
    rewrite !filter_app, Hlen, !filter_cons, !filter_nil.
    rewrite decide_True by done. rewrite decide_False by (by intros []).
    by rewrite app_nil_r.
  - destruct (merge_matches_state day slot year_group table primary extras Hm)
      as (Hforget & Hdel & Hrem & Hother & Hout & Hnd & first & Hfirst & Hcell & Hrow).
    set (st := foldl (fun st extra => merge_extra primary extra st)
                 (RepairState table [] 0 0) extras) in *.
    rewrite Hrow. cbn [default].
    set (row := Session.with_teacher _ first) in *.
    assert (Hmember : forall r s, store st !! r = Some s ->
              (cell_of s = (Some day, slot, Some year_group) <-> r ∈ primary :: extras)
              /\ (r <> primary -> table !! r = Some s)).
    { intros r s Hs. split.
      - destruct (forget_teachers_row _ _ _ _ Hforget Hs) as (s0 & Hs0 & Hsame).
        apply forget_teacher_fields in Hsame as (_ & -> & _).
        rewrite <- Hm, elem_of_cell_matches. split.
        + intros ?. by exists s0.
        + intros (s1 & Hs1 & ?). unfold ref in *. congruence.
      - intros Hne. by rewrite <- Hother. }
    split; [| split].
    + unfold surviving. rewrite filter_fmap, list_filter_filter.
      rewrite (filter_singleton_NoDup _ (rows (store st)) (primary, row)); [done | | |].
      * apply rows_are_NoDup.
      * by apply elem_of_rows.
      * intros [r s] Hin%elem_of_rows. simpl. rewrite Hdel.
        destruct (Hmember r s Hin) as [Hkey _]. rewrite Hkey. split.
        -- intros [[-> | Hr]%elem_of_cons Hnot]; [| done].
           unfold ref in *. congruence.
        -- intros [= -> ->]. split; [apply list_elem_of_here | done].
    + unfold surviving. rewrite filter_fmap, list_filter_filter, (filter_rows _ table).
      f_equal. unfold rows.
      apply (filter_indexed_ext _ _ (fun i => i)).
      * rewrite <- (length_fmap (Session.with_teacher None) (store st)).
        fold (forget_teachers (store st)). rewrite Hforget. apply length_fmap.
      * intros i x y Hx Hy. simpl. rewrite Hdel.
        destruct (Hmember i x Hx) as [Hkey Hsame].
        assert (Hstay : cell_of x <> (Some day, slot, Some year_group) -> x = y).
        { intros Hc. assert (Hi : i <> primary).
          { intros ->. apply Hc, Hkey, list_elem_of_here. }
          specialize (Hsame Hi). unfold ref in *. congruence. }
        split.
        -- split.
           ++ intros [Hc _]. by rewrite <- (Hstay Hc).
           ++ intros Hc.
              assert (Hcx : cell_of x <> (Some day, slot, Some year_group)).
              { destruct (forget_teachers_row _ _ _ _ Hforget Hx) as (s0 & Hs0 & Hs).
                apply forget_teacher_fields in Hs as (_ & -> & _).
                unfold ref in *. congruence. }
              split; [done |]. intros Hin. apply Hcx, Hkey. by apply list_elem_of_further.
        -- intros [Hc _]. by apply Hstay.
    + rewrite Hrem, <- Hlen. done.
Qed.

Lemma next_id_fresh (table : list Session.t) :
  Forall (fun s => (Session.id s < next_id table)%Z) table.
Proof.
  unfold next_id. induction table as [| s table IH]; [constructor |].
  rewrite fmap_cons. cbn [foldr]. constructor; [lia |].
  eapply Forall_impl; [exact IH |]. intros x Hx. simpl in Hx. lia.
Qed.

(** X14: The row [get_or_create_grid_cell_session] returns. For an empty cell
    it is a new row, appended to the table, with the given skill, no
    teacher and an id above every id of the table. For an occupied cell it
    is the row of lowest id of the cell, with its columns unchanged but the
    teacher: it keeps its teacher if it has one, it takes a teacher of
    another row of the cell otherwise, and it is left without a teacher
    only when no row of the cell has one. No other row is changed, and
    rows are only removed. *)
Theorem get_or_create_returns_first_row_or_fresh
    (day slot year_group : string) (required_skill_id : Z) (table : list Session.t) :
  let result := get_or_create_grid_cell_session day slot year_group required_skill_id table in
  (Forall (fun s => cell_of s <> (Some day, slot, Some year_group)) table ->
   result.1.1 = table ++ [result.1.2]
   /\ result.1.2
      = Session.mk (next_id table) required_skill_id slot None (Some day) (Some year_group)
   /\ Forall (fun s => (Session.id s < Session.id result.1.2)%Z) table)
  /\ (forall s, s ∈ table -> cell_of s = (Some day, slot, Some year_group) ->
      forget_teachers result.1.1 `sublist_of` forget_teachers table
      /\ exists first,
           first ∈ table /\ cell_of first = (Some day, slot, Some year_group)
           /\ Session.with_teacher None result.1.2 = Session.with_teacher None first
           /\ (forall s', s' ∈ table -> cell_of s' = (Some day, slot, Some year_group) ->
                          (Session.id first <= Session.id s')%Z)
           /\ (forall t, Session.assigned_teacher_id first = Some t ->
                         Session.assigned_teacher_id result.1.2 = Some t)
           /\ (forall t, Session.assigned_teacher_id result.1.2 = Some t ->
                         exists s', s' ∈ table
                                    /\ cell_of s' = (Some day, slot, Some year_group)
                                    /\ Session.assigned_teacher_id s' = Some t)
           /\ (Session.assigned_teacher_id result.1.2 = None ->
               forall s', s' ∈ table -> cell_of s' = (Some day, slot, Some year_group) ->
                          Session.assigned_teacher_id s' = None)).
Proof.
  pose proof (elem_of_cell_matches day slot year_group table) as Hmem.
  unfold get_or_create_grid_cell_session.
  change (fst <$> order_by_id _) with (cell_matches day slot year_group table).
  destruct (cell_matches day slot year_group table) as [| primary extras] eqn:Hm;
    cbn zeta; cbn [fst snd].
  - split.
    + intros _. split; [done |]. split; [done |]. apply next_id_fresh.
    + intros s [r Hr]%list_elem_of_lookup_1 Hcell.
      assert (Hin : r ∈ @nil ref) by (apply Hmem; by exists s).
      by apply elem_of_nil in Hin.
  - destruct (merge_matches_state day slot year_group table primary extras Hm)
      as (Hforget & Hdel & Hrem & Hother & Hout & Hnd & first & Hfirst & Hcell & Hrow).
    set (st := foldl (fun st extra => merge_extra primary extra st)
                 (RepairState table [] 0 0) extras) in *.
    rewrite Hrow. cbn [default].
    split.
    + intros Hnone. rewrite Forall_forall in Hnone.
      exfalso. apply (Hnone first); [by eapply list_elem_of_lookup_2 | done].
    + intros _ _ _. split.
      * rewrite <- Hforget. unfold forget_teachers, surviving.
        apply fmap_sublist. rewrite <- (rows_snd (store st)) at 2.
        apply fmap_sublist, sublist_filter.
      * exists first. split; [by eapply list_elem_of_lookup_2 |]. split; [done |].
        split; [done |]. split; [by eapply cell_matches_first |].
        assert (Hcases :
                  foldl merge_teacher (Session.assigned_teacher_id first)
                    (teacher_at table <$> extras)
                  = match Session.assigned_teacher_id first with
                    | Some t => Some t
                    | None => head (omap (teacher_at table) extras)
                    end).
        { destruct (Session.assigned_teacher_id first) as [t |].
          - apply foldl_merge_teacher_Some.
          - apply foldl_merge_teacher_None. }
        cbn [Session.with_teacher Session.assigned_teacher_id]. rewrite Hcases.
        split; [| split].
        -- by intros t ->.
        -- intros t Ht. destruct (Session.assigned_teacher_id first) as [t0 |] eqn:Ht0.
           ++ injection Ht as ->. exists first.
              split; [by eapply list_elem_of_lookup_2 | done].
           ++ apply head_Some_elem_of, list_elem_of_omap in Ht as (r & Hr & Hteacher).
              unfold teacher_at in Hteacher.
              destruct (table !! r) as [s' |] eqn:Hs'; simpl in Hteacher; [| done].
              exists s'. split; [by eapply list_elem_of_lookup_2 |]. split; [| done].
              assert (Hrm : r ∈ primary :: extras) by (by apply list_elem_of_further).
              apply Hmem in Hrm as (s1 & Hs1 & ?). unfold ref in *. congruence.
        -- intros Hnone s' [r Hr]%list_elem_of_lookup_1 Hcell'.
           destruct (Session.assigned_teacher_id first) as [t0 |] eqn:Ht0; [done |].
           assert (Hrm : r ∈ primary :: extras) by (apply Hmem; by exists s').
           apply elem_of_cons in Hrm as [-> | Hrm].
           ++ unfold ref in *. congruence.
           ++ destruct (Session.assigned_teacher_id s') as [t |] eqn:Ht; [| done].
              assert (Hin : t ∈ omap (teacher_at table) extras).
              { apply list_elem_of_omap. exists r. split; [done |].
                unfold teacher_at. unfold ref in *. by rewrite Hr. }
              destruct (omap (teacher_at table) extras); [by apply elem_of_nil in Hin | done].
Qed.

(** ** Start-up migration of the year groups *)

(** The updates act row by row. *)
Lemma update_year_group_app old_value new_value (l1 l2 : list Session.t) :
  update_year_group old_value new_value (l1 ++ l2)
  = ((update_year_group old_value new_value l1).1
     ++ (update_year_group old_value new_value l2).1,
     (update_year_group old_value new_value l1).2
     + (update_year_group old_value new_value l2).2).
Proof. unfold update_year_group. cbn [fst snd]. by rewrite fmap_app, filter_app, length_app. Qed.

Lemma foldl_migrate_step_app (m : list (string * string))
    (l1 l2 : list Session.t) (k1 k2 : nat) :
  foldl migrate_step (l1 ++ l2, k1 + k2) m
  = ((foldl migrate_step (l1, k1) m).1 ++ (foldl migrate_step (l2, k2) m).1,
     (foldl migrate_step (l1, k1) m).2 + (foldl migrate_step (l2, k2) m).2).
Proof.
  revert l1 l2 k1 k2. induction m as [| [old_value new_value] m IH]; intros l1 l2 k1 k2;
    [done |].
  cbn [foldl]. unfold migrate_step at 2 4 6 8 10. cbn [fst snd].
  rewrite update_year_group_app. cbn [fst snd].
  replace (k1 + k2 + ((update_year_group old_value new_value l1).2
                      + (update_year_group old_value new_value l2).2))
    with (k1 + (update_year_group old_value new_value l1).2
          + (k2 + (update_year_group old_value new_value l2).2)) by lia.
  apply IH.
Qed.

Lemma migrate_step_miss s k old_value new_value :
  Session.year_group s <> Some old_value ->
  migrate_step ([s], k) (old_value, new_value) = ([s], k).
Proof.
  intros Hne. unfold migrate_step, update_year_group. cbn [fst snd].
  rewrite fmap_cons, filter_cons, fmap_nil, filter_nil.
  rewrite bool_decide_eq_false_2, decide_False by done. simpl. by rewrite Nat.add_0_r.
Qed.

Lemma migrate_legacy_year_groups_row s :
  migrate_legacy_year_groups [s]
  = ([match legacy_year_group s with
      | Some new_value => with_year_group (Some new_value) s
      | None => s
      end],
     match legacy_year_group s with Some _ => 1 | None => 0 end).
Proof.
  destruct s as [id skill slot teacher day [y |]]; [| done].
  unfold legacy_year_group. cbn [Session.year_group mbind option_bind].
  destruct (decide (y = "First")) as [-> | H1]; [done |].
  destruct (decide (y = "Second")) as [-> | H2]; [done |].
  destruct (decide (y = "Third")) as [-> | H3]; [done |].
  destruct (decide (y = "Fourth")) as [-> | H4]; [done |].
  destruct (decide (y = "Fifth")) as [-> | H5]; [done |].
  unfold LEGACY_YEAR_GROUP_MAP. cbn [dict_get].
  rewrite !bool_decide_eq_false_2 by congruence.
  unfold migrate_legacy_year_groups, LEGACY_YEAR_GROUP_MAP. cbn [foldl].
  by rewrite !migrate_step_miss by (cbn; congruence).
Qed.

Lemma migrate_legacy_year_groups_cons s table :
  migrate_legacy_year_groups (s :: table)
  = (match legacy_year_group s with
     | Some new_value => with_year_group (Some new_value) s
     | None => s
     end :: (migrate_legacy_year_groups table).1,
     match legacy_year_group s with Some _ => 1 | None => 0 end
     + (migrate_legacy_year_groups table).2).
Proof.
  pose proof (foldl_migrate_step_app LEGACY_YEAR_GROUP_MAP [s] table 0 0) as Happ.
  change (migrate_legacy_year_groups (s :: table)
          = ((migrate_legacy_year_groups [s]).1 ++ (migrate_legacy_year_groups table).1,
             (migrate_legacy_year_groups [s]).2 + (migrate_legacy_year_groups table).2))
    in Happ.
  by rewrite Happ, migrate_legacy_year_groups_row.
Qed.

(** No value of the legacy map is one of its keys. *)
Lemma legacy_year_group_migrated s new_value :
  legacy_year_group s = Some new_value ->
  legacy_year_group (with_year_group (Some new_value) s) = None.
Proof.
  unfold legacy_year_group. destruct (Session.year_group s) as [y |]; [| done].
  cbn [mbind option_bind with_year_group Session.year_group].
  unfold LEGACY_YEAR_GROUP_MAP. cbn [dict_get].
  repeat (case_bool_decide; [by intros [= <-] |]). done.
Qed.

(** X15: The migration replaces every legacy year group by the value it stands
    for, in one pass, and changes nothing else: each row with a key of
    [LEGACY_YEAR_GROUP_MAP] as its year group gets the value of that key,
    every other row stays as it is; the count is the number of rows
    changed; afterwards no row has a legacy year group, and a second run
    changes nothing and counts zero. *)
Theorem migrate_legacy_year_groups_translates_once (table : list Session.t) :
  (migrate_legacy_year_groups table).1
  = (fun s => match legacy_year_group s with
              | Some new_value => with_year_group (Some new_value) s
              | None => s
              end) <$> table
  /\ (migrate_legacy_year_groups table).2
     = length (filter (fun s => is_Some (legacy_year_group s)) table)
  /\ Forall (fun s => legacy_year_group s = None) (migrate_legacy_year_groups table).1
  /\ migrate_legacy_year_groups (migrate_legacy_year_groups table).1
     = ((migrate_legacy_year_groups table).1, 0).
Proof.
  induction table as [| s table (IH1 & IH2 & IH3 & IH4)]; [by repeat split |].
  rewrite migrate_legacy_year_groups_cons. cbn [fst snd].
  split; [by rewrite fmap_cons, IH1 |]. split; [| split].
  - rewrite filter_cons, IH2. destruct (legacy_year_group s) as [new_value |] eqn:Hs.
    + rewrite decide_True by eauto. done.
    + rewrite decide_False by (by intros [? ?]). done.
  - constructor; [| done]. destruct (legacy_year_group s) as [new_value |] eqn:Hs;
      [by apply legacy_year_group_migrated | done].
  - rewrite migrate_legacy_year_groups_cons, IH4. cbn [fst snd].
    destruct (legacy_year_group s) as [new_value |] eqn:Hs.
    + by rewrite (legacy_year_group_migrated s new_value Hs).
    + by rewrite Hs.
Qed.

(** ** Invariants of the grid under row-wise changes *)

Lemma in_grid_cell_of s s' : cell_of s = cell_of s' -> in_grid s = in_grid s'.
Proof. unfold cell_of, in_grid. intros [= Hd Hs Hy]. by rewrite Hd, Hs, Hy. Qed.

Lemma hour_of_cell_of s s' : cell_of s = cell_of s' -> hour_of s = hour_of s'.
Proof. unfold cell_of, hour_of. intros [= Hd Hs Hy]. by rewrite Hd, Hs. Qed.

(** (I2) is kept by a change that leaves the cells as they are and only
    removes teachers. *)
Lemma I2_unassign (f : Session.t -> Session.t) (table : list Session.t) :
  (forall s, cell_of (f s) = cell_of s) ->
  (forall s tid, Session.assigned_teacher_id (f s) = Some tid ->
                 Session.assigned_teacher_id s = Some tid) ->
  I2 table -> I2 (f <$> table).
Proof.
  intros Hcell Hteacher HI i j si sj tid Hi Hj Hne Hgi Hgj Hti Htj.
  apply list_lookup_fmap_Some in Hi as (si' & -> & Hi).
  apply list_lookup_fmap_Some in Hj as (sj' & -> & Hj).
  rewrite (hour_of_cell_of _ _ (Hcell si')), (hour_of_cell_of _ _ (Hcell sj')).
  rewrite (in_grid_cell_of _ _ (Hcell si')) in Hgi.
  rewrite (in_grid_cell_of _ _ (Hcell sj')) in Hgj.
  apply (HI i j si' sj' tid); auto.
Qed.

Lemma I1_same_cells (f : Session.t -> Session.t) (table : list Session.t) :
  (forall s, cell_of (f s) = cell_of s) -> I1 table -> I1 (f <$> table).
Proof.
  intros Hcell HI i j si sj Hi Hj Hne Hgi Hgj.
  apply list_lookup_fmap_Some in Hi as (si' & -> & Hi).
  apply list_lookup_fmap_Some in Hj as (sj' & -> & Hj).
  rewrite !Hcell. rewrite (in_grid_cell_of _ _ (Hcell si')) in Hgi.
  rewrite (in_grid_cell_of _ _ (Hcell sj')) in Hgj.
  apply (HI i j si' sj'); auto.
Qed.

(** Both invariants are kept when rows are removed. *)
Lemma I1_filter (P : Session.t -> Prop) `{forall s, Decision (P s)} (table : list Session.t) :
  I1 table -> I1 (filter P table).
Proof.
  intros HI. rewrite (filter_rows P table).
  apply I1_of_refs.
  - apply (NoDup_fmap_fst (filter _ _)).
    + intros r s1 s2 [_ H1%elem_of_rows]%list_elem_of_filter
        [_ H2%elem_of_rows]%list_elem_of_filter. congruence.
    + apply NoDup_filter. eapply NoDup_fmap_1, rows_NoDup.
  - intros r1 s1 r2 s2 [_ H1%elem_of_rows]%list_elem_of_filter
      [_ H2%elem_of_rows]%list_elem_of_filter Hne. by apply (HI r1 r2).
Qed.

Lemma I2_of_refs (l : list (ref * Session.t)) :
  NoDup (fst <$> l) ->
  (forall r1 s1 r2 s2 tid,
     (r1, s1) ∈ l -> (r2, s2) ∈ l -> r1 <> r2 ->
     in_grid s1 = true -> in_grid s2 = true ->
     Session.assigned_teacher_id s1 = Some tid ->
     Session.assigned_teacher_id s2 = Some tid -> hour_of s1 <> hour_of s2) ->
  I2 (snd <$> l).
Proof.
  unfold ref in *. intros Hnd Hhours i j si sj tid Hi Hj Hne Hgi Hgj Hti Htj.
  apply list_lookup_fmap_Some in Hi as ([ri si'] & -> & Hi).
  apply list_lookup_fmap_Some in Hj as ([rj sj'] & -> & Hj). simpl in *.
  apply (Hhours ri si' rj sj' tid); try done.
  - by apply list_elem_of_lookup_2 in Hi.
  - by apply list_elem_of_lookup_2 in Hj.
  - intros ->. apply Hne. apply (NoDup_lookup _ i j rj Hnd).
    + by rewrite list_lookup_fmap, Hi.
    + by rewrite list_lookup_fmap, Hj.
Qed.

Lemma I2_filter (P : Session.t -> Prop) `{forall s, Decision (P s)} (table : list Session.t) :
  I2 table -> I2 (filter P table).
Proof.
  intros HI. rewrite (filter_rows P table).
  apply I2_of_refs.
  - apply (NoDup_fmap_fst (filter _ _)).
    + intros r s1 s2 [_ H1%elem_of_rows]%list_elem_of_filter
        [_ H2%elem_of_rows]%list_elem_of_filter. congruence.
    + apply NoDup_filter. eapply NoDup_fmap_1, rows_NoDup.
  - intros r1 s1 r2 s2 tid [_ H1%elem_of_rows]%list_elem_of_filter
      [_ H2%elem_of_rows]%list_elem_of_filter Hne. by apply (HI r1 r2).
Qed.

(** ** Deleting a teacher *)

Lemma get_teacher_Some teacher_id teachers teacher :
  get_teacher teacher_id teachers = Some teacher ->
  teacher ∈ teachers /\ Teacher.id teacher = teacher_id.
Proof.
  unfold get_teacher. intros Hhead%head_Some_elem_of.
  by apply list_elem_of_filter in Hhead as [? ?].
Qed.

Lemma get_teacher_None teacher_id teachers :
  get_teacher teacher_id teachers = None <-> teacher_id ∉ Teacher.id <$> teachers.
Proof.
  unfold get_teacher. rewrite head_None. split.
  - intros Hnil (t & -> & Hin)%list_elem_of_fmap.
    assert (Hmem : t ∈ filter (fun teacher => Teacher.id teacher = Teacher.id t) teachers)
      by (by apply list_elem_of_filter).
    rewrite Hnil in Hmem. by apply elem_of_nil in Hmem.
  - intros Hout. apply filter_none, Forall_forall. intros t Hin <-.
    apply Hout, list_elem_of_fmap. by exists t.
Qed.

(** X16: [delete_teacher] answers 404 exactly for an id that is not in the
    teacher table. Otherwise it removes the teacher and nothing else from
    the teacher table; in the session table it changes nothing but the
    assignments to that teacher, which it clears, so that no session
    refers to the teacher afterwards; sessions that referred to existing
    teachers still do; and both grid invariants are kept. *)
Theorem delete_teacher_clears_assignments
    (teacher_id : Z) (teachers : list Teacher.t) (table : list Session.t) :
  match delete_teacher teacher_id teachers table with
  | None => teacher_id ∉ Teacher.id <$> teachers
  | Some (teachers', table') =>
      teacher_id ∈ Teacher.id <$> teachers
      /\ (forall t, t ∈ teachers' <-> t ∈ teachers /\ Teacher.id t <> teacher_id)
      /\ forget_teachers table' = forget_teachers table
      /\ Forall2 (fun s s' =>
                    Session.assigned_teacher_id s'
                    = if bool_decide (Session.assigned_teacher_id s = Some teacher_id)
                      then None else Session.assigned_teacher_id s)
           table table'
      /\ Forall (fun s' => Session.assigned_teacher_id s' <> Some teacher_id) table'
      /\ ((forall s t, s ∈ table -> Session.assigned_teacher_id s = Some t ->
                       t ∈ Teacher.id <$> teachers) ->
          forall s' t, s' ∈ table' -> Session.assigned_teacher_id s' = Some t ->
                       t ∈ Teacher.id <$> teachers')
      /\ (I1 table -> I1 table') /\ (I2 table -> I2 table')
  end.
Proof.
  unfold delete_teacher.
  destruct (get_teacher teacher_id teachers) as [teacher |] eqn:Hget; simpl.
  2: { by apply get_teacher_None. }
  apply get_teacher_Some in Hget as [Hin <-].
  set (f := fun s => if bool_decide (Session.assigned_teacher_id s = Some (Teacher.id teacher))
                     then Session.with_teacher None s else s).
  assert (Hf : forall s, Session.with_teacher None (f s) = Session.with_teacher None s).
  { intros s. unfold f. by case_bool_decide. }
  assert (Hft : forall s, Session.assigned_teacher_id (f s)
                          = if bool_decide (Session.assigned_teacher_id s
                                            = Some (Teacher.id teacher))
                            then None else Session.assigned_teacher_id s).
  { intros s. unfold f. by case_bool_decide. }
  assert (Hcell : forall s, cell_of (f s) = cell_of s).
  { intros s. by destruct (forget_teacher_fields _ _ (Hf s)) as (_ & ? & _). }
  split; [apply list_elem_of_fmap; by exists teacher |].
  split; [intros t; by rewrite list_elem_of_filter, (comm and) |].
  split; [| split; [| split; [| split; [| split]]]].
  - unfold forget_teachers. rewrite <- list_fmap_compose.
    apply list_fmap_ext. intros i s _. apply Hf.
  - apply Forall2_fmap_r, Forall_Forall2_diag, Forall_forall. intros s _. apply Hft.
  - apply Forall_fmap, Forall_forall. intros s _. simpl. rewrite Hft.
    by case_bool_decide.
  - intros Hvalid s' t (s & -> & Hs)%list_elem_of_fmap Ht. rewrite Hft in Ht.
    case_bool_decide as Hcmp; [done |].
    apply (Hvalid s t Hs) in Ht as Hold.
    apply list_elem_of_fmap in Hold as (u & -> & Hu).
    apply list_elem_of_fmap. exists u. split; [done |].
    apply list_elem_of_filter. split; [| done]. intros Heq. apply Hcmp. by rewrite <- Heq.
  - by apply I1_same_cells.
  - apply I2_unassign; [done |]. intros s tid. rewrite Hft. by case_bool_decide.
Qed.

(** ** Clearing a cell *)

Lemma length_filter_complement {A} (P : A -> Prop) `{forall x, Decision (P x)} (l : list A) :
  length (filter (fun x => ~ P x) l) + length (filter P l) = length l.
Proof.
  induction l as [| x l IH]; [done |].
  rewrite !filter_cons. destruct (decide (P x)) as [Hp | Hp].
  - rewrite decide_False by tauto. simpl. lia.
  - rewrite decide_True by done. simpl. lia.
Qed.

(** X17: [clear_grid_session] reports that nothing was found exactly when no
    row has the cell of the (stripped) form fields. Otherwise it removes
    the rows of that cell, all of them and no other row, and reports their
    number; the rows left keep their order; both grid invariants are kept;
    and clearing the same cell again finds nothing. *)
Theorem clear_grid_session_empties_cell
    (form_day form_slot form_year_group : string) (table : list Session.t) :
  match clear_grid_session form_day form_slot form_year_group table with
  | ClearNotFound =>
      Forall (fun s => cell_of s <> (Some (Py.strip form_day), Py.strip form_slot,
                                     Some (Py.strip form_year_group))) table
  | Cleared table' removed =>
      0 < removed
      /\ length table' + removed = length table
      /\ table' `sublist_of` table
      /\ (forall s, s ∈ table'
                    <-> s ∈ table
                        /\ cell_of s <> (Some (Py.strip form_day), Py.strip form_slot,
                                         Some (Py.strip form_year_group)))
      /\ (I1 table -> I1 table') /\ (I2 table -> I2 table')
      /\ clear_grid_session form_day form_slot form_year_group table' = ClearNotFound
  end.
Proof.
  unfold clear_grid_session. cbn zeta.
  set (key := (Some (Py.strip form_day), Py.strip form_slot,
               Some (Py.strip form_year_group))).
  destruct (filter (fun s => cell_of s = key) table) as [| s0 rest] eqn:Hfound.
  - apply Forall_forall. intros s Hs Hcell.
    assert (Hmem : s ∈ filter (fun s => cell_of s = key) table)
      by (by apply list_elem_of_filter).
    rewrite Hfound in Hmem. by apply elem_of_nil in Hmem.
  - split; [simpl; lia |]. split; [| split; [| split; [| split; [| split]]]].
    + rewrite <- Hfound. apply (length_filter_complement (fun s => cell_of s = key)).
    + apply sublist_filter.
    + intros s. by rewrite list_elem_of_filter, (comm and).
    + apply I1_filter.
    + apply I2_filter.
    + rewrite (filter_none (fun s => cell_of s = key)); [done |].
      apply Forall_forall. by intros s [? _]%list_elem_of_filter.
Qed.

(** ** Saving a cell *)

Lemma set_row_compose r (f g : Session.t -> Session.t) st :
  set_row r g (set_row r f st) = set_row r (g ∘ f) st.
Proof. unfold set_row. simpl. by rewrite list_alter_alter_eq. Qed.

Lemma NoDup_of_refs {B} (f : Session.t -> B) (l : list (ref * Session.t)) :
  NoDup (fst <$> l) ->
  (forall r1 s1 r2 s2, (r1, s1) ∈ l -> (r2, s2) ∈ l -> r1 <> r2 -> f s1 <> f s2) ->
  NoDup (f <$> (snd <$> l)).
Proof.
  induction l as [| [r s] l IH]; intros Hnd Hdiff; [constructor |].
  rewrite !fmap_cons in *. apply NoDup_cons in Hnd as [Hr Hnd]. simpl in *.
  apply NoDup_cons. split.
  - intros (s' & Heq & ([r' s''] & -> & Hin)%list_elem_of_fmap)%list_elem_of_fmap.
    simpl in *. apply (Hdiff r s r' s''); [apply list_elem_of_here | | | done].
    + by apply list_elem_of_further.
    + intros ->. apply Hr. apply list_elem_of_fmap. by exists (r', s'').
  - apply IH; [done |]. intros r1 s1 r2 s2 H1 H2.
    apply Hdiff; by apply list_elem_of_further.
Qed.

Section SaveCell.
Variables (day slot year_group : string) (skill_id : Z) (table : list Session.t).

(** What [get_or_create_grid_cell_session] leaves in the session: the row
    returned lies in the cell and is not deleted, and the other rows that
    are left are the rows of the other cells, unchanged. *)
Lemma get_or_create_ref_facts :
  exists row0,
    store (get_or_create_ref day slot year_group skill_id table).1
      !! (get_or_create_ref day slot year_group skill_id table).2 = Some row0
    /\ cell_of row0 = (Some day, slot, Some year_group)
    /\ ((get_or_create_ref day slot year_group skill_id table).2
          ∉ deleted (get_or_create_ref day slot year_group skill_id table).1)
    /\ (forall r' x,
          r' <> (get_or_create_ref day slot year_group skill_id table).2 ->
          (store (get_or_create_ref day slot year_group skill_id table).1 !! r' = Some x
           /\ r' ∉ deleted (get_or_create_ref day slot year_group skill_id table).1)
          <-> (table !! r' = Some x /\ cell_of x <> (Some day, slot, Some year_group)))
    /\ (NoDup (Session.id <$> table) ->
        forall r' x,
          r' <> (get_or_create_ref day slot year_group skill_id table).2 ->
          table !! r' = Some x -> Session.id x <> Session.id row0).
Proof.
  pose proof (elem_of_cell_matches day slot year_group table) as Hmem.
  unfold get_or_create_ref.
  destruct (cell_matches day slot year_group table) as [| primary extras] eqn:Hm;
    cbn [fst snd store deleted].
  - eexists. split; [by apply list_lookup_middle |]. split; [done |].
    split; [apply not_elem_of_nil |]. split.
    + intros r' x Hne.
      assert (Hother : forall s, table !! r' = Some s ->
                cell_of s <> (Some day, slot, Some year_group)).
      { intros s Hs Hcell. assert (Hin : r' ∈ @nil ref) by (apply Hmem; by exists s).
        by apply elem_of_nil in Hin. }
      split.
      * intros [[Hx | [Hlen Hx]]%lookup_app_Some _]; [split; [done | by eapply Hother] |].
        apply list_lookup_singleton_Some in Hx as [Hzero _]. unfold ref in *. lia.
      * intros [Hx _]. split; [by apply lookup_app_l_Some | apply not_elem_of_nil].
    + intros _ r' x _ Hx. simpl.
      pose proof (next_id_fresh table) as Hfresh. rewrite Forall_forall in Hfresh.
      specialize (Hfresh x (list_elem_of_lookup_2 _ _ _ Hx)). lia.
  - destruct (merge_matches_state day slot year_group table primary extras Hm)
      as (Hforget & Hdel & Hrem & Hother & Hout & Hnd & first & Hfirst & Hcell & Hrow).
    eexists. split; [exact Hrow |]. split; [done |]. rewrite Hdel.
    split; [done |]. split.
    + intros r' x Hne. rewrite (Hother r' Hne).
      assert (Hin : r' ∈ extras <-> r' ∈ primary :: extras).
      { rewrite elem_of_cons. split; [by right | by intros [? | ?]]. }
      rewrite Hin, Hmem. split.
      * intros [Hx Hno]. split; [done |]. intros Hc. apply Hno. by exists x.
      * intros [Hx Hc]. split; [done |]. intros (s & Hs & Hcs).
        unfold ref in *. congruence.
    + intros Hids r' x Hne Hx Heq. apply Hne. simpl in Heq. unfold ref in *.
      apply (NoDup_lookup _ r' primary (Session.id x) Hids).
      * by rewrite list_lookup_fmap, Hx.
      * by rewrite list_lookup_fmap, Hfirst, Heq.
Qed.

(** The rows left after assignments to the row returned. *)
Lemma saved_rows (h : Session.t -> Session.t) row0 :
  store (get_or_create_ref day slot year_group skill_id table).1
    !! (get_or_create_ref day slot year_group skill_id table).2 = Some row0 ->
  forall r' x,
    (r', x) ∈ filter
                (fun p => p.1 ∉ deleted (get_or_create_ref day slot year_group skill_id table).1)
                (rows (alter h (get_or_create_ref day slot year_group skill_id table).2
                         (store (get_or_create_ref day slot year_group skill_id table).1)))
    <-> (r' = (get_or_create_ref day slot year_group skill_id table).2 /\ x = h row0)
        \/ (r' <> (get_or_create_ref day slot year_group skill_id table).2
            /\ table !! r' = Some x /\ cell_of x <> (Some day, slot, Some year_group)).
Proof.
  destruct get_or_create_ref_facts as (row0' & Hrow & Hcell & Hkept & Hothers & _).
  intros Hrow0 r' x. assert (row0' = row0) as -> by congruence.
  rewrite list_elem_of_filter, elem_of_rows. cbn [fst]. unfold ref in *.
  destruct (decide (r' = (get_or_create_ref day slot year_group skill_id table).2))
    as [-> | Hne].
  - rewrite list_lookup_alter_eq, Hrow. simpl. split.
    + intros [_ [= <-]]. by left.
    + intros [[_ ->] | [? _]]; done.
  - rewrite list_lookup_alter_ne by done. rewrite (comm and), (Hothers r' x Hne). split.
    + intros ?. by right.
    + intros [[? _] | [_ ?]]; done.
Qed.

Lemma saved_rows_NoDup (h : Session.t -> Session.t) :
  NoDup (fst <$> filter
                   (fun p => p.1 ∉ deleted (get_or_create_ref day slot year_group skill_id
                                              table).1)
                   (rows (alter h (get_or_create_ref day slot year_group skill_id table).2
                            (store (get_or_create_ref day slot year_group skill_id table).1)))).
Proof.
  apply (NoDup_fmap_fst (filter _ _)).
  - intros r s1 s2 [_ H1%elem_of_rows]%list_elem_of_filter
      [_ H2%elem_of_rows]%list_elem_of_filter. congruence.
  - apply NoDup_filter. eapply NoDup_fmap_1, rows_NoDup.
Qed.



(** After the assignments the cell holds one row, the row returned. *)
Lemma saved_cell_unique (h : Session.t -> Session.t) row0 :
  (forall s, cell_of (h s) = cell_of s) ->
  store (get_or_create_ref day slot year_group skill_id table).1
    !! (get_or_create_ref day slot year_group skill_id table).2 = Some row0 ->
  filter (fun s => cell_of s = (Some day, slot, Some year_group))
    (surviving (set_row (get_or_create_ref day slot year_group skill_id table).2 h
                  (get_or_create_ref day slot year_group skill_id table).1))
  = [h row0].
Proof.
  intros Hh Hrow0.
  destruct get_or_create_ref_facts as (row0' & Hrow & Hcell & _).
  assert (row0' = row0) as -> by congruence.
  unfold surviving, set_row. cbn [store deleted].
  rewrite filter_fmap.
  rewrite (filter_singleton_NoDup _ _
             ((get_or_create_ref day slot year_group skill_id table).2, h row0)); [done | | |].
  - apply NoDup_filter, rows_are_NoDup.
  - apply (saved_rows h row0 Hrow0). by left.
  - intros [r' x] Hin. apply (saved_rows h row0 Hrow0) in Hin. simpl. split.
    + intros Hc. destruct Hin as [[-> ->] | (_ & _ & Hne)]; done.
    + intros [= -> ->]. by rewrite Hh.
Qed.

(** The rows of the other cells are as in the table, in the same order. *)
Lemma saved_other_cells (h : Session.t -> Session.t) :
  (forall s, cell_of (h s) = cell_of s) ->
  filter (fun s => cell_of s <> (Some day, slot, Some year_group))
    (surviving (set_row (get_or_create_ref day slot year_group skill_id table).2 h
                  (get_or_create_ref day slot year_group skill_id table).1))
  = filter (fun s => cell_of s <> (Some day, slot, Some year_group)) table.
Proof.
  intros Hh.
  destruct get_or_create_ref_facts as (row0 & Hrow & Hcell & Hkept & Hothers & _).
  revert Hrow Hkept Hothers. unfold get_or_create_ref.
  pose proof (elem_of_cell_matches day slot year_group table) as Hmem.
  destruct (cell_matches day slot year_group table) as [| primary extras] eqn:Hm;
    cbn [fst snd]; intros Hrow Hkept Hothers.
  - unfold set_row. cbn [store deleted removed unassigned_conflicts].
    rewrite surviving_nothing_deleted by done. cbn [store].
    replace (length table) with (length table + 0) at 1 by lia.
    rewrite alter_app_r, filter_app. cbn [alter list_alter].
    rewrite filter_cons, filter_nil, decide_False, app_nil_r; [done |].
    intros Hne. apply Hne. by rewrite Hh.
  - set (st0 := foldl (fun st extra => merge_extra primary extra st)
                  (RepairState table [] 0 0) extras) in *.
    destruct (merge_matches_state day slot year_group table primary extras Hm)
      as (Hforget & Hdel & _).
    fold st0 in Hforget, Hdel.
    unfold surviving, set_row. cbn [store deleted].
    rewrite filter_fmap, list_filter_filter, (filter_rows _ table).
    f_equal. unfold rows.
    apply (filter_indexed_ext _ _ (fun i => i)).
    + rewrite length_alter, <- (length_fmap (Session.with_teacher None) (store st0)).
      fold (forget_teachers (store st0)). rewrite Hforget. apply length_fmap.
    + intros i x y Hx Hy. cbn [fst snd]. unfold ref in *.
      destruct (decide (i = primary)) as [-> | Hne].
      * rewrite list_lookup_alter_eq, Hrow in Hx. injection Hx as <-.
        assert (Hy' : cell_of y = (Some day, slot, Some year_group)).
        { assert (Hin : primary ∈ primary :: extras) by apply list_elem_of_here.
          apply Hmem in Hin as (s & Hs & ?). congruence. }
        rewrite Hh, Hcell. split; [split |]; [by intros [? _] | done | by intros [? _]].
      * rewrite list_lookup_alter_ne in Hx by done.
        pose proof (Hothers i x Hne) as Hiff. split; [split |].
        -- intros [Hc Hk]. destruct Hiff as [Hiff _].
           destruct Hiff as [Hy2 _]; [done |]. congruence.
        -- intros Hc. destruct (Hothers i y Hne) as [_ Hback].
           destruct Hback as [Hy2 Hk]; [done |]. split; [| done]. congruence.
        -- intros [Hc Hk]. destruct Hiff as [Hiff _].
           destruct Hiff as [Hy2 _]; [done |]. congruence.
Qed.

(** The save keeps (I1). *)
Lemma saved_I1 (h : Session.t -> Session.t) :
  (forall s, cell_of (h s) = cell_of s) ->
  I1 table ->
  I1 (surviving (set_row (get_or_create_ref day slot year_group skill_id table).2 h
                   (get_or_create_ref day slot year_group skill_id table).1)).
Proof.
  intros Hh HI.
  destruct get_or_create_ref_facts as (row0 & Hrow & Hcell & _).
  unfold surviving, set_row. cbn [store deleted].
  apply I1_of_refs; [apply saved_rows_NoDup |].
  intros r1 s1 r2 s2 H1%(saved_rows h row0 Hrow) H2%(saved_rows h row0 Hrow) Hne Hg1 Hg2.
  destruct H1 as [[-> ->] | (Hn1 & Hs1 & Hc1)], H2 as [[-> ->] | (Hn2 & Hs2 & Hc2)].
  - done.
  - rewrite Hh, Hcell. congruence.
  - rewrite Hh, Hcell. congruence.
  - by apply (HI r1 r2).
Qed.

(** The save keeps the ids distinct. *)
Lemma saved_ids (h : Session.t -> Session.t) :
  (forall s, Session.id (h s) = Session.id s) ->
  NoDup (Session.id <$> table) ->
  NoDup (Session.id
           <$> surviving (set_row (get_or_create_ref day slot year_group skill_id table).2 h
                            (get_or_create_ref day slot year_group skill_id table).1)).
Proof.
  intros Hh Hids.
  destruct get_or_create_ref_facts as (row0 & Hrow & _ & _ & _ & Hfresh).
  unfold surviving, set_row. cbn [store deleted].
  apply NoDup_of_refs; [apply saved_rows_NoDup |].
  intros r1 s1 r2 s2 H1%(saved_rows h row0 Hrow) H2%(saved_rows h row0 Hrow) Hne.
  destruct H1 as [[-> ->] | (Hn1 & Hs1 & Hc1)], H2 as [[-> ->] | (Hn2 & Hs2 & Hc2)].
  - done.
  - rewrite Hh. intros Heq. by apply (Hfresh Hids r2 s2).
  - rewrite Hh. by apply (Hfresh Hids r1 s1).
  - intros Heq. apply Hne. unfold ref in *.
    apply (NoDup_lookup _ r1 r2 (Session.id s1) Hids).
    + by rewrite list_lookup_fmap, Hs1.
    + by rewrite list_lookup_fmap, Hs2, Heq.
Qed.

(** The save keeps (I2): the row saved gets no teacher, or a teacher for
    whom the query found no conflict among the rows as flushed. *)
Lemma saved_I2 (f h : Session.t -> Session.t) row0 :
  (forall s, cell_of (f s) = cell_of s) -> (forall s, cell_of (h s) = cell_of s) ->
  (forall s, Session.id (f s) = Session.id s) ->
  store (get_or_create_ref day slot year_group skill_id table).1
    !! (get_or_create_ref day slot year_group skill_id table).2 = Some row0 ->
  (forall tid,
     Session.assigned_teacher_id (h row0) = Some tid ->
     find_conflict day slot tid (Session.id row0)
       (surviving (set_row (get_or_create_ref day slot year_group skill_id table).2 f
                     (get_or_create_ref day slot year_group skill_id table).1))
     = None) ->
  NoDup (Session.id <$> table) -> I2 table ->
  I2 (surviving (set_row (get_or_create_ref day slot year_group skill_id table).2 h
                   (get_or_create_ref day slot year_group skill_id table).1)).
Proof.
  intros Hf Hh Hfid Hrow Hfree Hids HI.
  destruct get_or_create_ref_facts as (row0' & Hrow' & Hcell & _ & _ & Hfresh).
  assert (row0' = row0) as -> by congruence.
  assert (Hclash : forall r2 s2 tid,
            r2 <> (get_or_create_ref day slot year_group skill_id table).2 ->
            table !! r2 = Some s2 ->
            cell_of s2 <> (Some day, slot, Some year_group) ->
            Session.assigned_teacher_id (h row0) = Some tid ->
            Session.assigned_teacher_id s2 = Some tid ->
            hour_of s2 <> hour_of (h row0)).
  { intros r2 s2 tid Hn2 Hs2 Hc2 Ht Ht2 Hhour.
    specialize (Hfree tid Ht). unfold find_conflict in Hfree. apply head_None in Hfree.
    assert (Hin : s2 ∈ surviving
                         (set_row (get_or_create_ref day slot year_group skill_id table).2 f
                            (get_or_create_ref day slot year_group skill_id table).1)).
    { unfold surviving, set_row. cbn [store deleted].
      apply list_elem_of_fmap. exists (r2, s2). split; [done |].
      apply (saved_rows f row0 Hrow). right. done. }
    assert (Hmem : s2 ∈ @nil Session.t); [| by apply elem_of_nil in Hmem].
    rewrite <- Hfree. apply list_elem_of_filter. split; [| done].
    rewrite (hour_of_cell_of _ _ (Hh row0)) in Hhour. unfold hour_of in Hhour.
    unfold cell_of in Hcell.
    injection Hcell as Hd Hs Hy. rewrite Hd, Hs in Hhour. injection Hhour as Hd2 Hs2'.
    split; [done |]. split; [done |]. split; [done |].
    by apply (Hfresh Hids r2 s2). }
  unfold surviving, set_row. cbn [store deleted].
  apply I2_of_refs; [apply saved_rows_NoDup |].
  intros r1 s1 r2 s2 tid H1%(saved_rows h row0 Hrow) H2%(saved_rows h row0 Hrow)
    Hne Hg1 Hg2 Ht1 Ht2.
  destruct H1 as [[-> ->] | (Hn1 & Hs1 & Hc1)], H2 as [[-> ->] | (Hn2 & Hs2 & Hc2)].
  - done.
  - intros Heq. by apply (Hclash r2 s2 tid).
  - by apply (Hclash r1 s1 tid).
  - by apply (HI r1 r2 s1 s2 tid).
Qed.
End SaveCell.

Lemma with_teacher_with_skill_cell v k s :
  cell_of ((Session.with_teacher v ∘ Session.with_skill k) s) = cell_of s.
Proof. done. Qed.

(** [save_grid_session] raises no [KeyError]: the day it passes to the
    matcher is a day of the week. *)
Lemma save_grid_session_total
    form_day form_slot form_year_group required_skill_id assigned_teacher_id
    skills teachers table :
  is_Some (save_grid_session form_day form_slot form_year_group required_skill_id
             assigned_teacher_id skills teachers table).
Proof.
  unfold save_grid_session. cbn zeta.
  destruct (str_in (Py.strip form_day) WEEK_DAYS) eqn:Hday; simpl; [| eauto].
  destruct (negb (str_in (Py.strip form_slot) TEACHING_SLOTS)
            || negb (str_in (Py.strip form_year_group) YEAR_GROUPS)); [eauto |].
  destruct (if Py.truthy required_skill_id then _ else None) as [skill_id |]; [| eauto].
  destruct (Py.truthy assigned_teacher_id); [| eauto].
  destruct (assigned_teacher_id ≫= _) as [teacher |]; [| eauto].
  apply bool_decide_eq_true in Hday.
  destruct (teacher_is_available_for_slot_total (teacher_slot_tokens teacher)
              (Py.strip form_day) (Py.strip form_slot) Hday) as [available ->].
  simpl. destruct available; simpl; [| eauto].
  destruct (bool_decide (skill_id ∈ Teacher.skills teacher)); simpl; [| eauto].
  destruct (find_conflict _ _ _ _ _); eauto.
Qed.

(** When [save_grid_session] commits. *)
Lemma save_grid_session_Saved
    form_day form_slot form_year_group required_skill_id assigned_teacher_id
    skills teachers table table' session_id :
  save_grid_session form_day form_slot form_year_group required_skill_id
    assigned_teacher_id skills teachers table = Some (Saved table' session_id) ->
  Py.strip form_day ∈ WEEK_DAYS /\ Py.strip form_slot ∈ TEACHING_SLOTS
  /\ Py.strip form_year_group ∈ YEAR_GROUPS
  /\ exists k v row0,
       required_skill_id = Some k /\ k <> 0%Z /\ k ∈ skills
       /\ store (get_or_create_ref (Py.strip form_day) (Py.strip form_slot)
                   (Py.strip form_year_group) k table).1
            !! (get_or_create_ref (Py.strip form_day) (Py.strip form_slot)
                  (Py.strip form_year_group) k table).2 = Some row0
       /\ session_id = Session.id row0
       /\ table'
          = surviving
              (set_row (get_or_create_ref (Py.strip form_day) (Py.strip form_slot)
                          (Py.strip form_year_group) k table).2
                 (Session.with_teacher v ∘ Session.with_skill k)
                 (get_or_create_ref (Py.strip form_day) (Py.strip form_slot)
                    (Py.strip form_year_group) k table).1)
       /\ v = (if Py.truthy assigned_teacher_id then assigned_teacher_id else None)
       /\ (forall tid, v = Some tid ->
             (exists teacher,
                teacher ∈ teachers /\ Teacher.id teacher = tid
                /\ is_available teacher (Py.strip form_day) (Py.strip form_slot) = Some true
                /\ k ∈ Teacher.skills teacher)
             /\ find_conflict (Py.strip form_day) (Py.strip form_slot) tid (Session.id row0)
                  (surviving
                     (set_row (get_or_create_ref (Py.strip form_day) (Py.strip form_slot)
                                 (Py.strip form_year_group) k table).2
                        (Session.with_skill k)
                        (get_or_create_ref (Py.strip form_day) (Py.strip form_slot)
                           (Py.strip form_year_group) k table).1))
                = None).
Proof.
  unfold save_grid_session. cbn zeta.
  set (day := Py.strip form_day). set (slot := Py.strip form_slot).
  set (year_group := Py.strip form_year_group).
  destruct (str_in day WEEK_DAYS) eqn:Hday; cbn [negb orb]; [| done].
  destruct (str_in slot TEACHING_SLOTS) eqn:Hslot; cbn [negb orb]; [| done].
  destruct (str_in year_group YEAR_GROUPS) eqn:Hyear; cbn [negb orb]; [| done].
  apply bool_decide_eq_true in Hday, Hslot, Hyear.
  destruct required_skill_id as [k |]; [| done].
  unfold Py.truthy at 1. destruct (Z.eqb_spec k 0) as [| Hk]; [done |].
  cbn [negb mbind option_bind].
  unfold get_skill. case_bool_decide as Hskill; [| done].
  destruct (get_or_create_ref_facts day slot year_group k table)
    as (row0 & Hrow & _).
  set (created := get_or_create_ref day slot year_group k table) in *.
  assert (Hid : default 0%Z (Session.id <$> store (set_row created.2 (Session.with_skill k)
                                                    created.1) !! created.2)
                = Session.id row0).
  { unfold set_row. cbn [store]. unfold ref in *. by rewrite list_lookup_alter_eq, Hrow. }
  rewrite Hid.
  intros Hsave. split; [done |]. split; [done |]. split; [done |].
  destruct (Py.truthy assigned_teacher_id) eqn:Htruthy.
  - destruct assigned_teacher_id as [tid |]; [| done]. cbn [mbind option_bind] in Hsave.
    destruct (get_teacher tid teachers) as [teacher |] eqn:Hget; [| done].
    apply get_teacher_Some in Hget as [Hin <-].
    destruct (teacher_is_available_for_slot _ day slot) as [[|] |] eqn:Hav;
      cbn [mbind option_bind negb] in Hsave; [| done | done].
    case_bool_decide as Hhas; cbn [negb] in Hsave; [| done].
    destruct (find_conflict _ _ _ _ _) eqn:Hfree; [done |].
    injection Hsave as <- <-. rewrite set_row_compose.
    exists k, (Some (Teacher.id teacher)), row0.
    repeat (split; [done |]). intros tid' [= <-]. split; [| done].
    by exists teacher.
  - injection Hsave as <- <-. rewrite set_row_compose.
    exists k, None, row0. repeat (split; [done |]). done.
Qed.

(** X18: [save_grid_session] returns an outcome for every input: the matcher
    cannot raise, the day it is given has been validated. When it commits,
    the cell of the (stripped) form fields is a cell of the grid and holds
    exactly one row; that row has the id
    reported, the skill asked for, which is a skill of the skill table,
    and the teacher asked for, or none when the field was empty or 0; a
    teacher saved is a teacher of the teacher table, free at the day and
    slot and holding the skill; and the rows of the other cells are
    unchanged. *)
Theorem save_grid_session_saves_one_row
    (form_day form_slot form_year_group : string)
    (required_skill_id assigned_teacher_id : option Z)
    (skills : list Z) (teachers : list Teacher.t) (table : list Session.t) :
  exists outcome,
    save_grid_session form_day form_slot form_year_group required_skill_id
      assigned_teacher_id skills teachers table = Some outcome
    /\ match outcome with
       | Saved table' session_id =>
           exists row,
             filter (fun s => cell_of s = (Some (Py.strip form_day), Py.strip form_slot,
                                           Some (Py.strip form_year_group))) table'
             = [row]
             /\ in_grid row = true
             /\ Session.id row = session_id
             /\ required_skill_id = Some (Session.required_skill_id row)
             /\ Session.required_skill_id row ∈ skills
             /\ Session.assigned_teacher_id row
                = (if Py.truthy assigned_teacher_id then assigned_teacher_id else None)
             /\ (forall tid, Session.assigned_teacher_id row = Some tid ->
                   exists teacher,
                     teacher ∈ teachers /\ Teacher.id teacher = tid
                     /\ is_available teacher (Py.strip form_day) (Py.strip form_slot)
                        = Some true
                     /\ Session.required_skill_id row ∈ Teacher.skills teacher)
             /\ filter (fun s => cell_of s <> (Some (Py.strip form_day), Py.strip form_slot,
                                               Some (Py.strip form_year_group))) table'
                = filter (fun s => cell_of s <> (Some (Py.strip form_day), Py.strip form_slot,
                                                 Some (Py.strip form_year_group))) table
       | _ => True
       end.
Proof.
  destruct (save_grid_session_total form_day form_slot form_year_group required_skill_id
              assigned_teacher_id skills teachers table) as [outcome Hsave].
  exists outcome. split; [done |].
  destruct outcome as [| | | | | | table' session_id]; try done.
  apply save_grid_session_Saved in Hsave
    as (Hday & Hslot & Hyear & k & v & row0 & -> & Hk & Hskill & Hrow & -> & -> & Hv & Hvalid).
  exists ((Session.with_teacher v ∘ Session.with_skill k) row0).
  destruct (get_or_create_ref_facts (Py.strip form_day) (Py.strip form_slot)
              (Py.strip form_year_group) k table) as (row0' & Hrow' & Hcell & _).
  assert (row0' = row0) as -> by congruence.
  split; [by apply saved_cell_unique |].
  split.
  { apply in_grid_spec. exists (Py.strip form_day), (Py.strip form_year_group).
    unfold cell_of in Hcell. injection Hcell as Hd Hs Hy. cbn. by rewrite Hs. }
  split; [done |]. split; [done |]. split; [done |]. split; [done |]. split.
  - intros tid Htid. cbn in Htid. by destruct (Hvalid tid Htid) as [? _].
  - by apply saved_other_cells.
Qed.

(** X19: A save that commits keeps the table consistent: ids that were
    distinct stay distinct, and with distinct ids a table without
    duplicated cells stays without, and a table in which no teacher is
    booked twice in an hour stays so. *)
Theorem save_grid_session_keeps_invariants
    (form_day form_slot form_year_group : string)
    (required_skill_id assigned_teacher_id : option Z)
    (skills : list Z) (teachers : list Teacher.t) (table table' : list Session.t)
    (session_id : Z) :
  NoDup (Session.id <$> table) ->
  save_grid_session form_day form_slot form_year_group required_skill_id
    assigned_teacher_id skills teachers table = Some (Saved table' session_id) ->
  NoDup (Session.id <$> table') /\ (I1 table -> I1 table') /\ (I2 table -> I2 table').
Proof.
  intros Hids (Hday & Hslot & Hyear & k & v & row0 & -> & Hk & Hskill & Hrow & -> & -> & Hv
               & Hvalid)%save_grid_session_Saved.
  split; [by apply saved_ids |]. split; [by apply saved_I1 |].
  intros HI. apply (saved_I2 _ _ _ _ _ (Session.with_skill k) _ row0); try done.
  intros tid Htid. by destruct (Hvalid tid Htid) as [_ ?].
Qed.

Lemma save_grid_session_keeps_invariants_witness :
  NoDup (Session.id
           <$> [monday_8 1 1 "Grade 1" (Some 7%Z); monday_8 2 3 "Grade 2" (Some 8%Z)])
  /\ (I1 [monday_8 1 1 "Grade 1" (Some 7%Z); monday_8 2 1 "Grade 2" None] ->
      I1 [monday_8 1 1 "Grade 1" (Some 7%Z); monday_8 2 3 "Grade 2" (Some 8%Z)])
  /\ (I2 [monday_8 1 1 "Grade 1" (Some 7%Z); monday_8 2 1 "Grade 2" None] ->
      I2 [monday_8 1 1 "Grade 1" (Some 7%Z); monday_8 2 3 "Grade 2" (Some 8%Z)]).
Proof.
  apply (save_grid_session_keeps_invariants
           " Monday" "08:00-09:00" "Grade 2 " (Some 3%Z) (Some 8%Z) [1%Z; 3%Z]
           [Teacher.mk 8 "Bob" "monday 8:00" [3%Z]]
           [monday_8 1 1 "Grade 1" (Some 7%Z); monday_8 2 1 "Grade 2" None]
           [monday_8 1 1 "Grade 1" (Some 7%Z); monday_8 2 3 "Grade 2" (Some 8%Z)] 2).
  - apply (bool_decide_eq_true_1 (NoDup _)). vm_compute. reflexivity.
  - vm_compute. reflexivity.
Defined.

(** X20: Clearing a cell just saved removes the row saved and nothing else:
    what is left are the rows the other cells had before the save. *)
Theorem clear_after_save_restores_other_cells
    (form_day form_slot form_year_group : string)
    (required_skill_id assigned_teacher_id : option Z)
    (skills : list Z) (teachers : list Teacher.t) (table table' : list Session.t)
    (session_id : Z) :
  save_grid_session form_day form_slot form_year_group required_skill_id
    assigned_teacher_id skills teachers table = Some (Saved table' session_id) ->
  clear_grid_session form_day form_slot form_year_group table'
  = Cleared
      (filter (fun s => cell_of s <> (Some (Py.strip form_day), Py.strip form_slot,
                                      Some (Py.strip form_year_group))) table) 1.
Proof.
  intros (Hday & Hslot & Hyear & k & v & row0 & -> & Hk & Hskill & Hrow & -> & -> & Hv
          & Hvalid)%save_grid_session_Saved.
  unfold clear_grid_session. cbn zeta.
  rewrite (saved_cell_unique _ _ _ _ _ (Session.with_teacher v ∘ Session.with_skill k) row0)
    by done.
  by rewrite saved_other_cells.
Qed.

Lemma clear_after_save_restores_other_cells_witness :
  clear_grid_session " Monday" "08:00-09:00" "Grade 2 "
    [monday_8 1 1 "Grade 1" (Some 7%Z); monday_8 2 3 "Grade 2" (Some 8%Z)]
  = Cleared
      (filter (fun s => cell_of s <> (Some (Py.strip " Monday"), Py.strip "08:00-09:00",
                                      Some (Py.strip "Grade 2 ")))
         [monday_8 1 1 "Grade 1" (Some 7%Z); monday_8 2 1 "Grade 2" None]) 1.
Proof.
  apply (clear_after_save_restores_other_cells
           " Monday" "08:00-09:00" "Grade 2 " (Some 3%Z) (Some 8%Z) [1%Z; 3%Z]
           [Teacher.mk 8 "Bob" "monday 8:00" [3%Z]]
           [monday_8 1 1 "Grade 1" (Some 7%Z); monday_8 2 1 "Grade 2" None]
           [monday_8 1 1 "Grade 1" (Some 7%Z); monday_8 2 3 "Grade 2" (Some 8%Z)] 2).
  vm_compute. reflexivity.
Defined.

(** ** The normal form of a token *)

Lemma isspace_lower_char c : Py.isspace (Py.lower_char c) = Py.isspace c.
Proof. destruct c as [[] [] [] [] [] [] [] []]; vm_compute; reflexivity. Qed.

Lemma lower_char_idemp c : Py.lower_char (Py.lower_char c) = Py.lower_char c.
Proof. destruct c as [[] [] [] [] [] [] [] []]; vm_compute; reflexivity. Qed.

Lemma lower_idemp s : Py.lower (Py.lower s) = Py.lower s.
Proof. induction s as [| c s IH]; [done |]. simpl. by rewrite lower_char_idemp, IH. Qed.

Lemma lstrip_lower s : Py.lstrip (Py.lower s) = Py.lower (Py.lstrip s).
Proof.
  induction s as [| c s IH]; [done |]. simpl. rewrite isspace_lower_char.
  by destruct (Py.isspace c).
Qed.

Lemma rstrip_lower s : Py.rstrip (Py.lower s) = Py.lower (Py.rstrip s).
Proof.
  induction s as [| c s IH]; [done |]. simpl. rewrite IH, isspace_lower_char.
  destruct (Py.rstrip s); simpl; [| done]. by destruct (Py.isspace c).
Qed.

Lemma strip_lower s : Py.strip (Py.lower s) = Py.lower (Py.strip s).
Proof. unfold Py.strip. by rewrite lstrip_lower, rstrip_lower. Qed.

Lemma collapse_ws_lower b s :
  Py.collapse_ws b (Py.lower s) = Py.lower (Py.collapse_ws b s).
Proof.
  revert b. induction s as [| c s IH]; intros b; [done |]. simpl.
  rewrite isspace_lower_char. destruct (Py.isspace c); [destruct b |]; simpl;
    by rewrite IH.
Qed.

Lemma collapse_ws_idemp b s :
  Py.collapse_ws b (Py.collapse_ws b s) = Py.collapse_ws b s.
Proof.
  revert b. induction s as [| c s IH]; intros b; [done |]. simpl.
  destruct (Py.isspace c) eqn:Hc.
  - destruct b; [apply IH |]. simpl. by rewrite IH.
  - simpl. by rewrite Hc, IH.
Qed.

(** A string is left-stripped when it is empty or starts with a character
    that is not white space. *)
Lemma lstrip_head s :
  Py.lstrip s = EmptyString
  \/ exists c u, Py.lstrip s = String c u /\ Py.isspace c = false.
Proof.
  induction s as [| c s IH]; [by left |]. simpl.
  destruct (Py.isspace c) eqn:Hc; [done |]. right. by exists c, s.
Qed.

Lemma lstrip_fixed c u : Py.isspace c = false -> Py.lstrip (String c u) = String c u.
Proof. intros Hc. simpl. by rewrite Hc. Qed.

Lemma rstrip_cons c s :
  Py.rstrip (String c s)
  = match Py.rstrip s with
    | EmptyString => if Py.isspace c then EmptyString else String c EmptyString
    | r => String c r
    end.
Proof. done. Qed.

Lemma rstrip_idemp s : Py.rstrip (Py.rstrip s) = Py.rstrip s.
Proof.
  induction s as [| c s IH]; [done |]. rewrite rstrip_cons.
  destruct (Py.rstrip s) as [| c' r] eqn:Hr.
  - destruct (Py.isspace c) eqn:Hc; [done |]. simpl. by rewrite Hc.
  - by rewrite rstrip_cons, IH.
Qed.

Lemma rstrip_head c u :
  Py.isspace c = false -> exists r, Py.rstrip (String c u) = String c r.
Proof.
  intros Hc. simpl. destruct (Py.rstrip u) as [| c' r]; [| by eexists].
  rewrite Hc. by eexists.
Qed.

Lemma lstrip_strip s : Py.lstrip (Py.strip s) = Py.strip s.
Proof.
  unfold Py.strip. destruct (lstrip_head s) as [-> | (c & u & -> & Hc)]; [done |].
  destruct (rstrip_head c u Hc) as [r ->]. by apply lstrip_fixed.
Qed.

Lemma rstrip_strip s : Py.rstrip (Py.strip s) = Py.strip s.
Proof. apply rstrip_idemp. Qed.

Lemma strip_idemp s : Py.strip (Py.strip s) = Py.strip s.
Proof. unfold Py.strip at 1. by rewrite lstrip_strip, rstrip_strip. Qed.

Lemma collapse_ws_nonempty b s :
  Py.rstrip s <> EmptyString -> Py.collapse_ws b s <> EmptyString.
Proof.
  revert b. induction s as [| c s IH]; intros b; [done |]. simpl.
  destruct (Py.isspace c).
  - destruct (Py.rstrip s) eqn:Hr; [done |]. intros _.
    destruct b; [by apply IH |]. done.
  - done.
Qed.

Lemma rstrip_collapse_ws b s :
  Py.rstrip s = s -> Py.rstrip (Py.collapse_ws b s) = Py.collapse_ws b s.
Proof.
  revert b. induction s as [| c s IH]; intros b; [done |]. simpl.
  destruct (Py.rstrip s) as [| c' r] eqn:Hr.
  - destruct (Py.isspace c) eqn:Hc; [done |]. intros [= <-]. simpl. by rewrite Hc.
  - intros [= <-].
    assert (Hne : forall b', Py.collapse_ws b' (String c' r) <> EmptyString).
    { intros b'. apply collapse_ws_nonempty. by rewrite Hr. }
    destruct (Py.isspace c) eqn:Hc.
    + destruct b; [by apply IH |].
      rewrite rstrip_cons, (IH true eq_refl).
      by destruct (Py.collapse_ws true (String c' r)) eqn:Hx; [destruct (Hne true) |].
    + rewrite rstrip_cons, (IH false eq_refl).
      destruct (Py.collapse_ws false (String c' r)) eqn:Hx; [| done].
      by rewrite Hc.
Qed.

Lemma lstrip_collapse_ws s :
  Py.lstrip s = s -> Py.lstrip (Py.collapse_ws false s) = Py.collapse_ws false s.
Proof.
  intros Hs. destruct (lstrip_head s) as [He | (c & u & He & Hc)]; rewrite Hs in He;
    subst s; [done |].
  simpl. rewrite Hc. simpl. by rewrite Hc.
Qed.

Lemma strip_collapse_ws s :
  Py.strip (Py.collapse_ws false (Py.strip s)) = Py.collapse_ws false (Py.strip s).
Proof.
  unfold Py.strip at 1.
  rewrite lstrip_collapse_ws by apply lstrip_strip.
  apply rstrip_collapse_ws, rstrip_strip.
Qed.

(** X21: [normalize] returns a normal form: it leaves its own results as they
    are. The result has no white space at either end, no upper-case
    letter, and no white space but single spaces. *)
Theorem normalize_idempotent (text : string) :
  normalize (normalize text) = normalize text
  /\ Py.strip (normalize text) = normalize text
  /\ Py.lower (normalize text) = normalize text
  /\ Py.collapse_ws false (normalize text) = normalize text.
Proof.
  assert (Hs : Py.strip (normalize text) = normalize text).
  { unfold normalize. by rewrite collapse_ws_lower, strip_lower, strip_collapse_ws. }
  assert (Hl : Py.lower (normalize text) = normalize text).
  { unfold normalize. by rewrite collapse_ws_lower, lower_idemp. }
  assert (Hc : Py.collapse_ws false (normalize text) = normalize text).
  { unfold normalize. by rewrite collapse_ws_idemp. }
  split; [| done]. unfold normalize at 1. by rewrite Hs, Hl, Hc.
Qed.

(** ** Multi-value fields *)

Section Fields.
Variable sep : ascii -> bool.

Lemma split_not_nil s : Py.split sep s <> [].
Proof.
  induction s as [| c s IH]; [done |]. simpl.
  destruct (sep c); [done |]. by destruct (Py.split sep s).
Qed.

Lemma split_free s : Forall (fun p => free_of sep p = true) (Py.split sep s).
Proof.
  induction s as [| c s IH]; [by repeat constructor |]. simpl.
  destruct (sep c) eqn:Hc; [by constructor |].
  destruct (Py.split sep s) as [| p ps]; [repeat constructor; simpl; by rewrite Hc |].
  apply Forall_cons in IH as [Hp Hps]. constructor; [| done]. simpl. by rewrite Hc.
Qed.

Lemma split_single p : free_of sep p = true -> Py.split sep p = [p].
Proof.
  induction p as [| c p IH]; [done |]. simpl.
  intros [Hc Hp]%andb_true_iff. apply negb_true_iff in Hc. rewrite Hc.
  by rewrite (IH Hp).
Qed.

Lemma split_app_sep p d rest :
  free_of sep p = true -> sep d = true ->
  Py.split sep (p +:+ String d rest) = p :: Py.split sep rest.
Proof.
  intros Hp Hd. induction p as [| c p IH]; simpl.
  - by rewrite Hd.
  - simpl in Hp. apply andb_true_iff in Hp as [Hc Hp]. apply negb_true_iff in Hc.
    by rewrite Hc, (IH Hp).
Qed.

Lemma lstrip_free s : free_of sep s = true -> free_of sep (Py.lstrip s) = true.
Proof.
  induction s as [| c s IH]; [done |]. simpl.
  intros [Hc Hs]%andb_true_iff. destruct (Py.isspace c); [by apply IH |].
  simpl. by rewrite Hc, Hs.
Qed.

Lemma rstrip_free s : free_of sep s = true -> free_of sep (Py.rstrip s) = true.
Proof.
  induction s as [| c s IH]; [done |]. intros Hall. simpl in Hall.
  apply andb_true_iff in Hall as [Hc Hs]. specialize (IH Hs). rewrite rstrip_cons.
  destruct (Py.rstrip s) as [| c' r].
  - destruct (Py.isspace c); [done |]. simpl. by rewrite Hc.
  - change (free_of sep (String c (String c' r)))
      with (negb (sep c) && free_of sep (String c' r)).
    by rewrite Hc, IH.
Qed.

Lemma strip_free s : free_of sep s = true -> free_of sep (Py.strip s) = true.
Proof. intros Hs. by apply rstrip_free, lstrip_free. Qed.
End Fields.

Lemma stripped_ends s :
  Py.strip s = s -> Py.lstrip s = s /\ Py.rstrip s = s.
Proof. intros <-. split; [apply lstrip_strip | apply rstrip_strip]. Qed.

Lemma strip_after_space s : Py.strip (String " " s) = Py.strip s.
Proof. done. Qed.

Lemma rstrip_app a b :
  Py.rstrip b <> EmptyString -> Py.rstrip (a +:+ b) = a +:+ Py.rstrip b.
Proof.
  intros Hb. induction a as [| c a IH]; [done |].
  change (String c a +:+ b) with (String c (a +:+ b)).
  change (String c a +:+ Py.rstrip b) with (String c (a +:+ Py.rstrip b)).
  rewrite rstrip_cons, IH.
  destruct (a +:+ Py.rstrip b) eqn:Hab; [| done].
  destruct a; [by simpl in Hab | done].
Qed.

Lemma lstrip_app a b :
  a <> EmptyString -> Py.lstrip a = a -> Py.lstrip (a +:+ b) = a +:+ b.
Proof.
  intros Hne Ha. destruct (lstrip_head a) as [He | (c & u & He & Hc)]; rewrite Ha in He;
    subst a; [done |].
  change (String c u +:+ b) with (String c (u +:+ b)). by apply lstrip_fixed.
Qed.


(** The items of a field are non-empty, stripped, and free of
    separators. *)
Lemma split_multi_value_field_items value :
  Forall (fun item => Py.nonempty item = true /\ Py.strip item = item
                      /\ free_of is_multi_sep item = true)
    (split_multi_value_field value).
Proof.
  unfold split_multi_value_field. destruct (Py.nonempty (Py.strip value)); [| constructor].
  apply Forall_forall.
  intros item [Hne (p & -> & Hp)%list_elem_of_fmap]%list_elem_of_filter.
  split; [by apply Is_true_true |]. split; [apply strip_idemp |].
  apply strip_free. pose proof (split_free is_multi_sep (Py.strip value)) as Hfree.
  rewrite Forall_forall in Hfree. by apply Hfree.
Qed.

Lemma nonempty_not_empty s : Py.nonempty s = true <-> s <> EmptyString.
Proof. by destruct s. Qed.

Lemma join_cons2 (sep a b : string) (rest : list string) :
  Py.join sep (a :: b :: rest) = a +:+ sep +:+ Py.join sep (b :: rest).
Proof. done. Qed.

Lemma append_not_empty a b : a <> EmptyString -> a +:+ b <> EmptyString.
Proof. by destruct a. Qed.

(** A joined list of items is stripped. *)
Lemma join_items_stripped (items : list string) :
  items <> [] ->
  Forall (fun item => Py.nonempty item = true /\ Py.strip item = item
                      /\ free_of is_multi_sep item = true) items ->
  Py.join ", " items <> EmptyString
  /\ Py.lstrip (Py.join ", " items) = Py.join ", " items
  /\ Py.rstrip (Py.join ", " items) = Py.join ", " items.
Proof.
  intros Hne Hall. induction Hall as [| item rest (Hn & Hs & _) Hrest IH]; [done |].
  apply nonempty_not_empty in Hn. apply stripped_ends in Hs as [Hl Hr].
  destruct rest as [| b rest]; [done |].
  destruct IH as (IHn & _ & IHr); [done |].
  rewrite join_cons2. split; [by apply append_not_empty |]. split.
  - by apply lstrip_app.
  - assert (Hb : Py.rstrip (", " +:+ Py.join ", " (b :: rest))
                 = ", " +:+ Py.join ", " (b :: rest)).
    { rewrite rstrip_app; by rewrite IHr. }
    rewrite rstrip_app; rewrite Hb; [done |]. done.
Qed.

(** Splitting a joined list of items gives the items back, each but the
    first after a space. *)
Lemma split_join_items (items : list string) :
  Forall (fun item => Py.nonempty item = true /\ Py.strip item = item
                      /\ free_of is_multi_sep item = true) items ->
  Py.split is_multi_sep (Py.join ", " items)
  = match items with
    | [] => [EmptyString]
    | item :: rest => item :: (String " " <$> rest)
    end.
Proof.
  induction 1 as [| item rest (_ & _ & Hfree) Hrest IH]; [done |].
  destruct rest as [| b rest]; [by apply split_single |].
  rewrite join_cons2.
  change (", " +:+ Py.join ", " (b :: rest))
    with (String "," (String " " (Py.join ", " (b :: rest)))).
  rewrite split_app_sep by done. f_equal.
  change (Py.split is_multi_sep (String " " (Py.join ", " (b :: rest))))
    with (match Py.split is_multi_sep (Py.join ", " (b :: rest)) with
          | [] => [String " " EmptyString]
          | p :: ps => String " " p :: ps
          end).
  by rewrite IH.
Qed.

(** X22: The stored form of a free-time field reads back as the same items:
    [normalize_slot_csv] loses nothing that [split_multi_value_field]
    keeps, and normalising twice is normalising once. Every item is
    non-empty, stripped, and holds no separator. A teacher stored with the
    normalised field has the tokens, and so the availability, of the field
    as typed. *)
Theorem normalize_slot_csv_round_trip (value : string) :
  split_multi_value_field (normalize_slot_csv value) = split_multi_value_field value
  /\ normalize_slot_csv (normalize_slot_csv value) = normalize_slot_csv value
  /\ Forall (fun item => item <> EmptyString /\ Py.strip item = item
                         /\ free_of is_multi_sep item = true)
       (split_multi_value_field value)
  /\ (forall id name skills day slot,
        is_available (Teacher.mk id name (normalize_slot_csv value) skills) day slot
        = is_available (Teacher.mk id name value skills) day slot).
Proof.
  pose proof (split_multi_value_field_items value) as Hitems.
  assert (Hround : split_multi_value_field (normalize_slot_csv value)
                   = split_multi_value_field value).
  { unfold normalize_slot_csv.
    destruct (split_multi_value_field value) as [| item rest] eqn:Hsplit; [done |].
    destruct (join_items_stripped (item :: rest)) as (Hne & Hl & Hr); [done | done |].
    assert (Hstrip : Py.strip (Py.join ", " (item :: rest)) = Py.join ", " (item :: rest)).
    { unfold Py.strip. by rewrite Hl, Hr. }
    unfold split_multi_value_field at 1. cbv zeta. rewrite !Hstrip.
    apply nonempty_not_empty in Hne. rewrite Hne.
    rewrite split_join_items by done.
    apply Forall_cons in Hitems as [(Hn & Hs & _) Hrest].
    rewrite fmap_cons, filter_cons, Hs, Hn, decide_True by done. f_equal.
    clear Hsplit Hl Hr Hne Hstrip. induction Hrest as [| b rest' (Hbn & Hbs & _) _ IH]; [done |].
    rewrite !fmap_cons, filter_cons, strip_after_space, Hbs, Hbn, decide_True by done.
    by rewrite IH. }
  split; [done |]. split; [unfold normalize_slot_csv at 1 3; by rewrite Hround |].
  split.
  - eapply Forall_impl; [exact Hitems |]. intros item (Hn & ? & ?).
    by apply nonempty_not_empty in Hn.
  - intros id name skills day slot. unfold is_available, teacher_slot_tokens. simpl.
    by rewrite Hround.
Qed.

(** ** The hour a token names *)

Lemma timetable_aliases_complete :
  Forall (fun day =>
            Forall (fun slot =>
                      (day, slot, default [] (slot_aliases day slot)) ∈ timetable_aliases)
              (fst <$> TIME_ROWS))
    WEEK_DAYS.
Proof.
  apply (bool_decide_eq_true_1 (Forall _ WEEK_DAYS)). vm_compute. reflexivity.
Qed.

Lemma timetable_aliases_disjoint :
  Forall (fun hour1 =>
            Forall (fun hour2 =>
                      hour1 = hour2
                      \/ Forall (fun alias => alias ∉ hour2.2) hour1.2)
              timetable_aliases)
    timetable_aliases.
Proof.
  apply (bool_decide_eq_true_1 (Forall _ timetable_aliases)). vm_compute. reflexivity.
Qed.

(** X23: A token names at most one hour of the week: the alias sets of two
    different (day, slot) pairs of the timetable, lunch included, have no
    spelling in common. So an item of a free-time field makes a teacher
    available in one hour only. *)
Theorem token_names_one_hour
    (token day1 slot1 day2 slot2 : string) (aliases1 aliases2 : list string) :
  day1 ∈ WEEK_DAYS -> slot1 ∈ fst <$> TIME_ROWS ->
  day2 ∈ WEEK_DAYS -> slot2 ∈ fst <$> TIME_ROWS ->
  slot_aliases day1 slot1 = Some aliases1 ->
  slot_aliases day2 slot2 = Some aliases2 ->
  token ∈ aliases1 -> token ∈ aliases2 ->
  day1 = day2 /\ slot1 = slot2.
Proof.
  intros Hd1 Hs1 Hd2 Hs2 Ha1 Ha2 Ht1 Ht2.
  pose proof timetable_aliases_complete as Hin. rewrite Forall_forall in Hin.
  pose proof (Hin day1 Hd1) as H1. rewrite Forall_forall in H1.
  specialize (H1 slot1 Hs1). rewrite Ha1 in H1. simpl in H1.
  pose proof (Hin day2 Hd2) as H2. rewrite Forall_forall in H2.
  specialize (H2 slot2 Hs2). rewrite Ha2 in H2. simpl in H2.
  pose proof timetable_aliases_disjoint as Hall.
  rewrite Forall_forall in Hall. specialize (Hall _ H1).
  rewrite Forall_forall in Hall. specialize (Hall _ H2).
  destruct Hall as [[= -> ->] | Hdisjoint]; [done |].
  simpl in Hdisjoint. rewrite Forall_forall in Hdisjoint.
  by destruct (Hdisjoint token Ht1).
Qed.

Lemma token_names_one_hour_witness :
  "Monday" = "Monday" /\ "09:00-10:00" = "09:00-10:00".
Proof.
  apply (token_names_one_hour "mon 9:00" "Monday" "09:00-10:00" "Monday" "09:00-10:00"
           monday_9_aliases monday_9_aliases).
  - apply (bool_decide_eq_true_1 ("Monday" ∈ WEEK_DAYS)). vm_compute; reflexivity.
  - apply (bool_decide_eq_true_1 ("09:00-10:00" ∈ fst <$> TIME_ROWS)). vm_compute; reflexivity.
  - apply (bool_decide_eq_true_1 ("Monday" ∈ WEEK_DAYS)). vm_compute; reflexivity.
  - apply (bool_decide_eq_true_1 ("09:00-10:00" ∈ fst <$> TIME_ROWS)). vm_compute; reflexivity.
  - vm_compute. reflexivity.
  - vm_compute. reflexivity.
  - apply (bool_decide_eq_true_1 ("mon 9:00" ∈ monday_9_aliases)). vm_compute; reflexivity.
  - apply (bool_decide_eq_true_1 ("mon 9:00" ∈ monday_9_aliases)). vm_compute; reflexivity.
Defined.

(** ** The order of the rows does not matter *)

Section SortUnique.
Context {K A : Type} (leb : K -> K -> bool).
Context (leb_total : forall a b, leb a b = true \/ leb b a = true).
Context (leb_trans : forall a b c, leb a b = true -> leb b c = true -> leb a c = true).
Context (leb_antisym : forall a b, leb a b = true -> leb b a = true -> a = b).

Lemma NoDup_fmap_same {B} (f : A -> B) (l : list A) a b :
  NoDup (f <$> l) -> a ∈ l -> b ∈ l -> f a = f b -> a = b.
Proof.
  intros Hnd [i Hi]%list_elem_of_lookup_1 [j Hj]%list_elem_of_lookup_1 Heq.
  assert (i = j) as ->; [| congruence].
  apply (NoDup_lookup _ i j (f a) Hnd).
  - by rewrite list_lookup_fmap, Hi.
  - by rewrite list_lookup_fmap, Hj, Heq.
Qed.

(** With keys that are pairwise different a sort does not depend on the
    order of its input. *)
Lemma sort_by_unique (key : A -> K) (l l' : list A) :
  NoDup (key <$> l) -> l' ≡ₚ l -> sort_by leb key l' = sort_by leb key l.
Proof.
  intros Hnd Hperm. unfold sort_by. f_equal.
  apply (StronglySorted_unique_strong (fun a b : K * A => leb a.1 b.1 = true)).
  - intros [k1 a1] [k2 a2] H1 H2 H12 H21. simpl in *.
    rewrite sort_decorated_perm in H1, H2.
    apply list_elem_of_fmap in H1 as (a & [= -> ->] & Ha).
    apply list_elem_of_fmap in H2 as (b & [= -> ->] & Hb).
    rewrite Hperm in Ha.
    by rewrite (NoDup_fmap_same key l a b Hnd Ha Hb (leb_antisym _ _ H12 H21)).
  - by apply sort_decorated_sorted.
  - by apply sort_decorated_sorted.
  - by rewrite !sort_decorated_perm, Hperm.
Qed.

(** A sort whose keys cannot raise is the sort by these keys. *)
Lemma sort_by_key_sort_by (key : A -> option K) (key' : A -> K) (l : list A) :
  Forall (fun x => key x = Some (key' x)) l ->
  sort_by_key leb key l = Some (sort_by leb key' l).
Proof.
  intros Hall. unfold sort_by_key, sort_by.
  assert (Hks : mapM (fun x => k ← key x; Some (k, x)) l
                = Some ((fun x => (key' x, x)) <$> l)).
  { apply mapM_Some. apply Forall2_fmap_r, Forall_Forall2_diag.
    eapply Forall_impl; [exact Hall |]. intros x Hx. simpl. by rewrite Hx. }
  by rewrite Hks.
Qed.
End SortUnique.

Lemma triple_leb_antisym a b : triple_leb a b = true -> triple_leb b a = true -> a = b.
Proof.
  destruct a as [a1 [a2 a3]], b as [b1 [b2 b3]]. unfold triple_leb, pair_leb. simpl.
  rewrite !orb_true_iff, !andb_true_iff, !orb_true_iff, !andb_true_iff.
  rewrite !Nat.ltb_lt, !Nat.eqb_eq, !Nat.leb_le. intros H1 H2.
  assert (a1 = b1 /\ a2 = b2 /\ a3 = b3) as (-> & -> & ->) by lia. done.
Qed.

(** The position of a value in a vocabulary names the value. *)
Lemma dict_get_imap_Some (g : nat -> nat) key values n :
  dict_get key (imap (fun idx value => (value, g idx)) values) = Some n ->
  exists i, n = g i /\ values !! i = Some key.
Proof.
  revert g. induction values as [| v values IH]; intros g; [done |].
  rewrite imap_cons. simpl. case_bool_decide as Hv.
  - intros [= <-]. exists 0. by subst.
  - intros (i & -> & Hi)%(IH (g ∘ S)). by exists (S i).
Qed.

Lemma enumerate_dict_inj values key1 key2 n :
  dict_get key1 (enumerate_dict values) = Some n ->
  dict_get key2 (enumerate_dict values) = Some n -> key1 = key2.
Proof.
  intros (i & -> & Hi)%(dict_get_imap_Some id) (j & Hij & Hj)%(dict_get_imap_Some id).
  simpl in Hij. subst j. congruence.
Qed.

Lemma session_sort_key_inj s1 s2 k :
  session_sort_key s1 = Some k -> session_sort_key s2 = Some k -> cell_of s1 = cell_of s2.
Proof.
  unfold session_sort_key, cell_of. intros H1 H2.
  destruct (Session.day s1) as [d1 |]; [| done].
  destruct (Session.year_group s1) as [y1 |]; [| done].
  destruct (Session.day s2) as [d2 |]; [| done].
  destruct (Session.year_group s2) as [y2 |]; [| done].
  cbn [mbind option_bind] in H1, H2.
  destruct (dict_get d1 day_order) as [i1 |] eqn:Hd1; [| done].
  destruct (dict_get (Session.slot s1) slot_order) as [j1 |] eqn:Hs1; [| done].
  destruct (dict_get y1 year_order) as [k1 |] eqn:Hy1; [| done].
  destruct (dict_get d2 day_order) as [i2 |] eqn:Hd2; [| done].
  destruct (dict_get (Session.slot s2) slot_order) as [j2 |] eqn:Hs2; [| done].
  destruct (dict_get y2 year_order) as [k2 |] eqn:Hy2; [| done].
  cbn [mbind option_bind] in H1, H2. injection H1 as <-. injection H2 as -> -> ->.
  rewrite (enumerate_dict_inj _ _ _ _ Hd1 Hd2), (enumerate_dict_inj _ _ _ _ Hs1 Hs2),
    (enumerate_dict_inj _ _ _ _ Hy1 Hy2). done.
Qed.

(** Under (I1) the grid rows have pairwise different cells. *)
Lemma I1_grid_cells_NoDup (table : list Session.t) :
  I1 table -> NoDup (cell_of <$> filter (fun s => in_grid s) table).
Proof.
  intros HI. rewrite (filter_rows _ table).
  apply NoDup_of_refs.
  - apply (NoDup_fmap_fst (filter _ _)).
    + intros r s1 s2 [_ H1%elem_of_rows]%list_elem_of_filter
        [_ H2%elem_of_rows]%list_elem_of_filter. congruence.
    + apply NoDup_filter, rows_are_NoDup.
  - intros r1 s1 r2 s2 [Hg1 H1%elem_of_rows]%list_elem_of_filter
      [Hg2 H2%elem_of_rows]%list_elem_of_filter Hne.
    apply (HI r1 r2); try done; by apply Is_true_true.
Qed.

(** X24: The rows of a table and the teachers reach [allocate_sessions] in an
    order the data base chooses. On a table without duplicated cells, and
    with teachers whose names are pairwise different, the result of a run
    does not depend on that order. *)
Theorem allocate_independent_of_row_order
    (teachers teachers' : list Teacher.t) (table table' : list Session.t) :
  I1 table -> table' ≡ₚ table ->
  NoDup (Teacher.name <$> teachers) -> teachers' ≡ₚ teachers ->
  allocate_sessions teachers' table' = allocate_sessions teachers table.
Proof.
  intros HI Htable Hnames Hteachers. unfold allocate_sessions.
  assert (Hrows : teachers_by_name teachers' = teachers_by_name teachers).
  { apply (sort_by_unique String.leb); try done.
    - apply String.leb_total.
    - apply string_leb_trans.
    - apply String.leb_antisym. }
  set (key' := fun s => default (0, (0, 0)) (session_sort_key s)).
  assert (Hkeys : forall l : list Session.t,
            l ≡ₚ filter (fun s => in_grid s) table ->
            Forall (fun s => session_sort_key s = Some (key' s)) l).
  { intros l Hl. apply Forall_forall. intros s Hs. rewrite Hl in Hs.
    apply list_elem_of_filter in Hs as [Hs _]. apply Is_true_true in Hs.
    destruct (session_sort_key_total s Hs) as [k Hk]. unfold key'. by rewrite Hk. }
  assert (Hfilter : filter (fun s => in_grid s) table' ≡ₚ filter (fun s => in_grid s) table)
    by (by rewrite Htable).
  rewrite (sort_by_key_sort_by triple_leb _ key' _ (Hkeys _ Hfilter)).
  rewrite (sort_by_key_sort_by triple_leb _ key' _ (Hkeys _ (reflexivity _))).
  rewrite (sort_by_unique triple_leb triple_leb_total triple_leb_trans triple_leb_antisym
             key' (filter (fun s => in_grid s) table) (filter (fun s => in_grid s) table'));
    [by rewrite Hrows | | done].
  apply (NoDup_fmap_2_strong key').
  - intros s1 s2 Hs1 Hs2 Heq.
    pose proof (Hkeys _ (reflexivity _)) as Hall. rewrite Forall_forall in Hall.
    pose proof (Hall s1 Hs1) as Hk1. pose proof (Hall s2 Hs2) as Hk2. rewrite Heq in Hk1.
    pose proof (session_sort_key_inj s1 s2 _ Hk1 Hk2) as Hcell.
    by apply (NoDup_fmap_same cell_of (filter (fun s => in_grid s) table) s1 s2
                (I1_grid_cells_NoDup table HI)).
  - apply (NoDup_fmap_1 cell_of), I1_grid_cells_NoDup, HI.
Qed.

Lemma allocate_independent_of_row_order_witness :
  allocate_sessions
    [Teacher.mk 2 "Bob" "monday 8:00" [1%Z]; Teacher.mk 1 "Ann" "Mon 08:00-09:00" [1%Z]]
    [monday_8 2 1 "Grade 2" None; monday_8 1 1 "Grade 1" None]
  = allocate_sessions
      [Teacher.mk 1 "Ann" "Mon 08:00-09:00" [1%Z]; Teacher.mk 2 "Bob" "monday 8:00" [1%Z]]
      [monday_8 1 1 "Grade 1" None; monday_8 2 1 "Grade 2" None].
Proof.
  apply allocate_independent_of_row_order.
  - intros i j si sj Hi Hj Hne _ _.
    destruct i as [| [| i]], j as [| [| j]]; simpl in Hi, Hj; try done;
      injection Hi as <-; injection Hj as <-; discriminate.
  - apply perm_swap.
  - apply (bool_decide_eq_true_1 (NoDup _)). vm_compute. reflexivity.
  - apply perm_swap.
Defined.

(** ** The import of skills *)

Section ImportSkills.
Variable skill_names : list string.

Lemma import_skill_name_inv st name :
  skills_import_inv skill_names st ->
  skills_import_inv skill_names (import_skill_name st name)
  /\ normalize name ∈ existing (import_skill_name st name)
  /\ added st `prefix_of` added (import_skill_name st name)
  /\ inserted_count (import_skill_name st name) + skipped_count (import_skill_name st name)
     = S (inserted_count st + skipped_count st).
Proof.
  intros (Hkeys & Hnd & Hnew & Hcount). unfold import_skill_name.
  case_bool_decide as Hin; unfold skills_import_inv;
    cbn [existing added inserted_count skipped_count].
  - split; [done |]. split; [done |]. split; [done | lia].
  - assert (Hout : normalize name ∉ normalize <$> (skill_names ++ added st))
      by (by rewrite <- Hkeys).
    rewrite fmap_app in Hout. apply not_elem_of_app in Hout as [Hout1 Hout2].
    split; [| split; [| split; [by apply prefix_app_r | lia]]].
    2: { apply elem_of_union. left. by apply elem_of_singleton. }
    split; [| split; [| split]].
    + intros key. rewrite elem_of_union, elem_of_singleton, Hkeys.
      rewrite !fmap_app, !elem_of_app, fmap_cons, list_elem_of_singleton. tauto.
    + rewrite fmap_app. apply NoDup_app. split; [done |]. split.
      * intros x Hx ->%list_elem_of_singleton. done.
      * apply NoDup_singleton.
    + intros n [Hn | ->%list_elem_of_singleton]%elem_of_app; [by apply Hnew | done].
    + rewrite length_app. simpl. lia.
Qed.

Lemma import_skill_names_inv names st :
  skills_import_inv skill_names st ->
  skills_import_inv skill_names (foldl import_skill_name st names)
  /\ (forall name, name ∈ names ->
        normalize name ∈ existing (foldl import_skill_name st names))
  /\ (forall key, key ∈ existing st -> key ∈ existing (foldl import_skill_name st names))
  /\ added st `prefix_of` added (foldl import_skill_name st names)
  /\ inserted_count (foldl import_skill_name st names)
     + skipped_count (foldl import_skill_name st names)
     = inserted_count st + skipped_count st + length names.
Proof.
  revert st. induction names as [| name names IH]; intros st Hinv.
  - simpl. split; [done |]. split; [by intros ? ?%elem_of_nil |]. split; [done |].
    split; [done | lia].
  - cbn [foldl].
    destruct (import_skill_name_inv st name Hinv) as (Hinv1 & Hname & Hpre1 & Hcount1).
    destruct (IH _ Hinv1) as (Hinv2 & Hnames & Hmono & Hpre2 & Hcount2).
    assert (Hmono1 : forall key, key ∈ existing st -> key ∈ existing (import_skill_name st name)).
    { intros key Hkey. unfold import_skill_name.
      case_bool_decide; simpl; [done | apply elem_of_union; by right]. }
    split; [done |]. split; [| split; [| split]].
    + intros n [-> | Hn]%elem_of_cons; [by apply Hmono | by apply Hnames].
    + intros key Hkey. by apply Hmono, Hmono1.
    + by etrans.
    + simpl. lia.
Qed.

Lemma import_skills_row_inv st row :
  skills_import_inv skill_names st ->
  skills_import_inv skill_names (import_skills_row st row)
  /\ (forall name,
        name ∈ split_multi_value_field (find_row_value row ["name"; "skill"; "skill_name"]) ->
        normalize name ∈ existing (import_skills_row st row))
  /\ (forall key, key ∈ existing st -> key ∈ existing (import_skills_row st row))
  /\ added st `prefix_of` added (import_skills_row st row)
  /\ inserted_count (import_skills_row st row) + skipped_count (import_skills_row st row)
     = inserted_count st + skipped_count st + offered row.
Proof.
  intros Hinv. unfold import_skills_row, offered. cbn zeta.
  destruct (split_multi_value_field _) as [| name names] eqn:Hnames.
  - destruct Hinv as (? & ? & ? & ?). cbn [existing added inserted_count skipped_count].
    split; [done |]. split; [by intros ? ?%elem_of_nil |]. split; [done |].
    split; [done | lia].
  - by apply import_skill_names_inv.
Qed.

Lemma import_skills_rows_inv rows st :
  skills_import_inv skill_names st ->
  skills_import_inv skill_names (foldl import_skills_row st rows)
  /\ (forall row name,
        row ∈ rows ->
        name ∈ split_multi_value_field (find_row_value row ["name"; "skill"; "skill_name"]) ->
        normalize name ∈ existing (foldl import_skills_row st rows))
  /\ (forall key, key ∈ existing st -> key ∈ existing (foldl import_skills_row st rows))
  /\ inserted_count (foldl import_skills_row st rows)
     + skipped_count (foldl import_skills_row st rows)
     = inserted_count st + skipped_count st + sum_list (offered <$> rows).
Proof.
  revert st. induction rows as [| row rows IH]; intros st Hinv.
  - simpl. split; [done |]. split; [by intros ? ? ?%elem_of_nil |]. split; [done | lia].
  - cbn [foldl].
    destruct (import_skills_row_inv st row Hinv) as (Hinv1 & Hnames1 & Hmono1 & _ & Hcount1).
    destruct (IH _ Hinv1) as (Hinv2 & Hnames2 & Hmono2 & Hcount2).
    split; [done |]. split; [| split].
    + intros r n [-> | Hr]%elem_of_cons Hn; [by apply Hmono2, Hnames1 | by eapply Hnames2].
    + intros key Hkey. by apply Hmono2, Hmono1.
    + rewrite fmap_cons. simpl. lia.
Qed.
End ImportSkills.

(** X25: On a skill table whose names are pairwise different, the import of
    skills never fails at the commit: no skill added has the name of
    another skill. It adds skills and removes or renames none; the two
    counters add up to the number of names offered (a row without a name
    counts once); every name offered is, up to [normalize], the name of a
    skill afterwards; and if no two skills of the table were equal up to
    [normalize], none are afterwards. *)
Theorem import_skills_csv_adds_new_names_only
    (skill_names : list string) (rows : list csv_row) :
  NoDup skill_names ->
  exists skills inserted skipped,
    import_skills_csv skill_names rows = Imported skills inserted skipped
    /\ NoDup skills
    /\ skill_names `prefix_of` skills
    /\ length skills = length skill_names + inserted
    /\ inserted + skipped = sum_list (offered <$> rows)
    /\ (forall row name,
          row ∈ rows ->
          name ∈ split_multi_value_field
                   (find_row_value row ["name"; "skill"; "skill_name"]) ->
          normalize name ∈ normalize <$> skills)
    /\ (NoDup (normalize <$> skill_names) -> NoDup (normalize <$> skills)).
Proof.
  intros Hnames.
  set (st0 := SkillsImport (list_to_set (normalize <$> skill_names)) [] 0 0).
  assert (Hinv0 : skills_import_inv skill_names st0).
  { split; [| split; [constructor | split; [by intros ? ?%elem_of_nil | done]]].
    intros key. simpl. by rewrite app_nil_r, elem_of_list_to_set. }
  destruct (import_skills_rows_inv skill_names rows st0 Hinv0)
    as ((Hkeys & Hnd & Hnew & Hcount) & Hoffered & _ & Htotal).
  unfold import_skills_csv. fold st0.
  set (st := foldl import_skills_row st0 rows) in *.
  assert (Hdistinct : NoDup (skill_names ++ added st)).
  { apply NoDup_app. split; [done |]. split; [| by eapply NoDup_fmap_1].
    intros name Hold Hadded. apply (Hnew name Hadded).
    apply list_elem_of_fmap. by exists name. }
  rewrite bool_decide_eq_true_2 by done.
  exists (skill_names ++ added st), (inserted_count st), (skipped_count st).
  split; [done |]. split; [done |]. split; [by apply prefix_app_r |].
  split; [by rewrite length_app, Hcount |]. split; [simpl in Htotal; lia |]. split.
  - intros row name Hrow Hname. apply Hkeys. by eapply Hoffered.
  - intros Hold. rewrite fmap_app. apply NoDup_app. split; [done |]. split; [| done].
    intros key Hkey (name & -> & Hadded)%list_elem_of_fmap. by apply (Hnew name).
Qed.

Lemma import_skills_csv_adds_new_names_only_witness :
  exists skills inserted skipped,
    import_skills_csv ["Math"; "Art"]
      [[("name", Some " math ; Music")]; [("skill", Some "MUSIC|Art ")]; [("name", None)]]
    = Imported skills inserted skipped
    /\ NoDup skills
    /\ ["Math"; "Art"] `prefix_of` skills
    /\ length skills = length ["Math"; "Art"] + inserted
    /\ inserted + skipped
       = sum_list (offered
                     <$> [[("name", Some " math ; Music")]; [("skill", Some "MUSIC|Art ")];
                          [("name", None)]])
    /\ (forall row name,
          row ∈ [[("name", Some " math ; Music")]; [("skill", Some "MUSIC|Art ")];
                 [("name", None)]] ->
          name ∈ split_multi_value_field
                   (find_row_value row ["name"; "skill"; "skill_name"]) ->
          normalize name ∈ normalize <$> skills)
    /\ (NoDup (normalize <$> ["Math"; "Art"]) -> NoDup (normalize <$> skills)).
Proof.
  apply import_skills_csv_adds_new_names_only.
  apply (bool_decide_eq_true_1 (NoDup _)). vm_compute. reflexivity.
Defined.

(** ** A run of the allocator, written to the table *)

(** Sorting commutes with a projection of the elements that the keys are
    computed from. *)
Lemma insert_by_project {K A B} (leb : K -> K -> bool) (f : A -> B) (p : K * A) l :
  insert_by leb (prod_map id f p) (prod_map id f <$> l)
  = prod_map id f <$> insert_by leb p l.
Proof.
  induction l as [| q l IH]; [done |].
  rewrite fmap_cons. simpl. destruct (leb p.1 q.1); [done |].
  rewrite fmap_cons. f_equal. exact IH.
Qed.

Lemma sort_decorated_project {K A B} (leb : K -> K -> bool) (f : A -> B) l :
  sort_decorated leb (prod_map id f <$> l) = prod_map id f <$> sort_decorated leb l.
Proof.
  induction l as [| p l IH]; [done |].
  rewrite fmap_cons, !sort_decorated_cons, IH. apply insert_by_project.
Qed.

Lemma sort_by_key_project {K A B} (leb : K -> K -> bool) (key : B -> option K)
    (f : A -> B) (l : list A) :
  sort_by_key leb key (f <$> l)
  = (fmap f : list A -> list B) <$> sort_by_key leb (fun a => key (f a)) l.
Proof.
  unfold sort_by_key.
  assert (Hdec : mapM (fun x => k ← key x; Some (k, x)) (f <$> l)
                 = (fmap (prod_map id f) : list (K * A) -> list (K * B))
                     <$> mapM (fun x => k ← key (f x); Some (k, x)) l).
  { induction l as [| a l IH]; [done |].
    rewrite fmap_cons. simpl.
    destruct (key (f a)) as [k |]; simpl; [| done].
    simpl in IH. rewrite IH.
    by destruct (mapM (fun x => k0 ← key (f x); Some (k0, x)) l). }
  rewrite Hdec. destruct (mapM _ l) as [ks |]; simpl; [| done].
  f_equal. rewrite sort_decorated_project, <- !list_fmap_compose.
  apply list_fmap_ext. by intros i [k a] _.
Qed.

Lemma grid_sessions_query_snd (table : list Session.t) :
  snd <$> grid_sessions_query table = filter (fun s => in_grid s) table.
Proof. unfold grid_sessions_query. by rewrite (filter_rows _ table). Qed.

Lemma elem_of_grid_sessions_query (table : list Session.t) r s :
  (r, s) ∈ grid_sessions_query table <-> table !! r = Some s /\ in_grid s = true.
Proof.
  unfold grid_sessions_query. rewrite list_elem_of_filter, elem_of_rows. simpl.
  rewrite Is_true_true. tauto.
Qed.

Lemma grid_sessions_query_NoDup (table : list Session.t) :
  NoDup (fst <$> grid_sessions_query table).
Proof.
  apply (NoDup_fmap_fst (filter _ _)).
  - intros r s1 s2 [_ H1%elem_of_rows]%list_elem_of_filter
      [_ H2%elem_of_rows]%list_elem_of_filter. congruence.
  - apply NoDup_filter, rows_are_NoDup.
Qed.

(** The order of a run: the grid rows with their references, and the
    rows alone are the rows the loop is given. *)
Lemma allocation_order_spec (table : list Session.t) :
  exists order,
    allocation_order table = Some order
    /\ sort_by_key triple_leb session_sort_key (filter (fun s => in_grid s) table)
       = Some (snd <$> order)
    /\ order ≡ₚ grid_sessions_query table.
Proof.
  unfold allocation_order.
  destruct (sort_by_key_is_Some triple_leb (fun p : ref * Session.t => session_sort_key p.2)
              (grid_sessions_query table)) as [order Horder].
  { apply Forall_forall. intros [r s] [_ Hg]%elem_of_grid_sessions_query.
    by apply session_sort_key_total. }
  exists order. split; [done |]. split.
  - rewrite <- grid_sessions_query_snd, sort_by_key_project. by rewrite Horder.
  - by eapply sort_by_key_perm.
Qed.


Lemma write_rows_lookup_ne (table : list Session.t) written r :
  r ∉ fst <$> written -> write_rows table written !! r = table !! r.
Proof.
  revert table. induction written as [| p w IH]; intros table Hout; [done |].
  rewrite fmap_cons in Hout. apply not_elem_of_cons in Hout as [Hne Hout].
  unfold write_rows in *. cbn [foldl]. rewrite IH by done.
  by apply list_lookup_insert_ne.
Qed.

Lemma write_rows_lookup (table : list Session.t) written r s :
  NoDup (fst <$> written) -> (r, s) ∈ written -> r < length table ->
  write_rows table written !! r = Some s.
Proof.
  revert table. induction written as [| p w IH]; intros table Hnd Hin Hlen;
    [by apply elem_of_nil in Hin |].
  rewrite fmap_cons in Hnd. apply NoDup_cons in Hnd as [Hp Hnd].
  change (write_rows table (p :: w)) with (write_rows (<[p.1 := p.2]> table) w).
  apply elem_of_cons in Hin as [<- | Hin].
  - rewrite write_rows_lookup_ne by done. simpl. by apply list_lookup_insert_eq.
  - apply IH; [done | done | by rewrite length_insert].
Qed.

(** The two invariants and the count of the index page do not depend on
    the order of the rows. *)
Lemma I2_lookup_perm (l1 l2 : list Session.t) : l1 ≡ₚ l2 -> I2 l1 -> I2 l2.
Proof.
  intros Hperm HI. symmetry in Hperm.
  apply Permutation_inj in Hperm as (Hlen & f & Hinj & Hf).
  intros i j si sj tid Hi Hj Hne. rewrite Hf in Hi, Hj.
  apply (HI (f i) (f j) si sj tid Hi Hj). intros Heq. by apply Hne, Hinj.
Qed.

Lemma unassigned_count_perm (l1 l2 : list Session.t) :
  l1 ≡ₚ l2 -> unassigned_count l1 = unassigned_count l2.
Proof. intros Hperm. unfold unassigned_count. by rewrite Hperm. Qed.

Lemma unassigned_count_filter (l : list Session.t) :
  unassigned_count (filter (fun s => in_grid s) l) = unassigned_count l.
Proof.
  unfold unassigned_count. rewrite list_filter_filter. f_equal.
  apply list_filter_iff. intros s. destruct (in_grid s); simpl; tauto.
Qed.

Lemma allocate_sessions_total teachers table : is_Some (allocate_sessions teachers table).
Proof.
  destruct (grid_rows_sorted table) as (sorted & Hsorted & _ & Hgrid & _).
  destruct (allocate_loop_total (teachers_by_name teachers)
              (AllocState ∅ (dict_by_id (fun _ => 0) (teachers_by_name teachers)) 0 0)
              _ Hgrid) as [[st out] Hloop].
  { intros t Ht. by apply dict_by_id_is_Some. }
  unfold allocate_sessions. rewrite Hsorted. simpl. rewrite Hloop. simpl. eauto.
Qed.

(** (I1) is a property of the columns other than the teacher. *)
Lemma I1_forget_teachers (a b : list Session.t) :
  forget_teachers a = forget_teachers b -> I1 b -> I1 a.
Proof.
  intros Hsame HI i j si sj Hi Hj Hne Hgi Hgj.
  destruct (forget_teachers_row _ _ _ _ Hsame Hi) as (ti & Hti & Hfi).
  destruct (forget_teachers_row _ _ _ _ Hsame Hj) as (tj & Htj & Hfj).
  apply forget_teacher_fields in Hfi as (Hg1 & -> & _).
  apply forget_teacher_fields in Hfj as (Hg2 & -> & _).
  apply (HI i j ti tj); congruence.
Qed.

(** ** The commit of a run *)

Lemma write_rows_cons (table : list Session.t) p w :
  write_rows table (p :: w) = write_rows (<[p.1 := p.2]> table) w.
Proof. reflexivity. Qed.

(** A flush that succeeds has written every row. *)
Lemma flush_Some (table : list Session.t) updates table' :
  flush table updates = Some table' -> table' = write_rows table updates.
Proof.
  revert table. induction updates as [| p rest IH]; intros table; simpl.
  - by intros [= <-].
  - unfold update_row. destruct (teacher_slot_taken table p.1 p.2); simpl; [done |].
    intros ->%IH. reflexivity.
Qed.

(** A flush that fails has met the index at one of its rows, after
    writing the rows before. *)
Lemma flush_None (table : list Session.t) updates :
  flush table updates = None ->
  exists pre p post,
    updates = pre ++ p :: post
    /\ teacher_slot_taken (write_rows table pre) p.1 p.2 = true.
Proof.
  revert table. induction updates as [| p rest IH]; intros table; simpl; [done |].
  unfold update_row. destruct (teacher_slot_taken table p.1 p.2) eqn:Htaken; simpl.
  - intros _. by exists [], p, rest.
  - intros (pre & q & post & -> & Hq)%IH. by exists (p :: pre), q, post.
Qed.

Lemma teacher_slot_taken_true (table : list Session.t) r s :
  teacher_slot_taken table r s = true ->
  exists i x tid,
    table !! i = Some x /\ i <> r
    /\ hour_of x = hour_of s
    /\ Session.assigned_teacher_id x = Some tid
    /\ Session.assigned_teacher_id s = Some tid.
Proof.
  unfold teacher_slot_taken.
  destruct (Session.day s) as [day |] eqn:Hday; [| done].
  destruct (Session.assigned_teacher_id s) as [tid |] eqn:Htid; [| done].
  intros Hex. apply bool_decide_eq_true_1 in Hex.
  apply Exists_exists in Hex as ([i x] & Hin%elem_of_rows & Hne & Hd & Hs & Ht).
  simpl in *. exists i, x, tid. unfold hour_of. rewrite Hd, Hs, Hday. done.
Qed.

Lemma teacher_slot_taken_unassigned (table : list Session.t) r s :
  Session.assigned_teacher_id s = None -> teacher_slot_taken table r s = false.
Proof. unfold teacher_slot_taken. intros ->. by destruct (Session.day s). Qed.

Lemma with_teacher_None_inj s1 s2 :
  Session.with_teacher None s1 = Session.with_teacher None s2 ->
  Session.assigned_teacher_id s1 = Session.assigned_teacher_id s2 -> s1 = s2.
Proof. destruct s1, s2. cbv [Session.with_teacher]. simpl. congruence. Qed.

Section CommitObjects.
Variables (table : list Session.t) (objects : list (ref * Session.t)).
Hypothesis objects_NoDup : NoDup (fst <$> objects).
Hypothesis objects_loaded :
  forall r o, (r, o) ∈ objects ->
    exists s, table !! r = Some s
              /\ Session.with_teacher None o = Session.with_teacher None s.

Lemma dirty_objects_NoDup :
  NoDup (fst <$> order_by_id (filter (fun p => is_dirty table p) objects)).
Proof.
  rewrite order_by_id_perm. eapply sublist_NoDup; [exact objects_NoDup |].
  apply fmap_sublist, sublist_filter.
Qed.

Lemma elem_of_dirty_objects p :
  p ∈ order_by_id (filter (fun p => is_dirty table p) objects)
  <-> is_dirty table p = true /\ p ∈ objects.
Proof. rewrite order_by_id_perm, list_elem_of_filter, Is_true_true. done. Qed.

(** Writing the dirty objects, in whatever order, leaves the table that
    writing all the objects leaves: an object that is not dirty is equal
    to its row. *)
Lemma write_rows_dirty :
  write_rows table (order_by_id (filter (fun p => is_dirty table p) objects))
  = write_rows table objects.
Proof.
  apply list_eq. intros i.
  set (dirty := order_by_id (filter (fun p => is_dirty table p) objects)).
  destruct (decide (i ∈ fst <$> dirty)) as [Hi | Hi].
  - apply list_elem_of_fmap in Hi as ([i' o] & -> & Hin). simpl.
    pose proof (proj1 (elem_of_dirty_objects _) Hin) as [_ Hobj].
    destruct (objects_loaded _ _ Hobj) as (s & Hs & _).
    rewrite (write_rows_lookup table dirty i' o);
      [| apply dirty_objects_NoDup | done | by eapply lookup_lt_Some].
    symmetry. apply write_rows_lookup; [done | done | by eapply lookup_lt_Some].
  - rewrite write_rows_lookup_ne by done.
    destruct (decide (i ∈ fst <$> objects)) as [Hobj | Hobj];
      [| by rewrite write_rows_lookup_ne].
    apply list_elem_of_fmap in Hobj as ([i' o] & -> & Hin). simpl in *.
    destruct (objects_loaded _ _ Hin) as (s & Hs & Hsame).
    rewrite (write_rows_lookup table objects i' o);
      [| done | done | by eapply lookup_lt_Some].
    rewrite Hs. f_equal. symmetry. apply with_teacher_None_inj; [done |].
    destruct (is_dirty table (i', o)) eqn:Hdirty.
    + exfalso. apply Hi. apply list_elem_of_fmap. exists (i', o). split; [done |].
      by apply elem_of_dirty_objects.
    + unfold is_dirty in Hdirty. apply bool_decide_eq_false_1 in Hdirty.
      apply dec_stable in Hdirty. simpl in Hdirty. unfold ref in *.
      rewrite Hs in Hdirty. simpl in Hdirty. congruence.
Qed.

(** A commit that succeeds leaves every object written to its row. *)
Lemma commit_Some table' :
  commit table objects = Some table' -> table' = write_rows table objects.
Proof. unfold commit. intros ->%flush_Some. apply write_rows_dirty. Qed.

(** A commit fails only on a teacher that the table holds in the hour, at
    another row than the one being written, as long as the objects
    themselves hold no teacher twice in an hour. *)
Lemma commit_None :
  (forall r1 o1 r2 o2 tid,
     (r1, o1) ∈ objects -> (r2, o2) ∈ objects -> r1 <> r2 ->
     Session.assigned_teacher_id o1 = Some tid ->
     Session.assigned_teacher_id o2 = Some tid ->
     hour_of o1 <> hour_of o2) ->
  commit table objects = None ->
  exists i x j o tid,
    table !! i = Some x /\ (j, o) ∈ objects /\ i <> j
    /\ hour_of x = hour_of o
    /\ Session.assigned_teacher_id x = Some tid
    /\ Session.assigned_teacher_id o = Some tid
    /\ is_dirty table (j, o) = true.
Proof.
  intros Hbooked. unfold commit.
  pose proof dirty_objects_NoDup as Hnd.
  pose proof elem_of_dirty_objects as Hdirty.
  set (dirty := order_by_id (filter (fun p => is_dirty table p) objects)) in *.
  intros (pre & [j o] & post & Hsplit & Htaken)%flush_None.
  apply teacher_slot_taken_true in Htaken as (i & x & tid & Hx & Hne & Hhour & Htx & Hto).
  cbn [fst snd] in *.
  assert (Hjo : is_dirty table (j, o) = true /\ (j, o) ∈ objects).
  { apply Hdirty. rewrite Hsplit. apply elem_of_app. right. apply list_elem_of_here. }
  destruct Hjo as [Hjdirty Hjobj].
  rewrite Hsplit, fmap_app in Hnd. apply NoDup_app in Hnd as (Hndpre & _ & _).
  destruct (decide (i ∈ fst <$> pre)) as [Hi | Hi].
  - exfalso. apply list_elem_of_fmap in Hi as ([i' o'] & -> & Hin). cbn [fst snd] in *.
    assert (Hobj : (i', o') ∈ objects).
    { apply Hdirty. rewrite Hsplit. apply elem_of_app. by left. }
    destruct (objects_loaded _ _ Hobj) as (s & Hs & _).
    pose proof (write_rows_lookup table pre i' o' Hndpre Hin (lookup_lt_Some _ _ _ Hs))
      as Hw.
    assert (Heq : Some o' = Some x) by (rewrite <- Hw; exact Hx).
    injection Heq as <-. by apply (Hbooked i' o' j o tid).
  - pose proof (write_rows_lookup_ne table pre i Hi) as Hw.
    assert (Hxi : table !! i = Some x) by (rewrite <- Hw; exact Hx).
    by exists i, x, j, o, tid.
Qed.
End CommitObjects.

(** ** A run of the allocator, committed *)

Section RunObjects.
Variables (teachers : list Teacher.t) (table : list Session.t).
Variables (order : list (ref * Session.t)) (r : alloc_result).
Hypothesis order_of_run : allocation_order table = Some order.
Hypothesis result_of_run : allocate_sessions teachers table = Some r.

(** The objects of a run: the rows written, each with the reference of
    the row it was loaded from. *)
Lemma run_objects_spec :
  fst <$> zip (fst <$> order) (sessions_after r) = fst <$> order
  /\ snd <$> zip (fst <$> order) (sessions_after r) = sessions_after r
  /\ NoDup (fst <$> zip (fst <$> order) (sessions_after r))
  /\ (forall r0 o, (r0, o) ∈ zip (fst <$> order) (sessions_after r) ->
        in_grid o = true
        /\ exists s, table !! r0 = Some s /\ in_grid s = true
                     /\ Session.with_teacher None o = Session.with_teacher None s)
  /\ (forall i s, table !! i = Some s -> in_grid s = true ->
        exists o, (i, o) ∈ zip (fst <$> order) (sessions_after r))
  /\ (forall r1 o1 r2 o2 tid,
        (r1, o1) ∈ zip (fst <$> order) (sessions_after r) ->
        (r2, o2) ∈ zip (fst <$> order) (sessions_after r) ->
        r1 <> r2 ->
        Session.assigned_teacher_id o1 = Some tid ->
        Session.assigned_teacher_id o2 = Some tid ->
        hour_of o1 <> hour_of o2).
Proof.
  destruct (allocation_order_spec table) as (order' & Horder & Hsorted & Hperm).
  assert (order' = order) as -> by congruence.
  pose proof (allocate_sessions_in_grid _ _ _ result_of_run) as Hgrid.
  destruct (allocate_sessions_inv _ _ _ result_of_run)
    as (sorted & st & Hsorted' & Hloop & Ha & Hu).
  assert (sorted = snd <$> order) as -> by congruence.
  pose proof (allocate_loop_rows _ _ _ _ _ Hloop) as Hrows.
  pose proof (allocate_loop_counts _ _ _ _ _ Hloop) as [_ Hlen].
  rewrite !length_fmap in Hlen.
  apply allocate_loop_commits in Hloop as (_ & _ & HI2); [| apply cleared_rows].
  set (out := sessions_after r) in *.
  set (W := zip (fst <$> order) out).
  assert (Hfst : fst <$> W = fst <$> order).
  { apply fst_zip. rewrite length_fmap. lia. }
  assert (Hsnd : snd <$> W = out).
  { apply snd_zip. rewrite length_fmap. lia. }
  assert (Hnd : NoDup (fst <$> W)).
  { rewrite Hfst, Hperm. apply grid_sessions_query_NoDup. }
  assert (Horig : forall r0 s, (r0, s) ∈ order -> table !! r0 = Some s /\ in_grid s = true).
  { intros r0 s Hin. rewrite Hperm in Hin. by apply elem_of_grid_sessions_query. }
  assert (Hpair : forall i r0 o, W !! i = Some (r0, o) ->
            out !! i = Some o
            /\ exists s, order !! i = Some (r0, s)
                         /\ Session.with_teacher None o = Session.with_teacher None s).
  { intros i r0 o Hi. unfold W in Hi.
    apply lookup_zip_with_Some in Hi as (x & y & [= -> ->] & Hx & Hy).
    split; [done |].
    apply list_lookup_fmap_Some in Hx as ([r1 s] & -> & Hs). exists s. split; [done |].
    assert (Hat : (Session.with_teacher None <$> out) !! i
                  = Some (Session.with_teacher None y))
      by (by rewrite list_lookup_fmap, Hy).
    rewrite Hrows, <- !list_fmap_compose, list_lookup_fmap, Hs in Hat.
    assert (Heq : Some (Session.with_teacher None s) = Some (Session.with_teacher None y))
      by exact Hat.
    congruence. }
  split; [done |]. split; [done |]. split; [done |]. split; [| split].
  - intros r0 o Hin. pose proof Hin as [i Hi]%list_elem_of_lookup_1.
    destruct (Hpair i r0 o Hi) as (Ho & s & Hs & Hsame).
    destruct (Horig r0 s (list_elem_of_lookup_2 _ _ _ Hs)) as [Ht Hg].
    split.
    + rewrite Forall_forall in Hgrid. by eapply Hgrid, list_elem_of_lookup_2.
    + by exists s.
  - intros i s Hs Hg.
    assert (Hi : i ∈ fst <$> W).
    { rewrite Hfst. apply list_elem_of_fmap. exists (i, s). split; [done |].
      rewrite Hperm. by apply elem_of_grid_sessions_query. }
    apply list_elem_of_fmap in Hi as ([i' o] & -> & Hin). by exists o.
  - intros r1 o1 r2 o2 tid [a Ha']%list_elem_of_lookup_1 [b Hb']%list_elem_of_lookup_1
      Hne Ht1 Ht2.
    destruct (Hpair a r1 o1 Ha') as (Hoa & _). destruct (Hpair b r2 o2 Hb') as (Hob & _).
    rewrite Forall_forall in Hgrid.
    apply (HI2 a b o1 o2 tid); try done.
    + intros ->. apply Hne. rewrite Ha' in Hb'. by injection Hb'.
    + by eapply Hgrid, list_elem_of_lookup_2.
    + by eapply Hgrid, list_elem_of_lookup_2.
Qed.

(** The table with every object of the run written to its row. *)
Lemma written_table_spec :
  filter (fun s => in_grid s) (write_rows table (zip (fst <$> order) (sessions_after r)))
    ≡ₚ sessions_after r
  /\ forget_teachers (write_rows table (zip (fst <$> order) (sessions_after r)))
     = forget_teachers table
  /\ (forall i s, table !! i = Some s -> in_grid s = false ->
        write_rows table (zip (fst <$> order) (sessions_after r)) !! i = Some s)
  /\ I2 (write_rows table (zip (fst <$> order) (sessions_after r)))
  /\ (I1 table -> I1 (write_rows table (zip (fst <$> order) (sessions_after r))))
  /\ unassigned_total r
     = unassigned_count (write_rows table (zip (fst <$> order) (sessions_after r)))
  /\ assigned_total r
     = length (filter (fun s => Session.assigned_teacher_id s <> None)
                 (filter (fun s => in_grid s)
                    (write_rows table (zip (fst <$> order) (sessions_after r))))).
Proof.
  destruct run_objects_spec as (Hfst & Hsnd & Hnd & Hobj & Hmember & Hbooked).
  pose proof (allocate_sessions_in_grid _ _ _ result_of_run) as Hgrid.
  destruct (allocate_sessions_inv _ _ _ result_of_run)
    as (sorted & st & _ & Hloop & Ha & Hu).
  destruct (allocate_loop_tally _ _ _ _ _ Hloop (cleared_rows _)) as [Hta Htu].
  clear Hloop.
  set (out := sessions_after r) in *.
  set (W := zip (fst <$> order) out) in *.
  assert (Hwritten : forall r0 o, (r0, o) ∈ W -> write_rows table W !! r0 = Some o).
  { intros r0 o Hin. destruct (Hobj r0 o Hin) as (_ & s & Hs & _).
    apply write_rows_lookup; [done | done | by eapply lookup_lt_Some]. }
  assert (Hkept : forall i, i ∉ fst <$> W -> write_rows table W !! i = table !! i).
  { intros i Hi. by apply write_rows_lookup_ne. }
  assert (Hforget : forget_teachers (write_rows table W) = forget_teachers table).
  { apply list_eq. intros i. unfold forget_teachers. rewrite !list_lookup_fmap.
    destruct (decide (i ∈ fst <$> W)) as [Hi | Hi]; [| by rewrite Hkept].
    apply list_elem_of_fmap in Hi as ([i' o] & -> & Hin). simpl.
    destruct (Hobj i' o Hin) as (_ & s & Hs & _ & Hsame).
    pose proof (Hwritten i' o Hin) as Ho. unfold ref in *.
    rewrite Ho, Hs. simpl. by rewrite Hsame. }
  assert (Hgridrows : forall i s,
            write_rows table W !! i = Some s -> in_grid s = true -> (i, s) ∈ W).
  { intros i s Hs Hg.
    destruct (forget_teachers_row _ _ _ _ Hforget Hs) as (t & Ht & Hsame).
    apply forget_teacher_fields in Hsame as (Hgt & _).
    destruct (Hmember i t Ht) as (o & Hin); [congruence |].
    pose proof (Hwritten i o Hin) as Ho. unfold ref in *. congruence. }
  assert (Hgridperm : filter (fun s => in_grid s) (write_rows table W) ≡ₚ out).
  { rewrite <- Hsnd, (filter_rows _ (write_rows table W)).
    apply fmap_Permutation, NoDup_Permutation.
    - apply NoDup_filter, rows_are_NoDup.
    - eapply NoDup_fmap_1, Hnd.
    - intros [i s]. rewrite list_elem_of_filter, elem_of_rows. simpl. split.
      + intros [Hg Hs]. apply Hgridrows; [done | by apply Is_true_true].
      + intros Hin. destruct (Hobj i s Hin) as (Hg & _).
        split; [by apply Is_true_true | by apply Hwritten]. }
  split; [done |]. split; [done |]. split; [| split; [| split; [| split]]].
  - intros i s Hs Hg. rewrite Hkept; [done |].
    intros ([i' o] & -> & Hin)%list_elem_of_fmap.
    destruct (Hobj i' o Hin) as (_ & s' & Hs' & Hg' & _). simpl in *.
    unfold ref in *. congruence.
  - intros i j si sj tid Hi Hj Hne Hgi Hgj Hti Htj.
    apply (Hbooked i si j sj tid); auto.
  - by apply I1_forget_teachers.
  - rewrite <- unassigned_count_filter, (unassigned_count_perm _ _ Hgridperm).
    rewrite unassigned_count_grid by done. rewrite Hu, Htu. done.
  - rewrite Hgridperm, Ha, Hta. done.
Qed.
End RunObjects.

(** [allocate_sessions] with its commit returns: either the commit is
    refused by the index, and then the table holds, at a row other than
    one the run gives a new teacher, that teacher in the same hour; or
    every row written by the run is in the table committed. *)
Lemma allocate_and_commit_spec (teachers : list Teacher.t) (table : list Session.t) :
  exists order r,
    allocation_order table = Some order
    /\ allocate_sessions teachers table = Some r
    /\ ((allocate_and_commit teachers table = Some IntegrityError
         /\ exists i x j s o tid,
              table !! i = Some x /\ table !! j = Some s /\ i <> j
              /\ in_grid s = true
              /\ o ∈ sessions_after r
              /\ Session.with_teacher None o = Session.with_teacher None s
              /\ hour_of x = hour_of s
              /\ Session.assigned_teacher_id x = Some tid
              /\ Session.assigned_teacher_id o = Some tid
              /\ Session.assigned_teacher_id s <> Some tid)
        \/ allocate_and_commit teachers table
           = Some (Committed (write_rows table (zip (fst <$> order) (sessions_after r)))
                     (assigned_total r) (unassigned_total r))).
Proof.
  destruct (allocation_order_spec table) as (order & Horder & _).
  destruct (allocate_sessions_total teachers table) as [r Hrun].
  exists order, r. split; [done |]. split; [done |].
  destruct (run_objects_spec teachers table order r Horder Hrun)
    as (Hfst & Hsnd & Hnd & Hobj & Hmember & Hbooked).
  assert (Hloaded : forall r0 o, (r0, o) ∈ zip (fst <$> order) (sessions_after r) ->
            exists s, table !! r0 = Some s
                      /\ Session.with_teacher None o = Session.with_teacher None s).
  { intros r0 o Hin. destruct (Hobj r0 o Hin) as (_ & s & Hs & _ & Hsame). eauto. }
  unfold allocate_and_commit. rewrite Horder, Hrun. cbn [mbind option_bind].
  destruct (commit table (zip (fst <$> order) (sessions_after r))) as [table' |] eqn:Hcommit.
  - right. by apply commit_Some in Hcommit as ->.
  - left. split; [done |].
    destruct (commit_None table _ Hnd Hloaded Hbooked Hcommit)
      as (i & x & j & o & tid & Hx & Hin & Hne & Hhour & Htx & Hto & Hdirty).
    destruct (Hobj j o Hin) as (Hgo & s & Hs & Hg & Hsame).
    exists i, x, j, s, o, tid.
    destruct (forget_teacher_columns _ _ Hsame) as (_ & Hd & Hsl).
    split; [done |]. split; [done |]. split; [done |]. split; [done |]. split.
    { rewrite <- Hsnd. apply list_elem_of_fmap. by exists (j, o). }
    split; [done |]. split.
    { rewrite Hhour. unfold hour_of. by rewrite Hd, Hsl. }
    split; [done |]. split; [done |].
    unfold is_dirty in Hdirty. apply bool_decide_eq_true_1 in Hdirty.
    simpl in Hdirty. unfold ref in *. rewrite Hs in Hdirty. simpl in Hdirty.
    congruence.
Qed.

(** X26: [run_allocation] returns for every table. When the grid is
    empty it does nothing. Otherwise [allocate_sessions] runs and commits,
    and either the commit is refused by the index on (day, slot, teacher),
    which happens only when the table holds the teacher that the run gives
    to a row, in the same hour, at another row; or the table committed
    differs from the table before in the teachers of the grid rows only:
    the rows, their order and their other columns are as before, and the
    rows outside the grid are untouched. The grid rows of the table
    committed are the rows written by the loop; no teacher is assigned to
    two grid rows of the same day and slot; a table without duplicated
    cells stays so; and the two counters logged are the number of grid
    rows with a teacher and the number without, the latter being the
    count the index page shows. *)
Theorem run_allocation_commits_or_raises
    (teachers : list Teacher.t) (table : list Session.t) :
  exists outcome,
    run_allocation teachers table = Some outcome
    /\ match outcome with
       | NoSessions => Forall (fun s => in_grid s = false) table
       | Ran IntegrityError =>
           exists r i x j s o tid,
             allocate_sessions teachers table = Some r
             /\ table !! i = Some x /\ table !! j = Some s /\ i <> j
             /\ in_grid s = true
             /\ o ∈ sessions_after r
             /\ Session.with_teacher None o = Session.with_teacher None s
             /\ hour_of x = hour_of s
             /\ Session.assigned_teacher_id x = Some tid
             /\ Session.assigned_teacher_id o = Some tid
             /\ Session.assigned_teacher_id s <> Some tid
       | Ran (Committed table' assigned unassigned) =>
           exists r,
             allocate_sessions teachers table = Some r
             /\ filter (fun s => in_grid s) table' ≡ₚ sessions_after r
             /\ assigned = assigned_total r /\ unassigned = unassigned_total r
             /\ forget_teachers table' = forget_teachers table
             /\ (forall i s, table !! i = Some s -> in_grid s = false ->
                             table' !! i = Some s)
             /\ I2 table' /\ (I1 table -> I1 table')
             /\ unassigned = unassigned_count table'
             /\ assigned
                = length (filter (fun s => Session.assigned_teacher_id s <> None)
                            (filter (fun s => in_grid s) table'))
       end.
Proof.
  unfold run_allocation.
  destruct (length (grid_sessions_query table) =? 0)%nat eqn:Hcount.
  { eexists. split; [done |]. apply Nat.eqb_eq, length_zero_iff_nil in Hcount.
    apply Forall_forall. intros s [i Hi]%list_elem_of_lookup_1.
    destruct (in_grid s) eqn:Hg; [| done].
    assert (Hin : (i, s) ∈ grid_sessions_query table)
      by (by apply elem_of_grid_sessions_query).
    rewrite Hcount in Hin. by apply elem_of_nil in Hin. }
  destruct (allocate_and_commit_spec teachers table)
    as (order & r & Horder & Hrun & [[-> Hclash] | ->]); simpl.
  - eexists. split; [done |].
    destruct Hclash as (i & x & j & s & o & tid & Hclash).
    by exists r, i, x, j, s, o, tid.
  - eexists. split; [done |]. exists r.
    destruct (written_table_spec teachers table order r Horder Hrun)
      as (Hperm & Hforget & Hkept & HI2 & HI1 & Hu & Ha).
    done.
Qed.

(** C4 (the code departs from the claim): two tables that differ only in
    the teachers assigned before. The loop computes the same rows for
    both, Ann for Grade 1 and Bob for Grade 2. On the table that holds
    the two teachers the other way round the commit writes row 1 first,
    with Ann, while row 2 still holds Ann in that hour: the index refuses
    it and nothing is assigned. On the table that already holds this
    assignment nothing is written and the commit succeeds. *)
Theorem C4_prior_assignments_decide_commit :
  Session.with_teacher None
    <$> [monday_8 1 1 "Grade 1" (Some 2%Z); monday_8 2 1 "Grade 2" (Some 1%Z)]
  = Session.with_teacher None
      <$> [monday_8 1 1 "Grade 1" (Some 1%Z); monday_8 2 1 "Grade 2" (Some 2%Z)]
  /\ allocate_sessions ann_and_bob
       [monday_8 1 1 "Grade 1" (Some 2%Z); monday_8 2 1 "Grade 2" (Some 1%Z)]
     = Some (AllocResult
               [monday_8 1 1 "Grade 1" (Some 1%Z); monday_8 2 1 "Grade 2" (Some 2%Z)] 2 0)
  /\ allocate_and_commit ann_and_bob
       [monday_8 1 1 "Grade 1" (Some 2%Z); monday_8 2 1 "Grade 2" (Some 1%Z)]
     = Some IntegrityError
  /\ allocate_and_commit ann_and_bob
       [monday_8 1 1 "Grade 1" (Some 1%Z); monday_8 2 1 "Grade 2" (Some 2%Z)]
     = Some (Committed
               [monday_8 1 1 "Grade 1" (Some 1%Z); monday_8 2 1 "Grade 2" (Some 2%Z)] 2 0).
Proof. repeat split; vm_compute; reflexivity. Qed.

(** C8 (the code departs from the claim): one teacher and two sessions
    in the same hour, the second of which holds the teacher. The loop
    gives the teacher to the first session and leaves the second without
    a match, counted as unassigned; the commit then writes row 1 with the
    teacher while row 2 still holds them in that hour, and the index
    refuses it: [allocate_sessions] raises and the request fails. *)
Theorem C8_allocate_raises_at_commit :
  allocate_sessions [Teacher.mk 1 "Ann" "Mon 08:00-09:00" [1%Z]]
    [monday_8 1 1 "Grade 1" None; monday_8 2 1 "Grade 2" (Some 1%Z)]
  = Some (AllocResult
            [monday_8 1 1 "Grade 1" (Some 1%Z); monday_8 2 1 "Grade 2" None] 1 1)
  /\ allocate_and_commit [Teacher.mk 1 "Ann" "Mon 08:00-09:00" [1%Z]]
       [monday_8 1 1 "Grade 1" None; monday_8 2 1 "Grade 2" (Some 1%Z)]
     = Some IntegrityError
  /\ run_allocation [Teacher.mk 1 "Ann" "Mon 08:00-09:00" [1%Z]]
       [monday_8 1 1 "Grade 1" None; monday_8 2 1 "Grade 2" (Some 1%Z)]
     = Some (Ran IntegrityError).
Proof. repeat split; vm_compute; reflexivity. Qed.

(** ** The start-up steps on the session table *)

(** Every row the repair leaves is a row of the table, up to its
    teacher. *)
Lemma repaired_rows_from_table (table : list Session.t) s :
  s ∈ table_after (deduplicate_grid_sessions table) ->
  exists s0, s0 ∈ table /\ Session.with_teacher None s = Session.with_teacher None s0.
Proof.
  destruct (table_after_surviving table) as (-> & _).
  destruct (repaired_state_spec table) as (Hforget & _).
  unfold surviving.
  intros ([r s'] & -> & [_ Hs%elem_of_rows]%list_elem_of_filter)%list_elem_of_fmap.
  destruct (forget_teachers_row _ _ _ _ Hforget Hs) as (s0 & Hs0 & Hsame).
  exists s0. split; [by eapply list_elem_of_lookup_2 | done].
Qed.

Lemma repaired_table_I1 (table : list Session.t) :
  I1 (table_after (deduplicate_grid_sessions table)).
Proof.
  destruct (table_after_surviving table) as (-> & _).
  destruct (repaired_state_spec table) as (Hforget & Hdeleted & _).
  apply I1_of_refs; [apply surviving_rows_NoDup |].
  intros r1 s1 r2 s2 [H1 Hk1]%elem_of_surviving_rows [H2 Hk2]%elem_of_surviving_rows
    Hne Hg1 Hg2 Hcell.
  destruct (forget_teachers_row _ _ _ _ Hforget H1) as (t1 & Ht1 & Hf1).
  destruct (forget_teachers_row _ _ _ _ Hforget H2) as (t2 & Ht2 & Hf2).
  apply forget_teacher_fields in Hf1 as (Hgrid1 & Hcell1 & _).
  apply forget_teacher_fields in Hf2 as (Hgrid2 & Hcell2 & _).
  assert (Hl1 : (r1, t1) ∈ loaded_rows table)
    by (apply elem_of_loaded_rows; split; [done | congruence]).
  assert (Hl2 : (r2, t2) ∈ loaded_rows table)
    by (apply elem_of_loaded_rows; split; [done | congruence]).
  destruct (cell_group_of_loaded table r1 t1 Hl1) as (g & Hg & Hmembers).
  assert (Hkept : forall r, r ∈ g -> r ∉ deleted (repaired_state table) -> head g = Some r).
  { intros r Hr Hkeep. apply head_of_kept; [done |]. intros Htail. apply Hkeep.
    rewrite Hdeleted. apply elem_of_concat. exists (tail g). split; [done |].
    apply list_elem_of_fmap. by exists g. }
  apply Hne.
  assert (Hh1 : head g = Some r1) by (apply Hkept; [by apply (Hmembers r1 t1 Hl1) | done]).
  assert (Hh2 : head g = Some r2).
  { apply Hkept; [| done]. apply (Hmembers r2 t2 Hl2). congruence. }
  unfold ref in *. congruence.
Qed.

(** X27: After the start-up steps no row carries a legacy year group and no
    two rows of the grid share a cell, whatever the table was: the rows
    that the migration moves into the grid are merged with the rows
    already there. Every row left is a row of the table before, up to its
    year group, which is translated, and its teacher. *)
Theorem bootstrap_sessions_migrated_and_deduplicated (table : list Session.t) :
  I1 (bootstrap_sessions table)
  /\ Forall (fun s => legacy_year_group s = None) (bootstrap_sessions table)
  /\ Forall (fun s =>
               exists s0,
                 s0 ∈ table
                 /\ Session.with_teacher None s
                    = Session.with_teacher None
                        (match legacy_year_group s0 with
                         | Some new_value => with_year_group (Some new_value) s0
                         | None => s0
                         end))
       (bootstrap_sessions table).
Proof.
  unfold bootstrap_sessions.
  assert (Hmigrated :
            (migrate_legacy_year_groups table).1
            = (fun s => match legacy_year_group s with
                        | Some new_value => with_year_group (Some new_value) s
                        | None => s
                        end) <$> table
            /\ Forall (fun s => legacy_year_group s = None) (migrate_legacy_year_groups table).1).
  { induction table as [| s table [IH1 IH2]]; [by split |].
    rewrite migrate_legacy_year_groups_cons. cbn [fst]. split; [by rewrite fmap_cons, IH1 |].
    constructor; [| done]. destruct (legacy_year_group s) as [new_value |] eqn:Hs;
      [by apply legacy_year_group_migrated | done]. }
  destruct Hmigrated as [Hmap Hnone]. rewrite Forall_forall in Hnone.
  split; [apply repaired_table_I1 |]. split.
  - apply Forall_forall. intros s (s0 & Hs0 & Hsame)%repaired_rows_from_table.
    specialize (Hnone s0 Hs0). unfold legacy_year_group in *.
    assert (Hy : Session.year_group s = Session.year_group s0).
    { apply forget_teacher_fields in Hsame as (_ & Hcell & _).
      unfold cell_of in Hcell. congruence. }
    by rewrite Hy.
  - apply Forall_forall. intros s (s1 & Hs1 & Hsame)%repaired_rows_from_table.
    rewrite Hmap in Hs1. apply list_elem_of_fmap in Hs1 as (s0 & -> & Hs0).
    by exists s0.
Qed.

(** ** The state of a run counts the rows written *)

Lemma load_in_snoc written s tid :
  load_in (written ++ [s]) tid
  = load_in written tid
    + (if decide (Session.assigned_teacher_id s = Some tid) then 1 else 0).
Proof.
  unfold load_in. rewrite filter_app, length_app, filter_cons, filter_nil.
  by destruct (decide (Session.assigned_teacher_id s = Some tid)).
Qed.

Lemma committed_in_snoc written s hour tid :
  committed_in (written ++ [s]) hour tid
  <-> committed_in written hour tid
      \/ (hour_of s = hour /\ Session.assigned_teacher_id s = Some tid).
Proof.
  unfold committed_in. split.
  - intros (x & [Hx | ->%list_elem_of_singleton]%elem_of_app & Hh & Ht); [left | right]; eauto.
  - intros [(x & Hx & Hh & Ht) | [Hh Ht]].
    + exists x. rewrite elem_of_app. auto.
    + exists s. rewrite elem_of_app, list_elem_of_singleton. auto.
Qed.

Lemma with_teacher_None_id s :
  Session.assigned_teacher_id s = None -> Session.with_teacher None s = s.
Proof. destruct s. simpl. by intros ->. Qed.

Section RunState.
Variable teacher_rows : list Teacher.t.
Implicit Types (st : alloc_state) (session : Session.t) (written : list Session.t).

Lemma run_inv_start :
  run_inv teacher_rows (AllocState ∅ (dict_by_id (fun _ => 0) teacher_rows) 0 0) [].
Proof.
  split.
  - intros t Ht. simpl. destruct (dict_by_id_is_Some (fun _ => 0) _ _ Ht) as [n Hn].
    rewrite Hn. rewrite dict_by_id_lookup in Hn.
    destruct (last _); simpl in Hn; [| done]. by injection Hn as <-.
  - intros hour tid. unfold busy_at. simpl. rewrite lookup_empty. simpl. split.
    + by intros ?%elem_of_empty.
    + by intros (s & ?%elem_of_nil & _).
Qed.

Lemma allocate_one_run_inv st session st' session' written :
  allocate_one teacher_rows st session = Some (st', session') ->
  Session.assigned_teacher_id session = None ->
  run_inv teacher_rows st written -> run_inv teacher_rows st' (written ++ [session']).
Proof.
  intros (matches & Hm & [(_ & -> & ->) | (selected & count & Hsel & Hcount & -> & ->)])%allocate_one_inv
    Hnone [Hload Hbusy].
  - split; simpl.
    + intros t Ht. rewrite load_in_snoc, Hnone.
      rewrite decide_False by done. rewrite Nat.add_0_r. by apply Hload.
    + intros hour tid. rewrite committed_in_snoc, Hbusy, Hnone.
      split; [by left |]. by intros [Hold | [_ Heq]].
  - assert (Hin : selected ∈ teacher_rows).
    { apply select_teacher_elem_of in Hsel.
      by apply (find_matches_elem_of _ _ _ _ _ Hm) in Hsel as [? _]. }
    split; simpl.
    + intros t Ht. rewrite load_in_snoc. simpl.
      destruct (decide (Teacher.id selected = Teacher.id t)) as [Heq | Hne].
      * rewrite Heq, lookup_insert_eq. rewrite decide_True by done.
        rewrite (Hload selected Hin), Heq in Hcount. injection Hcount as <-.
        f_equal. lia.
      * rewrite lookup_insert_ne by done. rewrite decide_False by congruence.
        rewrite Nat.add_0_r. by apply Hload.
    + intros hour tid. rewrite committed_in_snoc. simpl.
      unfold busy_at at 1. destruct (decide (hour_of session = hour)) as [<- | Hne].
      * rewrite lookup_insert_eq. simpl. rewrite elem_of_union, elem_of_singleton, Hbusy.
        split.
        -- intros [-> | Hold]; [by right | by left].
        -- intros [Hold | [_ [= ->]]]; [by right | by left].
      * rewrite lookup_insert_ne by done. fold (busy_at (busy_at_slot st) hour).
        rewrite Hbusy. split; [by left |]. by intros [Hold | [Heq _]].
Qed.

(** The loop up to a row: the state it has reached there is the one the
    rows written before it account for, and the row is written by one
    iteration from that state. *)
Lemma allocate_loop_at st session_rows st' out written w s rest :
  allocate_loop teacher_rows st session_rows = Some (st', out) ->
  Forall (fun x => Session.assigned_teacher_id x = None) session_rows ->
  run_inv teacher_rows st written ->
  out = w ++ s :: rest ->
  exists st1 st2,
    allocate_loop teacher_rows st (Session.with_teacher None <$> w) = Some (st1, w)
    /\ run_inv teacher_rows st1 (written ++ w)
    /\ allocate_one teacher_rows st1 (Session.with_teacher None s) = Some (st2, s).
Proof.
  intros Hloop Hnone. revert st st' out written w Hloop.
  induction Hnone as [| session rows_left Hs _ IH]; intros st st' out written w.
  - intros [= <- <-] _ Hout. by destruct w.
  - intros (st1 & session' & rest' & Hone & Hrest & ->)%allocate_loop_inv Hinv Hout.
    pose proof (allocate_one_row _ _ _ _ _ Hone) as Hrow.
    rewrite (with_teacher_None_id session Hs) in Hrow.
    destruct w as [| x w]; simpl in Hout; injection Hout as <- Hout.
    + exists st, st1. simpl. rewrite app_nil_r, Hrow. done.
    + destruct (IH _ _ _ (written ++ [session']) w Hrest) as (st2 & st3 & Hpre & Hinv2 & Hstep);
        [by eapply allocate_one_run_inv | done |].
      exists st2, st3. rewrite <- app_assoc in Hinv2. split; [| done].
      rewrite fmap_cons. cbn [allocate_loop]. rewrite Hrow, Hone. simpl.
      by rewrite Hpre.
Qed.
End RunState.

(** C3 (amended): at every row of a run, the state the loop has reached
    is the one the rows written before account for: the load of a teacher
    is the number of those rows assigned to them, and a teacher is
    committed in an hour when one of those rows holds them in it. The
    matches of the row are, in the order of the name-ordered teacher list,
    exactly the teachers of the list who hold the required skill, are
    available in the hour and are not committed in it. Without a match
    the row is left without a teacher; otherwise the teacher written is a
    match of smallest load and, at that load, of smallest lower-cased name,
    and every match listed before has a larger load or, at the same load, a
    lower-cased name strictly after: matches equal in both are taken in
    the order of the list. *)
Theorem C3_candidates_and_selection
    (teachers : list Teacher.t) (table : list Session.t) (r : alloc_result)
    (written : list Session.t) (session : Session.t) (rest : list Session.t) :
  NoDup (Teacher.id <$> teachers) ->
  allocate_sessions teachers table = Some r ->
  sessions_after r = written ++ session :: rest ->
  exists st st' matches,
    allocate_loop (teachers_by_name teachers)
      (AllocState ∅ (dict_by_id (fun _ => 0) (teachers_by_name teachers)) 0 0)
      (Session.with_teacher None <$> written) = Some (st, written)
    /\ (forall t, t ∈ teachers_by_name teachers ->
          assigned_count st !! Teacher.id t = Some (load_in written (Teacher.id t)))
    /\ (forall hour tid,
          tid ∈ busy_at (busy_at_slot st) hour <-> committed_in written hour tid)
    /\ find_matches (teachers_by_name teachers) st (Session.with_teacher None session)
       = Some matches
    /\ sublist matches (teachers_by_name teachers)
    /\ (forall t, t ∈ matches
                  <-> candidate (teachers_by_name teachers) written session t)
    /\ allocate_one (teachers_by_name teachers) st (Session.with_teacher None session)
       = Some (st', session)
    /\ match Session.assigned_teacher_id session with
       | None => matches = []
       | Some teacher_id =>
           exists selected before after,
             Teacher.id selected = teacher_id
             /\ select_teacher st matches = Some selected
             /\ matches = before ++ selected :: after
             /\ (forall c, c ∈ matches ->
                   load_in written (Teacher.id selected) < load_in written (Teacher.id c)
                   \/ (load_in written (Teacher.id selected)
                       = load_in written (Teacher.id c)
                       /\ String.leb (Py.lower (Teacher.name selected))
                            (Py.lower (Teacher.name c)) = true))
             /\ (forall c, c ∈ before ->
                   load_in written (Teacher.id selected) < load_in written (Teacher.id c)
                   \/ (load_in written (Teacher.id selected)
                       = load_in written (Teacher.id c)
                       /\ String.leb (Py.lower (Teacher.name c))
                            (Py.lower (Teacher.name selected)) = false))
       end.
Proof.
  intros Hkeys (sorted & st_end & Hsorted & Hloop & _)%allocate_sessions_inv Hout.
  set (teacher_rows := teachers_by_name teachers) in *.
  assert (Hkeys' : NoDup (Teacher.id <$> teacher_rows)).
  { subst teacher_rows. by rewrite teachers_by_name_perm. }
  destruct (allocate_loop_at teacher_rows _ _ _ _ [] written session rest Hloop)
    as (st & st' & Hpre & [Hload Hbusy] & Hone);
    [apply cleared_rows | apply run_inv_start | done |].
  simpl in Hload, Hbusy.
  pose proof Hone as (matches & Hm & Hcases)%allocate_one_inv.
  exists st, st', matches.
  assert (Hcand : forall t, t ∈ matches <-> candidate teacher_rows written session t).
  { intros t. rewrite (find_matches_candidates teacher_rows Hkeys' _ _ _ t Hm).
    unfold candidate. by rewrite Hbusy. }
  assert (Hsub : sublist matches teacher_rows).
  { apply filter_raising_Some in Hm as ->. apply sublist_filter. }
  do 7 (split; [done |]).
  destruct Hcases as [(-> & _ & Hs) | (selected & count & Hsel & Hcount & _ & Hs)].
  - assert (Hnone : Session.assigned_teacher_id session = None) by (by rewrite Hs).
    by rewrite Hnone.
  - assert (Hid : Session.assigned_teacher_id session = Some (Teacher.id selected))
      by (by rewrite Hs).
    rewrite Hid. cbn beta iota. exists selected.
    destruct (select_teacher_spec st matches selected Hsel)
      as (load & before & after & Hl & Hsplit & Hmin & Hfirst).
    assert (Hin : forall c, c ∈ matches -> c ∈ teacher_rows).
    { intros c Hc. by apply Hcand in Hc as [? _]. }
    assert (Hload_sel : load = load_in written (Teacher.id selected)).
    { rewrite (Hload selected) in Hl; [by injection Hl |].
      apply Hin. rewrite Hsplit. apply elem_of_app. right. apply list_elem_of_here. }
    exists before, after. split; [done |]. split; [done |]. split; [done |]. split.
    + intros c Hc. destruct (Hmin c Hc) as (load_c & Hlc & Hle).
      rewrite (Hload c (Hin c Hc)) in Hlc. injection Hlc as <-. by rewrite <- Hload_sel.
    + intros c Hc. destruct (Hfirst c Hc) as (load_c & Hlc & Hle).
      assert (Hc' : c ∈ matches) by (rewrite Hsplit; apply elem_of_app; by left).
      rewrite (Hload c (Hin c Hc')) in Hlc. injection Hlc as <-. by rewrite <- Hload_sel.
Qed.
Lemma C3_candidates_and_selection_witness :
  allocate_sessions ann_and_bob
    [monday_8 1 1 "Grade 1" None; monday_9 2 1 "Grade 1" None]
  = Some (AllocResult
            [monday_8 1 1 "Grade 1" (Some 1%Z); monday_9 2 1 "Grade 1" (Some 2%Z)] 2 0)
  /\ load_in [monday_8 1 1 "Grade 1" (Some 1%Z)] 1 = 1
  /\ load_in [monday_8 1 1 "Grade 1" (Some 1%Z)] 2 = 0
  /\ exists st st' matches,
       allocate_loop (teachers_by_name ann_and_bob)
         (AllocState ∅ (dict_by_id (fun _ => 0) (teachers_by_name ann_and_bob)) 0 0)
         (Session.with_teacher None <$> [monday_8 1 1 "Grade 1" (Some 1%Z)])
       = Some (st, [monday_8 1 1 "Grade 1" (Some 1%Z)])
       /\ (forall t, t ∈ teachers_by_name ann_and_bob ->
             assigned_count st !! Teacher.id t
             = Some (load_in [monday_8 1 1 "Grade 1" (Some 1%Z)] (Teacher.id t)))
       /\ (forall hour tid,
             tid ∈ busy_at (busy_at_slot st) hour
             <-> committed_in [monday_8 1 1 "Grade 1" (Some 1%Z)] hour tid)
       /\ find_matches (teachers_by_name ann_and_bob) st
            (Session.with_teacher None (monday_9 2 1 "Grade 1" (Some 2%Z)))
          = Some matches
       /\ sublist matches (teachers_by_name ann_and_bob)
       /\ (forall t, t ∈ matches
                     <-> candidate (teachers_by_name ann_and_bob)
                           [monday_8 1 1 "Grade 1" (Some 1%Z)]
                           (monday_9 2 1 "Grade 1" (Some 2%Z)) t)
       /\ allocate_one (teachers_by_name ann_and_bob) st
            (Session.with_teacher None (monday_9 2 1 "Grade 1" (Some 2%Z)))
          = Some (st', monday_9 2 1 "Grade 1" (Some 2%Z))
       /\ exists selected before after,
            Teacher.id selected = 2%Z
            /\ select_teacher st matches = Some selected
            /\ matches = before ++ selected :: after
            /\ (forall c, c ∈ matches ->
                  load_in [monday_8 1 1 "Grade 1" (Some 1%Z)] (Teacher.id selected)
                  < load_in [monday_8 1 1 "Grade 1" (Some 1%Z)] (Teacher.id c)
                  \/ (load_in [monday_8 1 1 "Grade 1" (Some 1%Z)] (Teacher.id selected)
                      = load_in [monday_8 1 1 "Grade 1" (Some 1%Z)] (Teacher.id c)
                      /\ String.leb (Py.lower (Teacher.name selected))
                           (Py.lower (Teacher.name c)) = true))
            /\ (forall c, c ∈ before ->
                  load_in [monday_8 1 1 "Grade 1" (Some 1%Z)] (Teacher.id selected)
                  < load_in [monday_8 1 1 "Grade 1" (Some 1%Z)] (Teacher.id c)
                  \/ (load_in [monday_8 1 1 "Grade 1" (Some 1%Z)] (Teacher.id selected)
                      = load_in [monday_8 1 1 "Grade 1" (Some 1%Z)] (Teacher.id c)
                      /\ String.leb (Py.lower (Teacher.name c))
                           (Py.lower (Teacher.name selected)) = false)).
Proof.
  split; [vm_compute; reflexivity |]. split; [reflexivity |]. split; [reflexivity |].
  refine (C3_candidates_and_selection ann_and_bob
            [monday_8 1 1 "Grade 1" None; monday_9 2 1 "Grade 1" None]
            (AllocResult
               [monday_8 1 1 "Grade 1" (Some 1%Z); monday_9 2 1 "Grade 1" (Some 2%Z)] 2 0)
            [monday_8 1 1 "Grade 1" (Some 1%Z)] (monday_9 2 1 "Grade 1" (Some 2%Z)) []
            _ _ _).
  - apply (bool_decide_eq_true_1 (NoDup (Teacher.id <$> ann_and_bob))).
    vm_compute; reflexivity.
  - vm_compute; reflexivity.
  - reflexivity.
Defined.





(** On a table that is not clean a second run can still change the
    table: after the transplant of [transplant_table] the first run leaves
    teacher 7 on both rows of the hour, and the second run clears one. *)
Example repair_again_after_transplant :
  deduplicate_grid_sessions (table_after (deduplicate_grid_sessions transplant_table))
  = RepairResult
      [monday_8 1 1 "Grade 2" (Some 7%Z); monday_8 2 1 "Grade 1" None] 0 1.
Proof. vm_compute. reflexivity. Qed.

(** ** The options of the cells of a schedule *)



(** ** The row kept for a duplicated cell, and a cell of three rows *)




